(** * IKEA Bistro backend: order lifecycle, payments, favorites

    A shallow embedding of the TypeScript server
    (services/orderService.ts, services/paymentService.ts,
    services/receiptService.ts, services/notificationService.ts,
    services/favoriteService.ts, store/database.ts, data/menu.ts,
    routes/orders.ts) together with the properties of its specification.

    Conventions of the embedding:
    - SQLite tables keyed by their primary key are finite maps ([gmap]);
      [INSERT OR REPLACE] is map insertion, [DELETE] is map deletion.
      A row and the object [rowToOrder]/[rowToSession] builds from it
      carry the same fields, so the tables store the objects themselves.
    - JavaScript numbers that the code only uses as integers (prices,
      quantities, order numbers, HTTP status codes) are [Z]; a quantity
      that is not an integer is the separate constructor [NotInteger].
    - A JS object used as a dictionary ([serverMenuById]) is a [gmap] over
      its own properties.
    - A string that the code only tests for truthiness is a [string], the
      absent / undefined value being represented by the empty string.
    - [async] functions run to completion one request at a time: effects
      are threaded through an explicit state, exceptions are the [Throw]
      outcome, and what was written before a throw stays written.
    - The outside world (uuid generator, clock, Stripe, Swish, Telegram) is
      a record of oracles indexed by a tick counter kept in the state, so
      that two calls with the same arguments may answer differently. *)

From Stdlib Require Import ZArith Lia Ascii String.
From stdpp Require Import gmap strings list fin_maps pretty.

Local Open Scope string_scope.
Local Open Scope Z_scope.
Local Open Scope list_scope.

(** ** JavaScript string helpers *)

(** [!s] is true exactly for the empty (or absent) string. *)
Definition truthy (s : string) : bool :=
  match s with EmptyString => false | String _ _ => true end.

(** [hay.startsWith(needle)] *)
Definition startsWith (needle hay : string) : bool := String.prefix needle hay.

(** [hay.includes(needle)] *)
Fixpoint includes (needle hay : string) : bool :=
  String.prefix needle hay ||
  match hay with
  | EmptyString => false
  | String _ rest => includes needle rest
  end.

(** [s.replace(/-/g, '')] *)
Fixpoint remove_dashes (s : string) : string :=
  match s with
  | EmptyString => EmptyString
  | String c rest =>
      if Ascii.eqb c "-"%char then remove_dashes rest
      else String c (remove_dashes rest)
  end.

Definition upper_ascii (c : ascii) : ascii :=
  let n := Ascii.nat_of_ascii c in
  if (97 <=? n)%nat && (n <=? 122)%nat then Ascii.ascii_of_nat (n - 32) else c.

(** [s.toUpperCase()] on the ASCII alphabet of a uuid *)
Fixpoint toUpperCase (s : string) : string :=
  match s with
  | EmptyString => EmptyString
  | String c rest => String (upper_ascii c) (toUpperCase rest)
  end.

(** [s.split('/').pop()]: the text after the last slash. *)
Fixpoint last_segment_aux (acc s : string) : string :=
  match s with
  | EmptyString => acc
  | String c rest =>
      if Ascii.eqb c "/"%char then last_segment_aux EmptyString rest
      else last_segment_aux (acc +:+ String c EmptyString) rest
  end.

Definition last_segment (s : string) : string := last_segment_aux EmptyString s.

(** ** Domain types (types.ts) *)

Inductive PaymentMethod := card | swish.

Inductive OrderStatus := pending | confirmed | ready.

Inductive PaymentSessionStatus := created | processing | succeeded | failed.

#[global] Instance PaymentMethod_eq_dec : EqDecision PaymentMethod.
Proof. solve_decision. Defined.
#[global] Instance OrderStatus_eq_dec : EqDecision OrderStatus.
Proof. solve_decision. Defined.
#[global] Instance PaymentSessionStatus_eq_dec : EqDecision PaymentSessionStatus.
Proof. solve_decision. Defined.

(** The lifecycle [pending -> confirmed -> ready] as a rank. *)
Definition status_rank (s : OrderStatus) : Z :=
  match s with pending => 0 | confirmed => 1 | ready => 2 end.

Record OrderLine := mkOrderLine {
  line_menuItemId : string;
  line_name : string;
  line_quantity : Z;
  priceAtOrder : Z;
}.

Record PaymentSession := mkPaymentSession {
  ps_id : string;
  ps_orderId : string;
  ps_method : PaymentMethod;
  ps_amount : Z;
  ps_status : PaymentSessionStatus;
  externalReference : string;
  ps_createdAt : string;
  ps_updatedAt : string;
}.

Record Order := mkOrder {
  order_id : string;
  orderNumber : Z;
  lines : list OrderLine;
  totalPrice : Z;
  paymentMethod : PaymentMethod;
  status : OrderStatus;
  paymentSessionId : string;
  receiptSent : bool;
  telegramUserId : string;
  storeId : string;
  createdAt : string;
}.

Record TelegramReceipt := mkTelegramReceipt {
  receipt_orderId : string;
  sent : bool;
  sentAt : option string;
}.

(** The coordinates of a store (floating point, read only by the
    store-distance route) are left out. *)
Record Store := mkStore {
  store_id : string;
  store_name : string;
  city : string;
}.

Record UserContextRow := mkUserContextRow {
  ctx_telegramUserId : string;
  ctx_storeId : option string;
  notificationsEnabled : bool;
  ctx_createdAt : string;
  ctx_updatedAt : string;
}.

(** A quantity as it arrives in the JSON body. *)
Inductive JsNumber := Integer (z : Z) | NotInteger.

Record RequestItem := mkRequestItem {
  item_menuItemId : string;
  item_name : string;
  item_quantity : JsNumber;
  item_price : Z;
}.

Record CreateOrderRequest := mkCreateOrderRequest {
  items : list RequestItem;
  req_paymentMethod : PaymentMethod;
  req_telegramUserId : string;
  req_storeId : string;
}.

Record CreateOrderResponse := mkCreateOrderResponse {
  resp_orderId : string;
  resp_orderNumber : Z;
  resp_status : OrderStatus;
  resp_paymentSessionId : string;
  amount : Z;
  resp_clientSecret : option string;
  resp_checkoutUrl : option string;
  resp_swishUrl : option string;
}.

(** ** The server-side menu (data/menu.ts) *)

Record ServerMenuItem := mkServerMenuItem {
  menu_id : string;
  menu_name : string;
  price : Z;
  categoryId : string;
}.

Definition serverMenuItems : list ServerMenuItem :=
  [ mkServerMenuItem "choklad_glass" "Mjukglass med chokladtomte" 12 "nytt";
    mkServerMenuItem "hotdog_classic" "Kokt varmkorv" 5 "varm_mat";
    mkServerMenuItem "veggie_dog" "Veggie hotdog" 5 "varm_mat";
    mkServerMenuItem "grilled_sausage" "Grillad wienerkorv i bröd" 12 "varm_mat";
    mkServerMenuItem "pizza" "Surdegspizza" 12 "varm_mat";
    mkServerMenuItem "onion" "Rostad lök" 2 "toppings";
    mkServerMenuItem "cabbage" "Picklad rödkål" 3 "toppings";
    mkServerMenuItem "icecream_basic" "Mjukglass" 7 "fika_glass";
    mkServerMenuItem "coffee" "Kaffe" 9 "fika_glass";
    mkServerMenuItem "kanelbulle" "Kanelbulle" 5 "fika_glass";
    mkServerMenuItem "fountain_drink" "Dryck i mugg" 10 "kall_dryck";
    mkServerMenuItem "iskub_cola" "ISKUB Cola" 19 "kall_dryck";
    mkServerMenuItem "iskub_orange" "ISKUB Apelsin" 19 "kall_dryck" ].

(** [Object.fromEntries]: a later entry overwrites an earlier one. *)
Definition fromEntries {V} (entries : list (string * V)) : gmap string V :=
  fold_left (fun m kv => <[kv.1 := kv.2]> m) entries ∅.

Definition serverMenuById : gmap string ServerMenuItem :=
  fromEntries (map (fun i => (menu_id i, i)) serverMenuItems).

(** ** The SQLite schema (store/database.ts)

    Each table is a finite map from its primary key to the remaining
    columns.  [saveOrder] writes the columns of an object under its id and
    [rowToOrder] rebuilds the object from a key and its columns. *)

Record OrderRow := mkOrderRow {
  order_number : Z;
  row_lines : list OrderLine;
  total_price : Z;
  payment_method : PaymentMethod;
  row_status : OrderStatus;
  payment_session_id : string;
  receipt_sent : bool;
  telegram_user_id : string;
  row_store_id : string;
  created_at : string;
}.

Record SessionRow := mkSessionRow {
  srow_order_id : string;
  srow_method : PaymentMethod;
  srow_amount : Z;
  srow_status : PaymentSessionStatus;
  external_reference : string;
  srow_created_at : string;
  srow_updated_at : string;
}.

Record ReceiptRow := mkReceiptRow {
  rrow_sent : bool;
  rrow_sent_at : option string;
}.

Record StoreRow := mkStoreRow {
  strow_name : string;
  strow_city : string;
}.

Record UserContextDbRow := mkUserContextDbRow {
  urow_store_id : option string;
  notifications_enabled : bool;
  urow_created_at : string;
  urow_updated_at : string;
}.

Record Db := mkDb {
  orders : gmap string OrderRow;
  payment_sessions : gmap string SessionRow;
  receipts : gmap string ReceiptRow;
  stores : gmap string StoreRow;
  user_contexts : gmap string UserContextDbRow;
  (** primary key (telegram_user_id, menu_item_id), column created_at *)
  favorites : gmap (string * string) string;
  (** primary key (category_a, category_b), column co_occurrence_count *)
  order_category_stats : gmap (string * string) Z;
}.

(** ** Process state and the outside world *)

(** [process.env]; an unset variable is the empty string, which the code
    cannot tell apart since it only tests these variables with [!].  The
    variables that only supply URLs to the providers (FRONTEND_URL,
    SWISH_CALLBACK_URL, SWISH_API_URL, SWISH_CERT_PASSPHRASE) have defaults
    and decide no branch; they are part of the oracles of [World]. *)
Record Env := mkEnv {
  STRIPE_SECRET_KEY : string;
  STRIPE_WEBHOOK_SECRET : string;
  SWISH_CERT_PATH : string;
  SWISH_MERCHANT_NUMBER : string;
  TELEGRAM_BOT_TOKEN : string;
}.

Inductive Message :=
  | ReceiptText (o : Order)              (* buildReceiptMessage(order) *)
  | OrderReadyText (orderNumber : Z).    (* "Din bestallning ar klar! ..." *)

(** The trace of calls that cross the engine's boundary. *)
Inductive Event :=
  | StripeCheckoutCreate (key : string) (unit_amount : Z) (orderId sessionId : string)
  | SwishPaymentRequest (payeeAlias : string) (amount : Z) (reference : string)
  | ReceiptCall (o : Order) (chatId : string)          (* sendTelegramReceipt entered *)
  | PushCall (user : string) (orderNumber : Z)        (* sendOrderReadyNotification entered *)
  | TelegramSend (chatId : string) (m : Message) (delivered : bool)  (* bot.sendMessage *)
  | SetTimeout (orderId : string).                     (* setTimeout(..., 30_000) *)

Record State := mkState {
  db : Db;
  env : Env;
  (** module-level singletons: the Stripe SDK instance (by its key) and the
      two Telegram bot instances (by their token) *)
  stripe : option string;
  receipt_bot : option string;
  push_bot : option string;
  (** callbacks scheduled with setTimeout and not yet run *)
  timers : list string;
  trace : list Event;
  tick : nat;
}.

Definition with_db (f : Db -> Db) (st : State) : State :=
  mkState (f (db st)) (env st) (stripe st) (receipt_bot st) (push_bot st)
          (timers st) (trace st) (tick st).
Definition with_stripe (x : option string) (st : State) : State :=
  mkState (db st) (env st) x (receipt_bot st) (push_bot st)
          (timers st) (trace st) (tick st).
Definition with_receipt_bot (x : option string) (st : State) : State :=
  mkState (db st) (env st) (stripe st) x (push_bot st)
          (timers st) (trace st) (tick st).
Definition with_push_bot (x : option string) (st : State) : State :=
  mkState (db st) (env st) (stripe st) (receipt_bot st) x
          (timers st) (trace st) (tick st).
Definition with_timers (f : list string -> list string) (st : State) : State :=
  mkState (db st) (env st) (stripe st) (receipt_bot st) (push_bot st)
          (f (timers st)) (trace st) (tick st).
Definition with_trace (f : list Event -> list Event) (st : State) : State :=
  mkState (db st) (env st) (stripe st) (receipt_bot st) (push_bot st)
          (timers st) (f (trace st)) (tick st).
Definition with_tick (n : nat) (st : State) : State :=
  mkState (db st) (env st) (stripe st) (receipt_bot st) (push_bot st)
          (timers st) (trace st) n.

Definition with_orders (f : gmap string OrderRow -> gmap string OrderRow) (d : Db) : Db :=
  mkDb (f (orders d)) (payment_sessions d) (receipts d) (stores d)
       (user_contexts d) (favorites d) (order_category_stats d).
Definition with_payment_sessions
    (f : gmap string SessionRow -> gmap string SessionRow) (d : Db) : Db :=
  mkDb (orders d) (f (payment_sessions d)) (receipts d) (stores d)
       (user_contexts d) (favorites d) (order_category_stats d).
Definition with_receipts (f : gmap string ReceiptRow -> gmap string ReceiptRow) (d : Db) : Db :=
  mkDb (orders d) (payment_sessions d) (f (receipts d)) (stores d)
       (user_contexts d) (favorites d) (order_category_stats d).
Definition with_user_contexts
    (f : gmap string UserContextDbRow -> gmap string UserContextDbRow) (d : Db) : Db :=
  mkDb (orders d) (payment_sessions d) (receipts d) (stores d)
       (f (user_contexts d)) (favorites d) (order_category_stats d).
Definition with_favorites
    (f : gmap (string * string) string -> gmap (string * string) string) (d : Db) : Db :=
  mkDb (orders d) (payment_sessions d) (receipts d) (stores d)
       (user_contexts d) (f (favorites d)) (order_category_stats d).
Definition with_order_category_stats
    (f : gmap (string * string) Z -> gmap (string * string) Z) (d : Db) : Db :=
  mkDb (orders d) (payment_sessions d) (receipts d) (stores d)
       (user_contexts d) (favorites d) (f (order_category_stats d)).

(** A verified Stripe event: [event.type] and [event.data.object.id]. *)
Record StripeEvent := mkStripeEvent {
  event_type : string;
  object_id : string;
}.

(** The collaborators the engine calls.  A [nat] argument is the tick at
    which the call is made. *)
Record World := mkWorld {
  uuidv4_at : nat -> string;
  toISOString_at : nat -> string;
  (** [stripe.checkout.sessions.create]: the error it throws, or the id
      and url of the Checkout Session *)
  checkout_sessions_create :
    nat -> string -> Z -> string -> string -> string + (string * string);
  (** [fs.readFileSync(certPath)]: the error it throws, or nothing *)
  readFileSync : nat -> string -> option string;
  (** the HTTPS POST to the Swish API: the error the request emits, or
      the status code and Location header of the response *)
  swish_post : nat -> string -> Z -> string -> string + (Z * string);
  (** [bot.sendMessage]: false when it throws *)
  sendMessage : nat -> string -> Message -> bool;
  (** [stripe.webhooks.constructEvent(rawBody, signature, secret)]:
      [None] when verification throws *)
  constructEvent : string -> string -> string -> option StripeEvent;
}.

(** ** State and exception monad *)

Inductive Outcome (A : Type) :=
  | Return (a : A)
  | Throw (msg : string).
Arguments Return {A} a.
Arguments Throw {A} msg.

Definition M (A : Type) : Type := State -> Outcome A * State.

Definition ret {A} (a : A) : M A := fun st => (Return a, st).
Definition throw {A} (msg : string) : M A := fun st => (Throw msg, st).
Definition bind {A B} (m : M A) (k : A -> M B) : M B :=
  fun st =>
    match m st with
    | (Return a, st') => k a st'
    | (Throw msg, st') => (Throw msg, st')
    end.
(** [try { m } catch (err) { h(err.message) }] *)
Definition try_catch {A} (m : M A) (h : string -> M A) : M A :=
  fun st =>
    match m st with
    | (Return a, st') => (Return a, st')
    | (Throw msg, st') => h msg st'
    end.
Definition gets {A} (f : State -> A) : M A := fun st => (Return (f st), st).
Definition modify (f : State -> State) : M unit := fun st => (Return tt, f st).

Notation "'let*' x ':=' m 'in' k" := (bind m (fun x => k))
  (at level 10, x name, m at level 100, k at level 200).
Notation "'let*' ' p ':=' m 'in' k" := (bind m (fun x => let 'p := x in k))
  (at level 10, p pattern, m at level 100, k at level 200).

Definition emit (e : Event) : M unit := modify (with_trace (fun t => t ++ [e])).
Definition next_tick : M nat :=
  fun st => (Return (tick st), with_tick (S (tick st)) st).

Definition query {A} (f : Db -> A) : M A := gets (fun st => f (db st)).
Definition exec (f : Db -> Db) : M unit := modify (with_db f).
Definition run_db {A} (f : Db -> A * Db) : M A :=
  fun st => let '(a, d) := f (db st) in (Return a, with_db (fun _ => d) st).

(** ** store/database.ts *)

(** [SELECT MAX(order_number) FROM orders]: NULL on an empty table. *)
Definition max_order_number (m : gmap string OrderRow) : option Z :=
  map_fold
    (fun _ row acc =>
       Some (match acc with
             | None => order_number row
             | Some n => Z.max n (order_number row)
             end))
    None m.

Definition nextOrderNumber (d : Db) : Z :=
  default 9 (max_order_number (orders d)) + 1.

Definition orderToRow (o : Order) : OrderRow :=
  mkOrderRow (orderNumber o) (lines o) (totalPrice o) (paymentMethod o)
             (status o) (paymentSessionId o) (receiptSent o)
             (telegramUserId o) (storeId o) (createdAt o).

Definition rowToOrder (id : string) (row : OrderRow) : Order :=
  mkOrder id (order_number row) (row_lines row) (total_price row)
          (payment_method row) (row_status row) (payment_session_id row)
          (receipt_sent row) (telegram_user_id row) (row_store_id row)
          (created_at row).

Definition saveOrder (o : Order) (d : Db) : Db :=
  with_orders (fun t => <[order_id o := orderToRow o]> t) d.

Definition getOrder (orderId : string) (d : Db) : option Order :=
  rowToOrder orderId <$> orders d !! orderId.

(** The two [Partial<Order>] objects the services pass to [updateOrder]. *)
Inductive OrderUpdate :=
  | SetStatus (s : OrderStatus)
  | SetReceiptSent (b : bool).

(** [{ ...existing, ...updates }] *)
Definition merge_order (existing : Order) (updates : OrderUpdate) : Order :=
  match updates with
  | SetStatus s =>
      mkOrder (order_id existing) (orderNumber existing) (lines existing)
              (totalPrice existing) (paymentMethod existing) s
              (paymentSessionId existing) (receiptSent existing)
              (telegramUserId existing) (storeId existing) (createdAt existing)
  | SetReceiptSent b =>
      mkOrder (order_id existing) (orderNumber existing) (lines existing)
              (totalPrice existing) (paymentMethod existing) (status existing)
              (paymentSessionId existing) b
              (telegramUserId existing) (storeId existing) (createdAt existing)
  end.

Definition updateOrder (orderId : string) (updates : OrderUpdate) (d : Db)
  : option Order * Db :=
  match getOrder orderId d with
  | None => (None, d)
  | Some existing =>
      let merged := merge_order existing updates in
      let d' := saveOrder merged d in
      (getOrder orderId d', d')
  end.

Definition sessionToRow (s : PaymentSession) : SessionRow :=
  mkSessionRow (ps_orderId s) (ps_method s) (ps_amount s) (ps_status s)
               (externalReference s) (ps_createdAt s) (ps_updatedAt s).

Definition rowToSession (id : string) (row : SessionRow) : PaymentSession :=
  mkPaymentSession id (srow_order_id row) (srow_method row) (srow_amount row)
                   (srow_status row) (external_reference row)
                   (srow_created_at row) (srow_updated_at row).

Definition savePaymentSession (s : PaymentSession) (d : Db) : Db :=
  with_payment_sessions (fun t => <[ps_id s := sessionToRow s]> t) d.

Definition getPaymentSession (sessionId : string) (d : Db) : option PaymentSession :=
  rowToSession sessionId <$> payment_sessions d !! sessionId.

(** [SELECT * FROM payment_sessions WHERE external_reference = ?] with
    [.get()]: the first matching row of the scan, if any.  External
    references are unique in the data model, so which row comes first only
    matters for a table that breaks that invariant. *)
Definition getPaymentSessionByExternalRef (externalRef : string) (d : Db)
  : option PaymentSession :=
  (fun kv => rowToSession kv.1 kv.2) <$>
  head (filter (fun kv : string * SessionRow => external_reference kv.2 = externalRef)
               (map_to_list (payment_sessions d))).

Definition saveReceipt (r : TelegramReceipt) (d : Db) : Db :=
  with_receipts (fun t => <[receipt_orderId r := mkReceiptRow (sent r) (sentAt r)]> t) d.

Definition getReceipt (orderId : string) (d : Db) : option TelegramReceipt :=
  (fun row => mkTelegramReceipt orderId (rrow_sent row) (rrow_sent_at row))
    <$> receipts d !! orderId.

Definition getStoreById (storeId : string) (d : Db) : option Store :=
  (fun row => mkStore storeId (strow_name row) (strow_city row))
    <$> stores d !! storeId.

Definition getUserContext (telegramUserId : string) (d : Db) : option UserContextRow :=
  (fun row =>
     mkUserContextRow telegramUserId (urow_store_id row) (notifications_enabled row)
                      (urow_created_at row) (urow_updated_at row))
    <$> user_contexts d !! telegramUserId.

(** The menu item ids [getFavoritesByUser] lists, as a set. *)
Definition favoriteSet (telegramUserId : string) (d : Db) : gset string :=
  set_map snd (filter (fun k : string * string => k.1 = telegramUserId)
                      (dom (favorites d))).

Definition recordCategoryCoOccurrence (categoryA categoryB : string) (d : Db) : Db :=
  if decide (categoryA = categoryB) then d
  else
    let '(a, b) := if String.leb categoryA categoryB
                   then (categoryA, categoryB) else (categoryB, categoryA) in
    with_order_category_stats
      (fun t => match t !! (a, b) with
                | Some n => <[(a, b) := n + 1]> t
                | None => <[(a, b) := 1]> t
                end) d.

Record PaymentCreationResult := mkPaymentCreationResult {
  pc_sessionId : string;
  pc_clientSecret : option string;
  pc_checkoutUrl : option string;
  pc_swishUrl : option string;
}.

Record WebhookResult := mkWebhookResult {
  success : bool;
  wr_orderId : option string;
}.

(** [if (x) ...] on an optional string property *)
Definition truthy_opt (o : option string) : bool :=
  match o with Some s => truthy s | None => false end.

(** [[...new Set(xs)]]: first occurrences, in order. *)
Fixpoint unique_in_order (seen xs : list string) : list string :=
  match xs with
  | [] => []
  | x :: rest =>
      if decide (x ∈ seen) then unique_in_order seen rest
      else x :: unique_in_order (x :: seen) rest
  end.

(** The pairs [(xs[i], xs[j])] with [i < j], in loop order. *)
Fixpoint index_pairs (xs : list string) : list (string * string) :=
  match xs with
  | [] => []
  | x :: rest => map (fun y => (x, y)) rest ++ index_pairs rest
  end.

(** ** Pricing (the callback of [request.items.map] in createOrder) *)

Definition price_line (item : RequestItem) : Outcome OrderLine :=
  match item_quantity item with
  | NotInteger => Throw "Invalid quantity. Must be an integer >= 1"
  | Integer q =>
      if q <? 1 then Throw "Invalid quantity. Must be an integer >= 1"
      else match serverMenuById !! item_menuItemId item with
           | None => Throw ("Invalid menuItemId: " +:+ item_menuItemId item)
           | Some menuItem =>
               Return (mkOrderLine (menu_id menuItem) (menu_name menuItem)
                                   q (price menuItem))
           end
  end.

(** [Array.prototype.map] with a callback that may throw: the first throw
    aborts the traversal. *)
Fixpoint price_lines (l : list RequestItem) : Outcome (list OrderLine) :=
  match l with
  | [] => Return []
  | item :: rest =>
      match price_line item with
      | Throw msg => Throw msg
      | Return line =>
          match price_lines rest with
          | Throw msg => Throw msg
          | Return ls => Return (line :: ls)
          end
      end
  end.

(** [lines.reduce((sum, line) => sum + line.quantity * line.priceAtOrder, 0)] *)
Definition sum_lines (ls : list OrderLine) : Z :=
  fold_left (fun sum line => sum + line_quantity line * priceAtOrder line) ls 0.

Section Engine.

Variable W : World.

Definition uuidv4 : M string :=
  let* t := next_tick in ret (uuidv4_at W t).

Definition new_Date_toISOString : M string :=
  let* t := next_tick in ret (toISOString_at W t).

(** ** store/database.ts: the operations that read the clock *)

(** [{ ...existing, ...updates, updatedAt: new Date().toISOString() }]
    with [updates = { status }] *)
Definition updatePaymentSession (sessionId : string) (s : PaymentSessionStatus)
  : M (option PaymentSession) :=
  let* found := query (getPaymentSession sessionId) in
  match found with
  | None => ret None
  | Some existing =>
      let* now := new_Date_toISOString in
      let merged :=
        mkPaymentSession (ps_id existing) (ps_orderId existing) (ps_method existing)
                         (ps_amount existing) s (externalReference existing)
                         (ps_createdAt existing) now in
      let* _ := exec (savePaymentSession merged) in
      query (getPaymentSession sessionId)
  end.

Definition upsertUserContext (telegramUserId : string) (storeId : option string)
    (notificationsEnabled : bool) : M (option UserContextRow) :=
  let* now := new_Date_toISOString in
  let* existing := query (getUserContext telegramUserId) in
  let* _ :=
    match existing with
    | Some _ =>
        (* UPDATE ... SET store_id, notifications_enabled, updated_at *)
        exec (with_user_contexts
                (fun t => match t !! telegramUserId with
                          | Some row =>
                              <[telegramUserId :=
                                 mkUserContextDbRow storeId notificationsEnabled
                                                    (urow_created_at row) now]> t
                          | None => t
                          end))
    | None =>
        exec (with_user_contexts
                (fun t => <[telegramUserId :=
                             mkUserContextDbRow storeId notificationsEnabled now now]> t))
    end in
  query (getUserContext telegramUserId).

Definition toggleFavorite (telegramUserId menuItemId : string) : M bool :=
  let* existing := query (fun d => favorites d !! (telegramUserId, menuItemId)) in
  match existing with
  | Some _ =>
      let* _ := exec (with_favorites (fun t => delete (telegramUserId, menuItemId) t)) in
      ret false
  | None =>
      let* now := new_Date_toISOString in
      let* _ := exec (with_favorites (fun t => <[(telegramUserId, menuItemId) := now]> t)) in
      ret true
  end.

(** ** services/paymentService.ts *)

Definition getStripe : M string :=
  let* s := gets stripe in
  match s with
  | Some inst => ret inst
  | None =>
      let* key := gets (fun st => STRIPE_SECRET_KEY (env st)) in
      if negb (truthy key) then throw "STRIPE_SECRET_KEY is not set"
      else let* _ := modify (with_stripe (Some key)) in ret key
  end.

Definition createStripePayment (sessionId orderId : string) (amount : Z) (now : string)
  : M PaymentCreationResult :=
  let* ' (externalReference, checkoutUrl) :=
    try_catch
      (let* stripeInstance := getStripe in
       let* t := next_tick in
       let* _ := emit (StripeCheckoutCreate stripeInstance (amount * 100) orderId sessionId) in
       match checkout_sessions_create W t stripeInstance (amount * 100) orderId sessionId with
       | inl err => throw err
       | inr (id, url) => ret (id, url)
       end)
      (fun _ => throw "Stripe Checkout session creation failed") in
  let session :=
    mkPaymentSession sessionId orderId card amount created externalReference now now in
  let* _ := exec (savePaymentSession session) in
  ret (mkPaymentCreationResult sessionId None (Some checkoutUrl) None).

Definition createSwishPayment (sessionId orderId : string) (amount : Z) (now : string)
  : M PaymentCreationResult :=
  let* certPath := gets (fun st => SWISH_CERT_PATH (env st)) in
  let* merchantNumber := gets (fun st => SWISH_MERCHANT_NUMBER (env st)) in
  if negb (truthy certPath) || negb (truthy merchantNumber) then
    throw ("Swish is not configured. Set SWISH_CERT_PATH and SWISH_MERCHANT_NUMBER in .env. "
           +:+ "Real Swish integration requires a merchant TLS certificate (.p12) from your bank.")
  else
    let* u := uuidv4 in
    let swishReference := toUpperCase (remove_dashes u) in
    let* t := next_tick in
    match readFileSync W t certPath with
    | Some err => throw err
    | None =>
        let* t' := next_tick in
        let* _ := emit (SwishPaymentRequest merchantNumber amount swishReference) in
        match swish_post W t' merchantNumber amount swishReference with
        | inl err => throw err
        | inr (statusCode, location) =>
            if negb (statusCode =? 201) || negb (truthy location) then
              throw ("Swish API returned status " +:+ pretty statusCode +:+ ". "
                     +:+ "Check certificate and merchant number configuration.")
            else
              let requestId := last_segment location in
              let swishUrl := "swish://paymentrequest?token=" +:+ requestId in
              let session :=
                mkPaymentSession sessionId orderId swish amount created
                                 swishReference now now in
              let* _ := exec (savePaymentSession session) in
              ret (mkPaymentCreationResult sessionId None None (Some swishUrl))
        end
    end.

Definition createPaymentForOrder (orderId : string) (amount : Z) (method : PaymentMethod)
  : M PaymentCreationResult :=
  let* sessionId := uuidv4 in
  let* now := new_Date_toISOString in
  match method with
  | card => createStripePayment sessionId orderId amount now
  | swish => createSwishPayment sessionId orderId amount now
  end.

(** ** services/receiptService.ts *)

Definition receipt_getBot : M (option string) :=
  let* b := gets receipt_bot in
  match b with
  | Some inst => ret (Some inst)
  | None =>
      let* token := gets (fun st => TELEGRAM_BOT_TOKEN (env st)) in
      if negb (truthy token) then ret None
      else let* _ := modify (with_receipt_bot (Some token)) in ret (Some token)
  end.

Definition sendTelegramReceipt (order : Order) (chatId : string) : M bool :=
  let* _ := emit (ReceiptCall order chatId) in
  let* existing := query (getReceipt (order_id order)) in
  if match existing with Some r => sent r | None => false end then ret true
  else
    let* telegramBot := receipt_getBot in
    match telegramBot with
    | Some _ =>
        let* t := next_tick in
        let delivered := sendMessage W t chatId (ReceiptText order) in
        let* _ := emit (TelegramSend chatId (ReceiptText order) delivered) in
        if delivered then
          let* now := new_Date_toISOString in
          let* _ := exec (saveReceipt (mkTelegramReceipt (order_id order) true (Some now))) in
          ret true
        else
          let* _ := exec (saveReceipt (mkTelegramReceipt (order_id order) false None)) in
          ret false
    | None =>
        let* _ := exec (saveReceipt (mkTelegramReceipt (order_id order) false None)) in
        ret false
    end.

(** ** services/notificationService.ts *)

Definition notification_getBot : M (option string) :=
  let* b := gets push_bot in
  match b with
  | Some inst => ret (Some inst)
  | None =>
      let* token := gets (fun st => TELEGRAM_BOT_TOKEN (env st)) in
      if negb (truthy token) then ret None
      else let* _ := modify (with_push_bot (Some token)) in ret (Some token)
  end.

Definition sendOrderReadyNotification (telegramUserId : string) (orderNumber : Z) : M bool :=
  let* _ := emit (PushCall telegramUserId orderNumber) in
  let* telegramBot := notification_getBot in
  match telegramBot with
  | None => ret false
  | Some _ =>
      let* t := next_tick in
      let delivered := sendMessage W t telegramUserId (OrderReadyText orderNumber) in
      let* _ := emit (TelegramSend telegramUserId (OrderReadyText orderNumber) delivered) in
      ret delivered
  end.

(** ** services/orderService.ts *)

Definition createOrder (request : CreateOrderRequest) : M CreateOrderResponse :=
  if (length (items request) =? 0)%nat then throw "Order must contain at least one item"
  else if negb (truthy (req_telegramUserId request)) then throw "telegramUserId is required"
  else if negb (truthy (req_storeId request)) then
    throw "storeId is required for order creation"
  else
    let* storeExists := query (getStoreById (req_storeId request)) in
    match storeExists with
    | None => throw ("Invalid storeId: " +:+ req_storeId request)
    | Some _ =>
        let* orderId := uuidv4 in
        let* orderNumber := query nextOrderNumber in
        match price_lines (items request) with
        | Throw msg => throw msg
        | Return lines =>
            let totalPrice := sum_lines lines in
            let* paymentResult :=
              createPaymentForOrder orderId totalPrice (req_paymentMethod request) in
            let* createdAt := new_Date_toISOString in
            let order :=
              mkOrder orderId orderNumber lines totalPrice (req_paymentMethod request)
                      pending (pc_sessionId paymentResult) false
                      (req_telegramUserId request) (req_storeId request) createdAt in
            let* _ := exec (saveOrder order) in
            let menuItems :=
              omap (fun item => serverMenuById !! item_menuItemId item) (items request) in
            let categoryIds :=
              unique_in_order [] (List.filter truthy (map categoryId menuItems)) in
            let* _ :=
              exec (fun d => fold_left (fun d p => recordCategoryCoOccurrence p.1 p.2 d)
                                       (index_pairs categoryIds) d) in
            ret (mkCreateOrderResponse
                   orderId orderNumber pending (pc_sessionId paymentResult) totalPrice
                   (if truthy_opt (pc_clientSecret paymentResult)
                    then pc_clientSecret paymentResult else None)
                   (if truthy_opt (pc_checkoutUrl paymentResult)
                    then pc_checkoutUrl paymentResult else None)
                   (if truthy_opt (pc_swishUrl paymentResult)
                    then pc_swishUrl paymentResult else None))
        end
    end.

(** [setTimeout(() => markOrderReady(orderId)..., 30_000)]: the callback
    is queued; it runs when the [TimerFires] request below picks it. *)
Definition setTimeout (orderId : string) : M unit :=
  let* _ := emit (SetTimeout orderId) in
  modify (with_timers (fun l => l ++ [orderId])).

Definition confirmOrder (orderId : string) : M (option Order) :=
  let* updated := run_db (updateOrder orderId (SetStatus confirmed)) in
  match updated with
  | None => ret None
  | Some order =>
      let* _ :=
        try_catch
          (let* receiptOk := sendTelegramReceipt order (telegramUserId order) in
           if receiptOk
           then let* _ := run_db (updateOrder orderId (SetReceiptSent true)) in ret tt
           else ret tt)
          (fun _ => ret tt) in
      let* _ := setTimeout orderId in
      query (getOrder orderId)
  end.

Definition markOrderReady (orderId : string) : M (option Order) :=
  let* found := query (getOrder orderId) in
  match found with
  | None => ret None
  | Some order =>
      if negb (bool_decide (status order = confirmed)) then ret (Some order)
      else
        let* _ := run_db (updateOrder orderId (SetStatus ready)) in
        let* _ :=
          try_catch
            (let* userCtx := query (getUserContext (telegramUserId order)) in
             if match userCtx with Some c => notificationsEnabled c | None => false end
             then let* _ := sendOrderReadyNotification (telegramUserId order)
                                                       (orderNumber order) in ret tt
             else ret tt)
            (fun _ => ret tt) in
        query (getOrder orderId)
  end.

(** ** services/paymentService.ts: inbound callbacks *)

Definition handleStripeWebhook (rawBody signature : string) : M WebhookResult :=
  let* webhookSecret := gets (fun st => STRIPE_WEBHOOK_SECRET (env st)) in
  if negb (truthy webhookSecret) then ret (mkWebhookResult false None)
  else
    let* verified :=
      try_catch
        (let* _ := getStripe in
         match constructEvent W rawBody signature webhookSecret with
         | None => throw "No signatures found matching the expected signature for payload"
         | Some event => ret (Some event)
         end)
        (fun _ => ret None) in
    match verified with
    | None => ret (mkWebhookResult false None)
    | Some event =>
        if String.eqb (event_type event) "checkout.session.completed" then
          let* found := query (getPaymentSessionByExternalRef (object_id event)) in
          match found with
          | None => ret (mkWebhookResult false None)
          | Some session =>
              let* _ := updatePaymentSession (ps_id session) succeeded in
              let* order := confirmOrder (ps_orderId session) in
              ret (mkWebhookResult true (order_id <$> order))
          end
        else if String.eqb (event_type event) "checkout.session.async_payment_failed" then
          let* found := query (getPaymentSessionByExternalRef (object_id event)) in
          let* _ :=
            match found with
            | Some session =>
                let* _ := updatePaymentSession (ps_id session) failed in ret tt
            | None => ret tt
            end in
          ret (mkWebhookResult false None)
        else ret (mkWebhookResult true None)
    end.

Definition handleSwishCallback (reference status : string) : M WebhookResult :=
  let* found := query (getPaymentSessionByExternalRef reference) in
  match found with
  | None => ret (mkWebhookResult false None)
  | Some session =>
      if String.eqb status "PAID" then
        let* _ := updatePaymentSession (ps_id session) succeeded in
        let* order := confirmOrder (ps_orderId session) in
        ret (mkWebhookResult true (order_id <$> order))
      else
        let* _ :=
          if String.eqb status "DECLINED" || String.eqb status "ERROR" then
            let* _ := updatePaymentSession (ps_id session) failed in ret tt
          else ret tt in
        ret (mkWebhookResult false None)
  end.

(** ** services/favoriteService.ts *)

Definition toggleUserFavorite (telegramUserId menuItemId : string) : M (string * bool) :=
  let* isFavorite := toggleFavorite telegramUserId menuItemId in
  ret (menuItemId, isFavorite).

(** ** HTTP adapters (routes/orders.ts, routes/webhooks.ts,
       routes/favorites.ts, routes/user.ts) *)

Inductive Json :=
  | JsonCreated (r : CreateOrderResponse)
  | JsonError (error : string)
  | JsonOrderStatus (orderId : string) (s : OrderStatus)
  | JsonReceived (received : bool) (orderId : option string)
  | JsonFavorite (menuItemId : string) (isFavorite : bool)
  | JsonContext (c : option UserContextRow).

Record HttpResponse := mkHttpResponse {
  http_status : Z;
  http_body : Json;
}.

(** The JSON body of POST /api/orders before it is trusted to be a
    [CreateOrderRequest]. *)
Record OrdersBody := mkOrdersBody {
  body_items : option (list RequestItem);
  body_paymentMethod : string;
  body_telegramUserId : string;
  body_storeId : string;
}.

Definition double_quote : string := String (Ascii.ascii_of_nat 34) EmptyString.

(** [['card', 'swish'].includes(body.paymentMethod)] *)
Definition parse_paymentMethod (s : string) : option PaymentMethod :=
  if String.eqb s "card" then Some card
  else if String.eqb s "swish" then Some swish
  else None.

Definition post_orders (body : OrdersBody) : M HttpResponse :=
  match body_items body with
  | None => ret (mkHttpResponse 400 (JsonError "Order must contain at least one item"))
  | Some its =>
      if (length its =? 0)%nat then
        ret (mkHttpResponse 400 (JsonError "Order must contain at least one item"))
      else
        match parse_paymentMethod (body_paymentMethod body) with
        | None =>
            ret (mkHttpResponse 400
                   (JsonError ("Invalid payment method. Must be " +:+ double_quote +:+ "card"
                               +:+ double_quote +:+ " or " +:+ double_quote +:+ "swish"
                               +:+ double_quote)))
        | Some method =>
            if negb (truthy (body_telegramUserId body)) then
              ret (mkHttpResponse 400 (JsonError "telegramUserId is required"))
            else if negb (truthy (body_storeId body)) then
              ret (mkHttpResponse 400 (JsonError "storeId is required"))
            else
              try_catch
                (let* result :=
                   createOrder (mkCreateOrderRequest its method
                                  (body_telegramUserId body) (body_storeId body)) in
                 ret (mkHttpResponse 201 (JsonCreated result)))
                (fun message =>
                   if startsWith "Invalid" message
                      || includes "must" message
                      || includes "required" message
                      || includes "not configured" message
                   then ret (mkHttpResponse 400 (JsonError message))
                   else ret (mkHttpResponse 500 (JsonError message)))
        end
  end.

Definition post_order_ready (orderId : string) : M HttpResponse :=
  try_catch
    (let* order := markOrderReady orderId in
     match order with
     | None =>
         ret (mkHttpResponse 404 (JsonError "Order not found or not in confirmed state"))
     | Some o => ret (mkHttpResponse 200 (JsonOrderStatus (order_id o) (status o)))
     end)
    (fun message => ret (mkHttpResponse 500 (JsonError message))).

Definition post_webhook_stripe (signature : string) (rawBody : string) : M HttpResponse :=
  try_catch
    (if negb (truthy signature) then
       ret (mkHttpResponse 400 (JsonError "Missing stripe-signature header"))
     else
       let* result := handleStripeWebhook rawBody signature in
       if success result then ret (mkHttpResponse 200 (JsonReceived true (wr_orderId result)))
       else ret (mkHttpResponse 400 (JsonReceived false None)))
    (fun message => ret (mkHttpResponse 500 (JsonError message))).

Definition post_webhook_swish (reference status : string) : M HttpResponse :=
  try_catch
    (if negb (truthy reference) || negb (truthy status) then
       ret (mkHttpResponse 400 (JsonError "Missing reference or status"))
     else
       let* result := handleSwishCallback reference status in
       if success result then ret (mkHttpResponse 200 (JsonReceived true (wr_orderId result)))
       else ret (mkHttpResponse 400 (JsonReceived false None)))
    (fun message => ret (mkHttpResponse 500 (JsonError message))).

Definition post_favorites_toggle (telegramUserId menuItemId : string) : M HttpResponse :=
  try_catch
    (if negb (truthy telegramUserId) then
       ret (mkHttpResponse 400 (JsonError "telegramUserId is required"))
     else if negb (truthy menuItemId) then
       ret (mkHttpResponse 400 (JsonError "menuItemId is required"))
     else
       let* ' (menuItemId', isFavorite) := toggleUserFavorite telegramUserId menuItemId in
       ret (mkHttpResponse 200 (JsonFavorite menuItemId' isFavorite)))
    (fun message => ret (mkHttpResponse 500 (JsonError message))).

(** [notificationsEnabled] is [None] when the body field is not a boolean. *)
Definition post_user_context (telegramUserId : string) (storeId : option string)
    (notificationsEnabled : option bool) : M HttpResponse :=
  try_catch
    (if negb (truthy telegramUserId) then
       ret (mkHttpResponse 400 (JsonError "telegramUserId is required"))
     else
       let* context :=
         upsertUserContext telegramUserId storeId (default true notificationsEnabled) in
       ret (mkHttpResponse 200 (JsonContext context)))
    (fun message => ret (mkHttpResponse 500 (JsonError message))).

(** The callback queued by [setTimeout] in [confirmOrder]. *)
Definition timer_callback (orderId : string) : M unit :=
  try_catch (let* _ := markOrderReady orderId in ret tt) (fun _ => ret tt).

(** ** Executions of the server *)

Inductive Request :=
  | PostOrders (body : OrdersBody)
  | PostOrderReady (orderId : string)
  | PostWebhookStripe (signature rawBody : string)
  | PostWebhookSwish (reference status : string)
  | PostFavoritesToggle (telegramUserId menuItemId : string)
  | PostUserContext (telegramUserId : string) (storeId : option string)
                    (notificationsEnabled : option bool)
  | TimerFires (n : nat).   (* the n-th queued timer callback runs *)

Definition step (r : Request) (st : State) : State :=
  match r with
  | PostOrders body => (post_orders body st).2
  | PostOrderReady orderId => (post_order_ready orderId st).2
  | PostWebhookStripe signature rawBody => (post_webhook_stripe signature rawBody st).2
  | PostWebhookSwish reference status => (post_webhook_swish reference status st).2
  | PostFavoritesToggle u i => (post_favorites_toggle u i st).2
  | PostUserContext u s n => (post_user_context u s n st).2
  | TimerFires n =>
      match timers st !! n with
      | None => st
      | Some orderId =>
          (timer_callback orderId (with_timers (fun l => take n l ++ drop (S n) l) st)).2
      end
  end.

Definition run (rs : list Request) (st : State) : State :=
  fold_left (fun st r => step r st) rs st.

End Engine.

(** ** Start-up (index.ts, data/stores.ts) *)

Definition seedStoreData : list Store :=
  [ mkStore "store-kungens-kurva" "IKEA Kungens Kurva" "Stockholm";
    mkStore "store-barkarby" "IKEA Barkarby" "Stockholm";
    mkStore "store-malmo" "IKEA Malmö" "Malmö";
    mkStore "store-goteborg" "IKEA Göteborg" "Göteborg";
    mkStore "store-linkoping" "IKEA Linköping" "Linköping" ].

(** [INSERT OR IGNORE INTO stores] for each store of the list *)
Definition seedStores (l : list Store) (t : gmap string StoreRow) : gmap string StoreRow :=
  fold_left
    (fun t s => match t !! store_id s with
                | Some _ => t
                | None => <[store_id s := mkStoreRow (store_name s) (city s)]> t
                end)
    l t.

Definition empty_db : Db := mkDb ∅ ∅ ∅ ∅ ∅ ∅ ∅.

(** The server after start-up on a fresh database file. *)
Definition initial_state (e : Env) : State :=
  mkState (mkDb ∅ ∅ ∅ (seedStores seedStoreData ∅) ∅ ∅ ∅) e None None None [] [] 0.

Definition reachable (W : World) (e : Env) (st : State) : Prop :=
  exists rs, st = run W rs (initial_state e).


(** ** Vocabulary of the properties *)

(** An action keeps the relation [R] between the state it starts in and
    the state it leaves, whatever its outcome. *)
Definition preserves {A} (R : State -> State -> Prop) (m : M A) : Prop :=
  forall st, R st (m st).2.

(** The database is left as it was. *)
Definition same_db (st st' : State) : Prop := db st' = db st.

(** ** A concrete deployment, used to exercise the theorems *)

Definition demo_world : World :=
  mkWorld (fun n => "uuid-" +:+ pretty n)
          (fun n => "2026-01-01T00:00:" +:+ pretty n)
          (fun _ _ _ _ sessionId =>
             inr ("cs_test_" +:+ sessionId, "https://checkout.stripe.test/" +:+ sessionId))
          (fun _ _ => None)
          (fun _ _ _ _ => inr (201, "https://mss.cpc.getswish.net/paymentrequests/REQ1"))
          (fun _ _ _ => true)
          (fun rawBody signature _ =>
             if String.eqb signature "valid"
             then Some (mkStripeEvent "checkout.session.completed" rawBody)
             else if String.eqb signature "valid-expired"
             then Some (mkStripeEvent "checkout.session.expired" rawBody)
             else None).

Definition demo_env : Env := mkEnv "sk_test_1" "whsec_1" "/certs/swish.p12" "1231181189" "bot-token".

Definition demo_body : OrdersBody :=
  mkOrdersBody (Some [mkRequestItem "hotdog_classic" "Kokt varmkorv" (Integer 2) 5])
               "card" "user-1" "store-malmo".

Definition demo_request : CreateOrderRequest :=
  mkCreateOrderRequest [mkRequestItem "hotdog_classic" "Kokt varmkorv" (Integer 2) 5]
                       card "user-1" "store-malmo".

Definition demo_requests : list Request :=
  [PostOrders demo_body; PostWebhookStripe "valid" "cs_test_uuid-1"; TimerFires 0].

(** One order placed and still pending. *)
Definition demo_pending : State :=
  run demo_world (take 1 demo_requests) (initial_state demo_env).

(** The same order after the Stripe webhook confirmed it. *)
Definition demo_confirmed : State :=
  run demo_world (take 2 demo_requests) (initial_state demo_env).

(** The same order after its timer fired. *)
Definition demo_ready : State :=
  run demo_world demo_requests (initial_state demo_env).

Definition demo_order (s : OrderStatus) (receipt : bool) : Order :=
  mkOrder "uuid-0" 10 [mkOrderLine "hotdog_classic" "Kokt varmkorv" 2 5] 10 card s
          "uuid-1" receipt "user-1" "store-malmo" "2026-01-01T00:00:4".

(** *** Pricing, in the words of the specification

    "the sum over the request's line items of server-side catalog price
    times quantity" *)

Definition catalog_price (catalog : gmap string ServerMenuItem) (id : string) : Z :=
  default 0 (price <$> catalog !! id).

Definition quantity_of (q : JsNumber) : Z :=
  match q with Integer z => z | NotInteger => 0 end.

Definition catalog_total (catalog : gmap string ServerMenuItem) (its : list RequestItem) : Z :=
  foldr (fun it acc => catalog_price catalog (item_menuItemId it)
                       * quantity_of (item_quantity it) + acc) 0 its.

(** The request with the price the caller supplied for each item replaced
    by [p]. *)
Definition set_item_price (p : Z) (it : RequestItem) : RequestItem :=
  mkRequestItem (item_menuItemId it) (item_name it) (item_quantity it) p.

Definition set_prices (p : Z) (req : CreateOrderRequest) : CreateOrderRequest :=
  mkCreateOrderRequest (map (set_item_price p) (items req)) (req_paymentMethod req)
                       (req_telegramUserId req) (req_storeId req).

(** *** Validation, in the words of the specification

    "empty item list, missing user id or store id, unknown store,
    non-integer or < 1 quantity, unknown menu item" *)

Definition invalid_item (it : RequestItem) : Prop :=
  match item_quantity it with
  | NotInteger => True
  | Integer q => q < 1
  end
  \/ serverMenuById !! item_menuItemId it = None.

Definition fails_validation (d : Db) (req : CreateOrderRequest) : Prop :=
  items req = []
  \/ req_telegramUserId req = ""
  \/ req_storeId req = ""
  \/ stores d !! req_storeId req = None
  \/ Exists invalid_item (items req).

(** No stored payment session carries the external reference [ref]. *)
Definition unknown_reference (ref : string) (d : Db) : Prop :=
  forall id row, payment_sessions d !! id = Some row -> external_reference row <> ref.

(** The event types for which [handleStripeWebhook] looks a session up. *)
Definition looks_up_session (ev : StripeEvent) : bool :=
  String.eqb (event_type ev) "checkout.session.completed"
  || String.eqb (event_type ev) "checkout.session.async_payment_failed".

(** [n] is the largest order number of the table [m]. *)
Definition is_max_order_number (m : gmap string OrderRow) (n : Z) : Prop :=
  (exists id row, m !! id = Some row /\ order_number row = n)
  /\ forall id row, m !! id = Some row -> order_number row <= n.

(** The next order number never goes down. *)
Definition numbers_grow (st st' : State) : Prop :=
  nextOrderNumber (db st) <= nextOrderNumber (db st').

(** An event of the receipt channel concerns an order that is confirmed:
    the order object handed to [sendTelegramReceipt], and rendered into the
    message it sends, has status [confirmed]. *)
Definition receipt_event_ok (e : Event) : Prop :=
  match e with
  | ReceiptCall o _ => status o = confirmed
  | TelegramSend _ (ReceiptText o) _ => status o = confirmed
  | _ => True
  end.

(** The trace only grows, and by events that satisfy [receipt_event_ok]. *)
Definition trace_grows_ok (st st' : State) : Prop :=
  exists new, trace st' = trace st ++ new /\ Forall receipt_event_ok new.

(** The deployment without a Stripe secret key, and without Swish
    credentials. *)
Definition demo_env_no_stripe : Env :=
  mkEnv "" "whsec_1" "/certs/swish.p12" "1231181189" "bot-token".

Definition demo_env_no_swish : Env := mkEnv "sk_test_1" "whsec_1" "" "" "bot-token".

Definition demo_body_swish : OrdersBody :=
  mkOrdersBody (Some [mkRequestItem "hotdog_classic" "Kokt varmkorv" (Integer 2) 5])
               "swish" "user-1" "store-malmo".

(** The deployment without a Telegram bot token, in which user-1 has
    switched notifications on and then placed and paid an order. *)
Definition demo_env_no_bot : Env :=
  mkEnv "sk_test_1" "whsec_1" "/certs/swish.p12" "1231181189" "".

Definition demo_no_bot_confirmed : State :=
  run demo_world
      [PostUserContext "user-1" None (Some true); PostOrders demo_body;
       PostWebhookStripe "valid" "cs_test_uuid-2"]
      (initial_state demo_env_no_bot).

(** The user's notification preference as [markOrderReady] reads it. *)
Definition notifications_on (user : string) (d : Db) : bool :=
  match getUserContext user d with
  | Some c => notificationsEnabled c
  | None => false
  end.

(** The notification service has, or can create, its bot instance. *)
Definition push_bot_available (st : State) : bool :=
  bool_decide (is_Some (push_bot st)) || truthy (TELEGRAM_BOT_TOKEN (env st)).

(** The events [markOrderReady] adds to the trace when it moves an order
    of [user] with number [n] to [ready] in state [st]. *)
Definition ready_events (W : World) (user : string) (n : Z) (st : State) : list Event :=
  if notifications_on user (db st) then
    PushCall user n ::
    (if push_bot_available st
     then [TelegramSend user (OrderReadyText n)
                        (sendMessage W (tick st) user (OrderReadyText n))]
     else [])
  else [].

Definition is_push_message (user : string) (n : Z) (e : Event) : bool :=
  match e with
  | TelegramSend c (OrderReadyText k) _ => bool_decide (c = user) && bool_decide (k = n)
  | _ => false
  end.

(** The full deployment, in which user-1 has switched notifications on and
    then placed and paid an order. *)
Definition demo_notify_confirmed : State :=
  run demo_world
      [PostUserContext "user-1" None (Some true); PostOrders demo_body;
       PostWebhookStripe "valid" "cs_test_uuid-2"]
      (initial_state demo_env).

Definition demo_notify_order : Order :=
  mkOrder "uuid-1" 10 [mkOrderLine "hotdog_classic" "Kokt varmkorv" 2 5] 10 card confirmed
          "uuid-2" true "user-1" "store-malmo" "2026-01-01T00:00:5".

(** The order stored under [id], once confirmed, stays stored and
    confirmed. *)
Definition keeps_confirmed (id : string) (st st' : State) : Prop :=
  (exists o, getOrder id (db st) = Some o /\ status o = confirmed) ->
  exists o', getOrder id (db st') = Some o' /\ status o' = confirmed.

(** * Further parts of the server *)

(** ** services/orderService.ts: order status *)

Record OrderStatusResponse := mkOrderStatusResponse {
  osr_orderId : string;
  osr_orderNumber : Z;
  osr_status : OrderStatus;
  osr_totalPrice : Z;
  osr_paymentMethod : PaymentMethod;
  osr_receiptSent : bool;
  osr_storeId : string;
}.

Definition getOrderStatus (orderId : string) (d : Db) : option OrderStatusResponse :=
  match getOrder orderId d with
  | None => None
  | Some order =>
      Some (mkOrderStatusResponse (order_id order) (orderNumber order) (status order)
              (totalPrice order) (paymentMethod order) (receiptSent order)
              (storeId order))
  end.

(** ** services/upsellService.ts *)

Record UpsellItem := mkUpsellItem {
  up_itemId : string;
  up_name : string;
  up_price : Z;
  up_categoryId : string;
}.

Definition STATIC_UPSELL_IDS : list string :=
  ["kanelbulle"; "coffee"; "fountain_drink"; "icecream_basic"].

(** The JavaScript half of [getTopCoOccurringCategories]: [rows] are the
    [suggested_category] values the SQL query returns, in its order (the
    query orders by a sum and leaves ties to SQLite). *)
Definition getTopCoOccurringCategories (forCategories rows : list string) : list string :=
  if (length forCategories =? 0)%nat then []
  else List.filter (fun cat => negb (bool_decide (cat ∈ forCategories))) rows.

(** [serverMenuItems.find(m => m.categoryId === catId)] *)
Definition find_by_category (catId : string) : option ServerMenuItem :=
  List.find (fun m => String.eqb (categoryId m) catId) serverMenuItems.

(** [serverMenuItems.find(m => m.id === itemId)] *)
Definition find_by_id (itemId : string) : option ServerMenuItem :=
  List.find (fun m => String.eqb (menu_id m) itemId) serverMenuItems.

(** The first loop of [getUpsellSuggestions]; [results] is kept in
    reverse push order. *)
Fixpoint suggest_from_stats (cart : list string) (suggested : list string)
    (results : list UpsellItem) (used : list string) : list UpsellItem * list string :=
  match suggested with
  | [] => (results, used)
  | catId :: rest =>
      if bool_decide (catId ∈ cart) then suggest_from_stats cart rest results used
      else
        let '(results', used') :=
          match find_by_category catId with
          | Some item =>
              (mkUpsellItem (menu_id item) (menu_name item) (price item) catId :: results,
               catId :: used)
          | None => (results, used)
          end in
        if (3 <=? length results')%nat then (results', used')
        else suggest_from_stats cart rest results' used'
  end.

(** The fallback loop over [STATIC_UPSELL_IDS]. *)
Fixpoint suggest_static (cart : list string) (ids : list string)
    (results : list UpsellItem) (used : list string) : list UpsellItem :=
  match ids with
  | [] => results
  | itemId :: rest =>
      if (3 <=? length results)%nat then results
      else
        match find_by_id itemId with
        | None => suggest_static cart rest results used
        | Some item =>
            let catId := categoryId item in
            if bool_decide (catId ∈ cart) then suggest_static cart rest results used
            else if bool_decide (catId ∈ used) then suggest_static cart rest results used
            else
              suggest_static cart rest
                (mkUpsellItem (menu_id item) (menu_name item) (price item) catId :: results)
                (catId :: used)
        end
  end.

(** [getUpsellSuggestions(cartCategoryIds)], given the rows of the
    co-occurrence query. *)
Definition getUpsellSuggestions (cartCategoryIds rows : list string) : list UpsellItem :=
  let suggestedCategories := getTopCoOccurringCategories cartCategoryIds rows in
  let '(results, used) := suggest_from_stats cartCategoryIds suggestedCategories [] [] in
  rev (if (length results <? 3)%nat
       then suggest_static cartCategoryIds STATIC_UPSELL_IDS results used
       else results).

(** ** Vocabulary of the further properties *)

(** A delivered receipt message for the order [id]. *)
Definition is_delivered_receipt (id : string) (e : Event) : bool :=
  match e with
  | TelegramSend _ (ReceiptText o) true => bool_decide (order_id o = id)
  | _ => false
  end.

Definition delivered_receipts (id : string) (t : list Event) : nat :=
  length (List.filter (is_delivered_receipt id) t).

(** The receipts table records a successful send for the order [id]. *)
Definition receipt_recorded (id : string) (d : Db) : bool :=
  match getReceipt id d with
  | Some r => sent r
  | None => false
  end.

(** Per order: at most one delivered receipt in the trace, and a delivered
    receipt is recorded in the receipts table. *)
Definition receipts_consistent (st : State) : Prop :=
  forall id,
    (delivered_receipts id (trace st) <= 1)%nat
    /\ (delivered_receipts id (trace st) = 1%nat -> receipt_recorded id (db st) = true).

Definition keeps_receipts_consistent (st st' : State) : Prop :=
  receipts_consistent st -> receipts_consistent st'.

(** What an order is made of when it is created: everything but its
    status and its receipt flag. *)
Definition same_content (o o' : Order) : Prop :=
  order_id o' = order_id o /\ orderNumber o' = orderNumber o /\ lines o' = lines o
  /\ totalPrice o' = totalPrice o /\ paymentMethod o' = paymentMethod o
  /\ paymentSessionId o' = paymentSessionId o /\ telegramUserId o' = telegramUserId o
  /\ storeId o' = storeId o /\ createdAt o' = createdAt o.

(** The same orders are stored, each with the content it had. *)
Definition orders_keep_content (st st' : State) : Prop :=
  forall id,
    match getOrder id (db st), getOrder id (db st') with
    | Some o, Some o' => same_content o o'
    | None, None => True
    | _, _ => False
    end.

(** The payment sessions table is left as it was. *)
Definition same_sessions (st st' : State) : Prop :=
  payment_sessions (db st') = payment_sessions (db st).

(** The key under which [recordCategoryCoOccurrence] counts a pair. *)
Definition canonical_pair (a b : string) : string * string :=
  if String.leb a b then (a, b) else (b, a).

Definition is_post_orders (r : Request) : bool :=
  match r with PostOrders _ => true | _ => false end.

(** The deployment in which the Stripe API rejects every request. *)
Definition demo_world_stripe_down : World :=
  mkWorld (uuidv4_at demo_world) (toISOString_at demo_world)
          (fun _ _ _ _ _ => inl "StripeConnectionError")
          (readFileSync demo_world) (swish_post demo_world)
          (sendMessage demo_world) (constructEvent demo_world).

(** A stored line is the menu's snapshot of the requested item. *)
Definition line_snapshots (it : RequestItem) (l : OrderLine) : Prop :=
  exists m,
    serverMenuById !! item_menuItemId it = Some m
    /\ line_menuItemId l = item_menuItemId it
    /\ line_name l = menu_name m
    /\ priceAtOrder l = price m
    /\ item_quantity it = Integer (line_quantity l)
    /\ 1 <= line_quantity l.

(** The queue of timer callbacks is left as it was. *)
Definition same_timers (st st' : State) : Prop := timers st' = timers st.

(** Nothing observable happened: database, trace and timers are as they
    were (the tick counter and the SDK singletons may have moved). *)
Definition nothing_happened (st st' : State) : Prop :=
  db st' = db st /\ trace st' = trace st /\ timers st' = timers st.

(** The state once [getStripe] has run with a key configured: the SDK
    instance exists. *)
Definition stripe_ready (st : State) : State :=
  match stripe st with
  | Some _ => st
  | None => with_stripe (Some (STRIPE_SECRET_KEY (env st))) st
  end.

(** Every stored order that is pending is still stored and pending. *)
Definition pending_stay_pending (st st' : State) : Prop :=
  forall id o,
    getOrder id (db st) = Some o -> status o = pending ->
    exists o', getOrder id (db st') = Some o' /\ status o' = pending.

Definition is_payment_callback (r : Request) : bool :=
  match r with
  | PostWebhookStripe _ _ | PostWebhookSwish _ _ => true
  | _ => false
  end.

(** The request the orders route hands to [createOrder], when the body
    passes the route's own checks on items and payment method. *)
Definition body_request (body : OrdersBody) : option CreateOrderRequest :=
  match body_items body, parse_paymentMethod (body_paymentMethod body) with
  | Some its, Some method =>
      Some (mkCreateOrderRequest its method (body_telegramUserId body) (body_storeId body))
  | _, _ => None
  end.

(** A suggestion is a menu item, shown with its own name, price and
    category, from a category that is not in the cart. *)
Definition good_suggestion (cart : list string) (x : UpsellItem) : Prop :=
  (up_categoryId x ∉ cart)
  /\ exists m, m ∈ serverMenuItems
               /\ menu_id m = up_itemId x /\ menu_name m = up_name x
               /\ price m = up_price x /\ categoryId m = up_categoryId x.

(** The categories of the items of a request, as [createOrder] collects
    them before it removes repetitions. *)
Definition order_categories (its : list RequestItem) : list string :=
  List.filter truthy
    (map categoryId (omap (fun item => serverMenuById !! item_menuItemId item) its)).

(** The count kept for a pair of categories, 0 when there is no row. *)
Definition co_occurrence_count (a b : string) (d : Db) : Z :=
  default 0 (order_category_stats d !! canonical_pair a b).

(** A call [recordCategoryCoOccurrence p.1 p.2] adds to the row [k]. *)
Definition counts_for (k p : string * string) : bool :=
  negb (bool_decide (p.1 = p.2)) && bool_decide (canonical_pair p.1 p.2 = k).

(** Two hot dogs, a coffee and a cinnamon bun, paid by card. *)
Definition demo_request_fika : CreateOrderRequest :=
  mkCreateOrderRequest
    [mkRequestItem "hotdog_classic" "" (Integer 2) 0;
     mkRequestItem "coffee" "" (Integer 1) 0;
     mkRequestItem "kanelbulle" "" (Integer 1) 0]
    card "user-1" "store-malmo".

(** [m] never throws, and what it returns satisfies [P]. *)
Definition answers {A} (P : A -> Prop) (m : M A) : Prop :=
  forall st, exists a st', m st = (Return a, st') /\ P a.

(** [m] never throws. *)
Definition returns {A} (m : M A) : Prop := answers (fun _ => True) m.

(** The property names a plain JavaScript object inherits from
    [Object.prototype].  [serverMenuById[id]] finds a member of the prototype
    under each of them, although the menu has no such item; the embedding
    looks an id up among the menu's own entries only, so what it says about
    the validation of item ids is said for ids outside this list. *)
Definition Object_prototype_keys : list string :=
  ["constructor"; "__proto__"; "hasOwnProperty"; "isPrototypeOf";
   "propertyIsEnumerable"; "toLocaleString"; "toString"; "valueOf";
   "__defineGetter__"; "__defineSetter__"; "__lookupGetter__"; "__lookupSetter__"].

(** No item id of the request names an inherited property. *)
Definition own_ids (its : list RequestItem) : Prop :=
  forallb (fun it => negb (bool_decide (item_menuItemId it ∈ Object_prototype_keys))) its
  = true.

(** * Properties *)

(** ** Rows and objects *)

Lemma rowToOrder_orderToRow o : rowToOrder (order_id o) (orderToRow o) = o.
Proof. by destruct o. Qed.

Lemma getOrder_order_id id d o : getOrder id d = Some o -> order_id o = id.
Proof.
  unfold getOrder. destruct (orders d !! id); simpl; [|done].
  by intros [= <-].
Qed.

Lemma getOrder_saveOrder o d : getOrder (order_id o) (saveOrder o d) = Some o.
Proof.
  unfold getOrder, saveOrder; simpl.
  by rewrite lookup_insert_eq; simpl; rewrite rowToOrder_orderToRow.
Qed.

Lemma order_id_merge_order o u : order_id (merge_order o u) = order_id o.
Proof. by destruct u. Qed.

Lemma getOrder_saveOrder_merge o u d :
  getOrder (order_id o) (saveOrder (merge_order o u) d) = Some (merge_order o u).
Proof. rewrite <- (order_id_merge_order o u) at 1. apply getOrder_saveOrder. Qed.

Lemma updateOrder_found id u d o :
  getOrder id d = Some o ->
  updateOrder id u d = (Some (merge_order o u), saveOrder (merge_order o u) d).
Proof.
  intros Hget. unfold updateOrder. rewrite Hget. cbv zeta.
  pose proof (getOrder_order_id _ _ _ Hget) as Hid.
  rewrite <- Hid at 1. rewrite <- (order_id_merge_order o u).
  by rewrite getOrder_saveOrder.
Qed.

Lemma updateOrder_missing id u d :
  getOrder id d = None -> updateOrder id u d = (None, d).
Proof. intros Hget. unfold updateOrder. by rewrite Hget. Qed.

(** ** Favorites *)

Lemma elem_of_favoriteSet u i d :
  i ∈ favoriteSet u d <-> is_Some (favorites d !! (u, i)).
Proof.
  unfold favoriteSet. rewrite elem_of_map. split.
  - intros [[u' i'] [-> [Hu Hdom]%elem_of_filter]]. simpl in *. subst u'.
    by apply elem_of_dom.
  - intros Hsome. exists (u, i). split; [done|].
    apply elem_of_filter. split; [done|]. by apply elem_of_dom.
Qed.

Ltac unfold_monad :=
  unfold bind, ret, throw, gets, modify, query, exec, run_db, emit,
         next_tick, try_catch in *.

Lemma favoriteSet_ext u d d' :
  (forall i, is_Some (favorites d' !! (u, i)) <-> is_Some (favorites d !! (u, i))) ->
  favoriteSet u d' = favoriteSet u d.
Proof.
  intros H. apply set_eq. intros i. rewrite !elem_of_favoriteSet. apply H.
Qed.

(** C10: [toggleUserFavorite] answers [true] exactly when the item was not
    a favorite of the user before the call, flips the membership of that
    item and of no other, and a second toggle of the same pair restores
    every user's set of favorites. *)
Theorem toggleUserFavorite_flips_membership W u i st :
  exists st',
    toggleUserFavorite W u i st
      = (Return (i, negb (bool_decide (i ∈ favoriteSet u (db st)))), st')
    /\ (i ∈ favoriteSet u (db st') <-> i ∉ favoriteSet u (db st))
    /\ (forall u' i', (u', i') <> (u, i) ->
          (i' ∈ favoriteSet u' (db st') <-> i' ∈ favoriteSet u' (db st)))
    /\ (forall u', favoriteSet u' (db (toggleUserFavorite W u i st').2)
                   = favoriteSet u' (db st)).
Proof.
  unfold toggleUserFavorite, toggleFavorite, new_Date_toISOString.
  unfold_monad. simpl.
  destruct (favorites (db st) !! (u, i)) as [ts|] eqn:Hfav; simpl.
  - eexists. split; [|split; [|split]].
    + rewrite bool_decide_eq_true_2; [done|]. apply elem_of_favoriteSet. by rewrite Hfav.
    + rewrite !elem_of_favoriteSet. simpl. rewrite lookup_delete_eq, Hfav.
      split; [by intros [? [=]]|]. intros Hn. by destruct Hn.
    + intros u' i' Hne. rewrite !elem_of_favoriteSet. simpl.
      by rewrite lookup_delete_ne.
    + intros u'. simpl. rewrite lookup_delete_eq. simpl.
      apply favoriteSet_ext. intros i'. simpl.
      destruct (decide ((u, i) = (u', i'))) as [[= <- <-]|Hne].
      * rewrite lookup_insert_eq, Hfav. by split.
      * by rewrite lookup_insert_ne, lookup_delete_ne.
  - eexists. split; [|split; [|split]].
    + rewrite bool_decide_eq_false_2; [done|].
      rewrite elem_of_favoriteSet, Hfav. by intros [? [=]].
    + rewrite !elem_of_favoriteSet. simpl. rewrite lookup_insert_eq, Hfav.
      split; [|done]. intros _ [? [=]].
    + intros u' i' Hne. rewrite !elem_of_favoriteSet. simpl.
      by rewrite lookup_insert_ne.
    + intros u'. simpl. rewrite lookup_insert_eq. simpl.
      apply favoriteSet_ext. intros i'. simpl.
      destruct (decide ((u, i) = (u', i'))) as [[= <- <-]|Hne].
      * rewrite lookup_delete_eq, Hfav. split; by intros [? [=]].
      * by rewrite lookup_delete_ne, lookup_insert_ne.
Qed.

(** ** Frame rules for the monad *)

Section Frame.
Context (R : State -> State -> Prop) `{!PreOrder R}.

Lemma preserves_ret {A} (a : A) : preserves R (ret a).
Proof. intros st. simpl. reflexivity. Qed.

Lemma preserves_throw {A} msg : preserves R (@throw A msg).
Proof. intros st. simpl. reflexivity. Qed.

Lemma preserves_gets {A} (f : State -> A) : preserves R (gets f).
Proof. intros st. simpl. reflexivity. Qed.

Lemma preserves_query {A} (f : Db -> A) : preserves R (query f).
Proof. intros st. simpl. reflexivity. Qed.

Lemma preserves_bind {A B} (m : M A) (k : A -> M B) :
  preserves R m -> (forall a, preserves R (k a)) -> preserves R (bind m k).
Proof.
  intros Hm Hk st. unfold bind. specialize (Hm st).
  destruct (m st) as [[a|msg] st1]; simpl in *; [|done].
  etrans; [exact Hm|apply Hk].
Qed.

Lemma preserves_try_catch {A} (m : M A) (h : string -> M A) :
  preserves R m -> (forall msg, preserves R (h msg)) -> preserves R (try_catch m h).
Proof.
  intros Hm Hh st. unfold try_catch. specialize (Hm st).
  destruct (m st) as [[a|msg] st1]; simpl in *; [done|].
  etrans; [exact Hm|apply Hh].
Qed.

Lemma preserves_modify (f : State -> State) :
  (forall st, R st (f st)) -> preserves R (modify f).
Proof. intros Hf st. apply Hf. Qed.

Lemma preserves_exec (f : Db -> Db) :
  (forall st, R st (with_db f st)) -> preserves R (exec f).
Proof. intros Hf st. apply Hf. Qed.

Lemma preserves_run_db {A} (f : Db -> A * Db) :
  (forall st, R st (with_db (fun _ => (f (db st)).2) st)) -> preserves R (run_db f).
Proof.
  intros Hf st. unfold run_db. specialize (Hf st).
  by destruct (f (db st)) as [a d].
Qed.

Lemma preserves_next_tick :
  (forall st n, R st (with_tick n st)) -> preserves R next_tick.
Proof. intros Hf st. apply Hf. Qed.

Lemma preserves_emit e :
  (forall st, R st (with_trace (fun t => t ++ [e]) st)) -> preserves R (emit e).
Proof. intros Hf st. apply Hf. Qed.
End Frame.

#[global] Instance same_db_preorder : PreOrder same_db.
Proof.
  split; [by intros st|]. intros a b c Hab Hbc. unfold same_db in *. congruence.
Qed.

(** Walks an action along its syntax; what is left are the state updates
    that do not obviously keep the relation. *)
Ltac frame_step :=
  match goal with
  | |- preserves _ (bind _ _) => apply preserves_bind; [apply _| |intros ?]
  | |- preserves _ (try_catch _ _) => apply preserves_try_catch; [apply _| |intros ?]
  | |- preserves _ (ret _) => apply preserves_ret; apply _
  | |- preserves _ (throw _) => apply preserves_throw; apply _
  | |- preserves _ (gets _) => apply preserves_gets; apply _
  | |- preserves _ (query _) => apply preserves_query; apply _
  | |- preserves _ (modify _) => apply preserves_modify; intros ?
  | |- preserves _ (exec _) => apply preserves_exec; intros ?
  | |- preserves _ (run_db _) => apply preserves_run_db; intros ?
  | |- preserves _ next_tick => apply preserves_next_tick; intros ? ?
  | |- preserves _ (emit _) => apply preserves_emit; intros ?
  | |- preserves _ (if ?b then _ else _) => destruct b
  | |- preserves _ (match ?x with _ => _ end) => destruct x
  end.

Ltac frame := repeat frame_step; try (unfold same_db; simpl; reflexivity).

Create HintDb frame discriminated.

Lemma notification_getBot_same_db : preserves same_db notification_getBot.
Proof. unfold notification_getBot. frame. Qed.

Lemma sendOrderReadyNotification_same_db W u n :
  preserves same_db (sendOrderReadyNotification W u n).
Proof.
  unfold sendOrderReadyNotification. frame.
  apply notification_getBot_same_db.
Qed.

(** ** Symbolic execution of the monad *)

Lemma bind_ret {A B} (a : A) (k : A -> M B) st : bind (ret a) k st = k a st.
Proof. done. Qed.

Lemma bind_throw {A B} msg (k : A -> M B) st : bind (throw msg) k st = (Throw msg, st).
Proof. done. Qed.

Lemma bind_gets {A B} (f : State -> A) (k : A -> M B) st : bind (gets f) k st = k (f st) st.
Proof. done. Qed.

Lemma bind_query {A B} (f : Db -> A) (k : A -> M B) st :
  bind (query f) k st = k (f (db st)) st.
Proof. done. Qed.

Lemma bind_modify {B} f (k : unit -> M B) st : bind (modify f) k st = k tt (f st).
Proof. done. Qed.

Lemma bind_exec {B} f (k : unit -> M B) st : bind (exec f) k st = k tt (with_db f st).
Proof. done. Qed.

Lemma bind_emit {B} e (k : unit -> M B) st :
  bind (emit e) k st = k tt (with_trace (fun t => t ++ [e]) st).
Proof. done. Qed.

Lemma bind_run_db {A B} (f : Db -> A * Db) (k : A -> M B) st :
  bind (run_db f) k st = k (f (db st)).1 (with_db (fun _ => (f (db st)).2) st).
Proof. unfold bind, run_db. by destruct (f (db st)). Qed.

Lemma bind_next_tick {B} (k : nat -> M B) st :
  bind next_tick k st = k (tick st) (with_tick (S (tick st)) st).
Proof. done. Qed.

Lemma bind_uuidv4 {B} W (k : string -> M B) st :
  bind (uuidv4 W) k st = k (uuidv4_at W (tick st)) (with_tick (S (tick st)) st).
Proof. done. Qed.

Lemma bind_new_Date {B} W (k : string -> M B) st :
  bind (new_Date_toISOString W) k st
  = k (toISOString_at W (tick st)) (with_tick (S (tick st)) st).
Proof. done. Qed.

Lemma bind_assoc {A B C} (m : M A) (k1 : A -> M B) (k2 : B -> M C) st :
  bind (bind m k1) k2 st = bind m (fun a => bind (k1 a) k2) st.
Proof. unfold bind. by destruct (m st) as [[a|msg] st']. Qed.

Lemma try_catch_swallow (m : M unit) st :
  try_catch m (fun _ => ret tt) st = (Return tt, (m st).2).
Proof. unfold try_catch, ret. by destruct (m st) as [[[]|msg] st']. Qed.

Lemma bind_try_swallow {B} (m : M unit) (k : unit -> M B) st :
  bind (try_catch m (fun _ => ret tt)) k st = k tt (m st).2.
Proof. unfold bind. by rewrite try_catch_swallow. Qed.

Lemma query_run {A} (f : Db -> A) st : query f st = (Return (f (db st)), st).
Proof. done. Qed.

Lemma ret_run {A} (a : A) st : ret a st = (Return a, st).
Proof. done. Qed.

Lemma throw_run {A} msg st : @throw A msg st = (Throw msg, st).
Proof. done. Qed.

Create Rewrite HintDb mstep.
#[global] Hint Rewrite @bind_ret @bind_throw @bind_gets @bind_query @bind_modify
  @bind_exec @bind_emit @bind_run_db @bind_next_tick @bind_uuidv4 @bind_new_Date
  @bind_try_swallow @query_run @ret_run @throw_run : mstep.

Ltac mstep := autorewrite with mstep.

(** ** The ready transition *)

Lemma markOrderReady_other_status W id st o :
  getOrder id (db st) = Some o -> status o <> confirmed ->
  markOrderReady W id st = (Return (Some o), st).
Proof.
  intros Hget Hst. unfold markOrderReady. mstep. rewrite Hget.
  by rewrite bool_decide_eq_false_2.
Qed.

Lemma same_db_run {A} (m : M A) st : preserves same_db m -> db (m st).2 = db st.
Proof. intros H. apply H. Qed.

Lemma markOrderReady_confirmed W id st o :
  getOrder id (db st) = Some o -> status o = confirmed ->
  exists st1,
    markOrderReady W id st = (Return (Some (merge_order o (SetStatus ready))), st1)
    /\ db st1 = saveOrder (merge_order o (SetStatus ready)) (db st).
Proof.
  intros Hget Hst. unfold markOrderReady. mstep. rewrite Hget.
  rewrite bool_decide_eq_true_2 by done. cbn [negb].
  mstep. rewrite (updateOrder_found _ _ _ _ Hget). cbn [fst snd].
  pose proof (getOrder_order_id _ _ _ Hget) as <-.
  match goal with |- context [if ?b then _ else _] => destruct b end.
  - rewrite !same_db_run
      by (frame; apply sendOrderReadyNotification_same_db).
    cbn [db with_db]. rewrite getOrder_saveOrder_merge.
    eexists. split; [reflexivity|].
    by rewrite same_db_run by (frame; apply sendOrderReadyNotification_same_db).
  - unfold ret. cbn [db with_db snd]. rewrite getOrder_saveOrder_merge.
    eexists. split; reflexivity.
Qed.

(** C3: the ready transition returns an order whose status is not
    [confirmed] unchanged and leaves the state as it was; on a confirmed
    order the first call sets the status to [ready] and a second call is a
    no-op that returns that same order. *)
Theorem markOrderReady_idempotent W id st o :
  getOrder id (db st) = Some o ->
  (status o <> confirmed -> markOrderReady W id st = (Return (Some o), st))
  /\ (status o = confirmed ->
      exists o1 st1,
        markOrderReady W id st = (Return (Some o1), st1)
        /\ o1 = merge_order o (SetStatus ready)
        /\ status o1 = ready
        /\ getOrder id (db st1) = Some o1
        /\ markOrderReady W id st1 = (Return (Some o1), st1)).
Proof.
  intros Hget. split; [by apply markOrderReady_other_status|].
  intros Hst. destruct (markOrderReady_confirmed W id st o Hget Hst) as (st1 & Hrun & Hdb).
  assert (Hget1 : getOrder id (db st1) = Some (merge_order o (SetStatus ready))).
  { rewrite Hdb. rewrite <- (getOrder_order_id _ _ _ Hget).
    apply getOrder_saveOrder_merge. }
  exists (merge_order o (SetStatus ready)), st1.
  repeat split; [done|done|].
  by apply markOrderReady_other_status.
Qed.

Lemma markOrderReady_idempotent_witness :
  getOrder "uuid-0" (db demo_confirmed) = Some (demo_order confirmed true)
  /\ exists o1 st1,
      markOrderReady demo_world "uuid-0" demo_confirmed = (Return (Some o1), st1)
      /\ o1 = merge_order (demo_order confirmed true) (SetStatus ready)
      /\ status o1 = ready
      /\ getOrder "uuid-0" (db st1) = Some o1
      /\ markOrderReady demo_world "uuid-0" st1 = (Return (Some o1), st1).
Proof.
  assert (H : getOrder "uuid-0" (db demo_confirmed) = Some (demo_order confirmed true))
    by (vm_compute; reflexivity).
  split; [exact H|].
  apply (markOrderReady_idempotent demo_world "uuid-0" demo_confirmed _ H).
  reflexivity.
Defined.

(** ** Payment session creation *)

Lemma createPaymentForOrder_effect W orderId amt method st :
  match createPaymentForOrder W orderId amt method st with
  | (Throw _, st') => db st' = db st
  | (Return pr, st') =>
      exists s, db st' = savePaymentSession s (db st)
                /\ ps_id s = pc_sessionId pr /\ ps_orderId s = orderId
                /\ ps_amount s = amt /\ ps_method s = method
                /\ pc_sessionId pr = uuidv4_at W (tick st)
  end.
Proof.
  unfold createPaymentForOrder, createStripePayment, createSwishPayment, getStripe,
    uuidv4, new_Date_toISOString.
  unfold_monad. simpl.
  repeat case_match; simplify_eq; simpl; try done; eauto 10.
Qed.

(** ** Order creation *)

Lemma recordCategoryCoOccurrence_frame a b d :
  let d' := recordCategoryCoOccurrence a b d in
  orders d' = orders d /\ payment_sessions d' = payment_sessions d
  /\ receipts d' = receipts d /\ stores d' = stores d
  /\ user_contexts d' = user_contexts d /\ favorites d' = favorites d.
Proof.
  unfold recordCategoryCoOccurrence. case_decide; [done|].
  by destruct (String.leb a b).
Qed.

Lemma record_pairs_frame ps d :
  let d' := fold_left (fun d p => recordCategoryCoOccurrence p.1 p.2 d) ps d in
  orders d' = orders d /\ payment_sessions d' = payment_sessions d
  /\ receipts d' = receipts d /\ stores d' = stores d
  /\ user_contexts d' = user_contexts d /\ favorites d' = favorites d.
Proof.
  revert d. induction ps as [|[a b] ps IH]; intros d; [done|].
  simpl. destruct (IH (recordCategoryCoOccurrence a b d)) as (-> & -> & -> & -> & -> & ->).
  apply recordCategoryCoOccurrence_frame.
Qed.

(** What [createOrder] leaves behind: nothing when it throws; otherwise one
    payment session and one pending order, priced from the menu. *)
Lemma createOrder_effect W req st :
  match createOrder W req st with
  | (Throw _, st') => db st' = db st
  | (Return r, st') =>
      exists ls s ts,
        price_lines (items req) = Return ls
        /\ amount r = sum_lines ls
        /\ resp_orderNumber r = nextOrderNumber (db st)
        /\ resp_status r = pending
        /\ orders (db st')
           = <[resp_orderId r :=
                 orderToRow (mkOrder (resp_orderId r) (nextOrderNumber (db st)) ls
                               (sum_lines ls) (req_paymentMethod req) pending
                               (resp_paymentSessionId r) false
                               (req_telegramUserId req) (req_storeId req) ts)]>
               (orders (db st))
        /\ payment_sessions (db st')
           = <[ps_id s := sessionToRow s]> (payment_sessions (db st))
        /\ ps_id s = resp_paymentSessionId r
        /\ ps_orderId s = resp_orderId r
        /\ ps_amount s = sum_lines ls
        /\ ps_method s = req_paymentMethod req
  end.
Proof.
  unfold createOrder.
  destruct (length (items req) =? 0)%nat; [done|].
  destruct (truthy (req_telegramUserId req)); [|done].
  destruct (truthy (req_storeId req)); [|done]. cbn [negb].
  mstep. destruct (getStoreById (req_storeId req) (db st)) as [store|]; [|done].
  mstep. destruct (price_lines (items req)) as [ls|msg] eqn:Hls; [|done].
  cbn [db with_tick].
  unfold bind at 1.
  set (st1 := with_tick (S (tick st)) st).
  pose proof (createPaymentForOrder_effect W (uuidv4_at W (tick st)) (sum_lines ls)
                (req_paymentMethod req) st1) as Hpay.
  destruct (createPaymentForOrder W (uuidv4_at W (tick st)) (sum_lines ls)
              (req_paymentMethod req) st1) as [[pr|msg] st2]; [|done].
  destruct Hpay as (s & Hdb2 & Hsid & Hoid & Hamt & Hmeth & _).
  mstep. cbn [fst snd db with_db with_tick].
  match goal with
  | |- context [fold_left ?f ?ps ?d] =>
      destruct (record_pairs_frame ps d) as (Ho & Hp & _)
  end.
  exists ls, s, (toISOString_at W (tick st2)).
  cbn [amount resp_orderNumber resp_status resp_orderId resp_paymentSessionId].
  rewrite Ho, Hp. cbn [saveOrder with_orders orders payment_sessions order_id].
  rewrite Hdb2. cbn [savePaymentSession with_payment_sessions orders payment_sessions].
  repeat split; done.
Qed.

(** ** Pricing *)

Lemma sum_lines_acc ls a :
  fold_left (fun sum line => sum + line_quantity line * priceAtOrder line) ls a
  = a + sum_lines ls.
Proof.
  unfold sum_lines. revert a. induction ls as [|l ls IH]; intros a; simpl; [lia|].
  rewrite IH, (IH (0 + _)). lia.
Qed.

Lemma sum_lines_cons l ls :
  sum_lines (l :: ls) = line_quantity l * priceAtOrder l + sum_lines ls.
Proof. unfold sum_lines at 1. simpl. by rewrite sum_lines_acc. Qed.

Lemma price_line_total it l :
  price_line it = Return l ->
  line_quantity l * priceAtOrder l
  = catalog_price serverMenuById (item_menuItemId it) * quantity_of (item_quantity it).
Proof.
  unfold price_line, catalog_price.
  destruct (item_quantity it) as [q|]; [|done].
  destruct (q <? 1); [done|].
  destruct (serverMenuById !! item_menuItemId it) as [m|]; [|done].
  intros [= <-]. simpl. lia.
Qed.

Lemma price_lines_total its ls :
  price_lines its = Return ls -> sum_lines ls = catalog_total serverMenuById its.
Proof.
  revert ls. induction its as [|it its IH]; intros ls; simpl.
  - by intros [= <-].
  - destruct (price_line it) as [l|] eqn:Hl; [|done].
    destruct (price_lines its) as [ls'|]; [|done].
    intros [= <-]. rewrite sum_lines_cons, (IH ls') by done.
    by rewrite (price_line_total _ _ Hl).
Qed.

Lemma price_line_set_price p it : price_line (set_item_price p it) = price_line it.
Proof. done. Qed.

Lemma price_lines_set_price p its :
  price_lines (map (set_item_price p) its) = price_lines its.
Proof.
  induction its as [|it its IH]; [done|]. simpl.
  by rewrite price_line_set_price, IH.
Qed.

Lemma menu_lookup_set_price p its :
  omap (fun item => serverMenuById !! item_menuItemId item) (map (set_item_price p) its)
  = omap (fun item => serverMenuById !! item_menuItemId item) its.
Proof.
  induction its as [|it its IH]; [done|]. simpl.
  unfold omap in IH. by rewrite IH.
Qed.

Lemma createOrder_set_prices W p req st :
  createOrder W (set_prices p req) st = createOrder W req st.
Proof.
  unfold createOrder, set_prices.
  cbn [items req_paymentMethod req_telegramUserId req_storeId].
  by rewrite length_map, price_lines_set_price, menu_lookup_set_price.
Qed.



(** ** Validation *)

Lemma truthy_false s : truthy s = false <-> s = "".
Proof. by destruct s. Qed.

Lemma price_line_invalid it : invalid_item it -> exists msg, price_line it = Throw msg.
Proof.
  unfold invalid_item, price_line. intros [Hq|Hm].
  - destruct (item_quantity it) as [q|]; [|by eexists].
    apply Z.ltb_lt in Hq. rewrite Hq. by eexists.
  - destruct (item_quantity it) as [q|]; [|by eexists].
    destruct (q <? 1); [by eexists|]. rewrite Hm. by eexists.
Qed.

Lemma price_lines_invalid its :
  Exists invalid_item its -> exists msg, price_lines its = Throw msg.
Proof.
  induction 1 as [it its Hit|it its _ [msg IH]]; simpl.
  - destruct (price_line_invalid it Hit) as [msg ->]. by eexists.
  - destruct (price_line it); [|by eexists]. rewrite IH. by eexists.
Qed.



(** ** Inbound callbacks *)

Lemma getPaymentSessionByExternalRef_unknown ref d :
  unknown_reference ref d -> getPaymentSessionByExternalRef ref d = None.
Proof.
  intros Hunk. unfold getPaymentSessionByExternalRef.
  destruct (head _) as [[id row]|] eqn:Hhead; [|done].
  apply head_Some_elem_of, list_elem_of_filter in Hhead as [Hp Hin].
  apply elem_of_map_to_list in Hin. by destruct (Hunk id row Hin).
Qed.

Lemma handleSwishCallback_unknown W reference status st :
  unknown_reference reference (db st) ->
  handleSwishCallback W reference status st = (Return (mkWebhookResult false None), st).
Proof.
  intros Hunk. unfold handleSwishCallback. mstep.
  by rewrite getPaymentSessionByExternalRef_unknown.
Qed.

Lemma handleStripeWebhook_unknown W rawBody signature st :
  (forall ev, constructEvent W rawBody signature (STRIPE_WEBHOOK_SECRET (env st)) = Some ev ->
              unknown_reference (object_id ev) (db st)) ->
  exists res st',
    handleStripeWebhook W rawBody signature st = (Return res, st')
    /\ db st' = db st
    /\ wr_orderId res = None
    /\ success res
       = match constructEvent W rawBody signature (STRIPE_WEBHOOK_SECRET (env st)) with
         | Some ev =>
             truthy (STRIPE_WEBHOOK_SECRET (env st))
             && (bool_decide (is_Some (stripe st)) || truthy (STRIPE_SECRET_KEY (env st)))
             && negb (looks_up_session ev)
         | None => false
         end.
Proof.
  intros Hunk. unfold handleStripeWebhook, getStripe, looks_up_session.
  unfold_monad. cbn beta.
  destruct (truthy (STRIPE_WEBHOOK_SECRET (env st))); simpl;
    [|repeat eexists; by destruct (constructEvent _ _ _ _)].
  destruct (constructEvent W rawBody signature (STRIPE_WEBHOOK_SECRET (env st)))
    as [ev|] eqn:Hev.
  - specialize (Hunk ev eq_refl).
    destruct (stripe st) as [inst|] eqn:Hstripe; simpl.
    + destruct (String.eqb (event_type ev) "checkout.session.completed"); simpl.
      { rewrite getPaymentSessionByExternalRef_unknown by done. by repeat eexists. }
      destruct (String.eqb (event_type ev) "checkout.session.async_payment_failed"); simpl.
      { rewrite getPaymentSessionByExternalRef_unknown by done. by repeat eexists. }
      by repeat eexists.
    + destruct (truthy (STRIPE_SECRET_KEY (env st))); simpl; [|by repeat eexists].
      destruct (String.eqb (event_type ev) "checkout.session.completed"); simpl.
      { rewrite getPaymentSessionByExternalRef_unknown by done. by repeat eexists. }
      destruct (String.eqb (event_type ev) "checkout.session.async_payment_failed"); simpl.
      { rewrite getPaymentSessionByExternalRef_unknown by done. by repeat eexists. }
      by repeat eexists.
  - destruct (stripe st) as [inst|]; simpl; [by repeat eexists|].
    destruct (truthy (STRIPE_SECRET_KEY (env st))); simpl; by repeat eexists.
Qed.

(** C8 (as amended): a Swish callback whose reference matches no stored
    payment session is answered [{success: false}] and leaves the whole
    state as it was; a verified Stripe event whose reference matches no
    stored session leaves the database as it was, and is answered
    [{success: false}] when its type is one of the two for which the handler
    looks a session up, whereas an event of any other type is acknowledged
    with [{success: true}]. *)
Theorem callback_with_unknown_reference W st :
  (forall reference status,
      unknown_reference reference (db st) ->
      handleSwishCallback W reference status st
      = (Return (mkWebhookResult false None), st))
  /\ (forall rawBody signature ev,
        constructEvent W rawBody signature (STRIPE_WEBHOOK_SECRET (env st)) = Some ev ->
        unknown_reference (object_id ev) (db st) ->
        exists res st',
          handleStripeWebhook W rawBody signature st = (Return res, st')
          /\ db st' = db st
          /\ wr_orderId res = None
          /\ (looks_up_session ev = true -> success res = false)
          /\ (truthy (STRIPE_WEBHOOK_SECRET (env st)) = true ->
              truthy (STRIPE_SECRET_KEY (env st)) = true ->
              looks_up_session ev = false -> success res = true)).
Proof.
  split; [intros; by apply handleSwishCallback_unknown|].
  intros rawBody signature ev Hev Hunk.
  destruct (handleStripeWebhook_unknown W rawBody signature st)
    as (res & st' & Hrun & Hdb & Hid & Hsucc).
  { intros ev' Hev'. by simplify_eq. }
  exists res, st'. rewrite Hev in Hsucc. repeat split; try done.
  - intros Hlook. rewrite Hsucc, Hlook. by rewrite andb_false_r.
  - intros Hsec Hkey Hlook. rewrite Hsucc, Hsec, Hkey, Hlook.
    by rewrite orb_true_r.
Qed.

Lemma callback_with_unknown_reference_witness :
  unknown_reference "REF-UNKNOWN" (db demo_pending)
  /\ handleSwishCallback demo_world "REF-UNKNOWN" "PAID" demo_pending
     = (Return (mkWebhookResult false None), demo_pending)
  /\ exists res st',
      handleStripeWebhook demo_world "REF-UNKNOWN" "valid" demo_pending = (Return res, st')
      /\ db st' = db demo_pending
      /\ success res = false.
Proof.
  assert (H : unknown_reference "REF-UNKNOWN" (db demo_pending)).
  { intros id row Hrow Href.
    assert (Hin : (id, row) ∈ map_to_list (payment_sessions (db demo_pending)))
      by by apply elem_of_map_to_list.
    vm_compute in Hin. apply list_elem_of_In in Hin. simpl in Hin.
    destruct Hin as [[= <- <-]|[]]. by vm_compute in Href. }
  destruct (callback_with_unknown_reference demo_world demo_pending) as [Hswish Hstripe].
  split; [exact H|]. split; [exact (Hswish "REF-UNKNOWN" "PAID" H)|].
  destruct (Hstripe "REF-UNKNOWN" "valid"
              (mkStripeEvent "checkout.session.completed" "REF-UNKNOWN") eq_refl H)
    as (res & st' & Hrun & Hdb & _ & Hfalse & _).
  exists res, st'. split; [exact Hrun|]. split; [exact Hdb|]. exact (Hfalse eq_refl).
Defined.

(** The claim C8 as it was stated fails for a verified Stripe event of a
    type the handler does not act on: its reference matches no stored
    session, yet the answer is [{success: true}]. *)
Lemma stripe_unhandled_event_unknown_reference_succeeds :
  unknown_reference "cs_test_unknown" (db (initial_state demo_env))
  /\ constructEvent demo_world "cs_test_unknown" "valid-expired"
       (STRIPE_WEBHOOK_SECRET (env (initial_state demo_env)))
     = Some (mkStripeEvent "checkout.session.expired" "cs_test_unknown")
  /\ ~ (exists st',
          handleStripeWebhook demo_world "cs_test_unknown" "valid-expired"
            (initial_state demo_env)
          = (Return (mkWebhookResult false None), st')).
Proof.
  split; [|split].
  - intros id row Hrow. simpl in Hrow. by rewrite lookup_empty in Hrow.
  - reflexivity.
  - intros [st' Hrun]. vm_compute in Hrun. discriminate Hrun.
Qed.

(** ** Order numbers *)

Lemma max_order_number_spec m :
  match max_order_number m with
  | None => m = ∅
  | Some n => is_max_order_number m n
  end.
Proof.
  unfold max_order_number.
  apply (map_fold_weak_ind
           (fun acc m => match acc with
                         | None => m = ∅
                         | Some n => is_max_order_number m n
                         end)); [done|].
  intros id row m' acc Hfresh IH.
  destruct acc as [n|].
  - destruct IH as [(id0 & row0 & Hrow0 & Hn) Hle]. split.
    + destruct (Z.max_spec n (order_number row)) as [[Hlt ->]|[Hge ->]].
      * exists id, row. by rewrite lookup_insert_eq.
      * exists id0, row0. split; [|done].
        rewrite lookup_insert_ne; [done|]. intros ->. congruence.
    + intros id1 row1 Hlook.
      destruct (decide (id = id1)) as [->|Hne].
      * rewrite lookup_insert_eq in Hlook. injection Hlook as <-. lia.
      * rewrite lookup_insert_ne in Hlook by done.
        specialize (Hle _ _ Hlook). lia.
  - subst m'. split.
    + exists id, row. by rewrite lookup_insert_eq.
    + intros id1 row1 Hlook.
      destruct (decide (id = id1)) as [->|Hne].
      * rewrite lookup_insert_eq in Hlook. by injection Hlook as <-.
      * by rewrite lookup_insert_ne, lookup_empty in Hlook.
Qed.

Lemma is_max_order_number_unique m n n' :
  is_max_order_number m n -> is_max_order_number m n' -> n = n'.
Proof.
  intros [(id & row & Hrow & <-) Hle] [(id' & row' & Hrow' & <-) Hle'].
  specialize (Hle _ _ Hrow'). specialize (Hle' _ _ Hrow). lia.
Qed.

Lemma max_order_number_is_max m n :
  is_max_order_number m n -> max_order_number m = Some n.
Proof.
  intros Hmax. pose proof (max_order_number_spec m) as Hspec.
  destruct (max_order_number m) as [n'|].
  - f_equal. by eapply is_max_order_number_unique.
  - subst m. destruct Hmax as [(id & row & Hrow & _) _].
    by rewrite lookup_empty in Hrow.
Qed.

Lemma nextOrderNumber_empty d : orders d = ∅ -> nextOrderNumber d = 10.
Proof.
  intros Hempty. unfold nextOrderNumber.
  pose proof (max_order_number_spec (orders d)) as Hspec.
  destruct (max_order_number (orders d)) as [n|]; [|done].
  destruct Hspec as [(id & row & Hrow & _) _].
  by rewrite Hempty, lookup_empty in Hrow.
Qed.

Lemma nextOrderNumber_above d id row :
  orders d !! id = Some row -> order_number row < nextOrderNumber d.
Proof.
  intros Hrow. unfold nextOrderNumber.
  pose proof (max_order_number_spec (orders d)) as Hspec.
  destruct (max_order_number (orders d)) as [n|]; simpl.
  - destruct Hspec as [_ Hle]. specialize (Hle _ _ Hrow). lia.
  - by rewrite Hspec, lookup_empty in Hrow.
Qed.

(** Inserting a row whose number is above every number of the table makes
    that number the maximum. *)
Lemma nextOrderNumber_insert_next d id row d' :
  orders d' = <[id := row]> (orders d) ->
  order_number row = nextOrderNumber d ->
  nextOrderNumber d' = nextOrderNumber d + 1.
Proof.
  intros Hins Hnum. unfold nextOrderNumber at 1.
  rewrite (max_order_number_is_max (orders d') (order_number row)); [simpl; lia|].
  split.
  - exists id, row. by rewrite Hins, lookup_insert_eq.
  - intros id1 row1. rewrite Hins.
    destruct (decide (id = id1)) as [->|Hne].
    + rewrite lookup_insert_eq. by intros [= <-].
    + rewrite lookup_insert_ne by done. intros Hrow1.
      pose proof (nextOrderNumber_above _ _ _ Hrow1). lia.
Qed.

(** Rewriting a row without touching its number leaves the maximum. *)
Lemma nextOrderNumber_update d id row row' d' :
  orders d !! id = Some row ->
  orders d' = <[id := row']> (orders d) ->
  order_number row' = order_number row ->
  nextOrderNumber d' = nextOrderNumber d.
Proof.
  intros Hrow Hins Hnum. unfold nextOrderNumber.
  pose proof (max_order_number_spec (orders d)) as Hspec.
  destruct (max_order_number (orders d)) as [n|];
    [|by rewrite Hspec, lookup_empty in Hrow].
  rewrite (max_order_number_is_max (orders d') n); [done|].
  destruct Hspec as [(id0 & row0 & Hrow0 & Hn) Hle]. split.
  - destruct (decide (id = id0)) as [->|Hne].
    + exists id0, row'. rewrite Hins, lookup_insert_eq. split; [done|]. congruence.
    + exists id0, row0. by rewrite Hins, lookup_insert_ne.
  - intros id1 row1. rewrite Hins.
    destruct (decide (id = id1)) as [->|Hne].
    + rewrite lookup_insert_eq. intros [= <-]. rewrite Hnum. by eapply Hle.
    + rewrite lookup_insert_ne by done. apply Hle.
Qed.

Lemma nextOrderNumber_updateOrder id u d :
  nextOrderNumber (updateOrder id u d).2 = nextOrderNumber d.
Proof.
  destruct (getOrder id d) as [o|] eqn:Hget.
  - rewrite (updateOrder_found _ _ _ _ Hget). cbn [snd].
    unfold getOrder in Hget.
    destruct (orders d !! id) as [row|] eqn:Hrow; [|done].
    injection Hget as <-.
    eapply nextOrderNumber_update; [exact Hrow| |].
    + unfold saveOrder. cbn [orders with_orders]. by rewrite order_id_merge_order.
    + by destruct u.
  - by rewrite (updateOrder_missing _ _ _ Hget).
Qed.

#[global] Instance numbers_grow_preorder : PreOrder numbers_grow.
Proof.
  split; [intros st; unfold numbers_grow; lia|].
  intros a b c Hab Hbc. unfold numbers_grow in *. lia.
Qed.

Ltac numbers_prim :=
  unfold numbers_grow;
  cbn [db with_db with_tick with_trace with_stripe with_receipt_bot with_push_bot
       with_timers];
  first
    [ lia
    | rewrite nextOrderNumber_updateOrder; lia
    | unfold nextOrderNumber, savePaymentSession, saveReceipt;
      cbn [orders with_payment_sessions with_receipts with_user_contexts with_favorites
           with_order_category_stats]; lia ].

Lemma createOrder_numbers_grow W req : preserves numbers_grow (createOrder W req).
Proof.
  intros st. pose proof (createOrder_effect W req st) as Heff.
  destruct (createOrder W req st) as [[r|msg] st']; cbn [snd]; unfold numbers_grow.
  - destruct Heff as (ls & s & ts & _ & _ & _ & _ & Hord & _).
    rewrite (nextOrderNumber_insert_next _ _ _ _ Hord); [lia|done].
  - rewrite Heff. lia.
Qed.

Lemma sendTelegramReceipt_numbers_grow W o c :
  preserves numbers_grow (sendTelegramReceipt W o c).
Proof.
  unfold sendTelegramReceipt, receipt_getBot, new_Date_toISOString.
  frame; numbers_prim.
Qed.

Lemma sendOrderReadyNotification_numbers_grow W u n :
  preserves numbers_grow (sendOrderReadyNotification W u n).
Proof.
  unfold sendOrderReadyNotification, notification_getBot. frame; numbers_prim.
Qed.

Lemma confirmOrder_numbers_grow W id : preserves numbers_grow (confirmOrder W id).
Proof.
  unfold confirmOrder, setTimeout. frame; try numbers_prim.
  apply sendTelegramReceipt_numbers_grow.
Qed.

Lemma markOrderReady_numbers_grow W id : preserves numbers_grow (markOrderReady W id).
Proof.
  unfold markOrderReady. frame; try numbers_prim.
  apply sendOrderReadyNotification_numbers_grow.
Qed.

Lemma updatePaymentSession_numbers_grow W id s :
  preserves numbers_grow (updatePaymentSession W id s).
Proof. unfold updatePaymentSession, new_Date_toISOString. frame; numbers_prim. Qed.

#[global] Hint Resolve createOrder_numbers_grow sendTelegramReceipt_numbers_grow
  sendOrderReadyNotification_numbers_grow confirmOrder_numbers_grow
  markOrderReady_numbers_grow updatePaymentSession_numbers_grow : frame.

Lemma handleStripeWebhook_numbers_grow W rawBody signature :
  preserves numbers_grow (handleStripeWebhook W rawBody signature).
Proof.
  unfold handleStripeWebhook, getStripe. frame; try numbers_prim; eauto with frame.
Qed.

Lemma handleSwishCallback_numbers_grow W reference status :
  preserves numbers_grow (handleSwishCallback W reference status).
Proof. unfold handleSwishCallback. frame; try numbers_prim; eauto with frame. Qed.

Lemma toggleUserFavorite_numbers_grow W u i :
  preserves numbers_grow (toggleUserFavorite W u i).
Proof.
  unfold toggleUserFavorite, toggleFavorite, new_Date_toISOString.
  frame; numbers_prim.
Qed.

Lemma upsertUserContext_numbers_grow W u s n :
  preserves numbers_grow (upsertUserContext W u s n).
Proof. unfold upsertUserContext, new_Date_toISOString. frame; numbers_prim. Qed.

#[global] Hint Resolve handleStripeWebhook_numbers_grow handleSwishCallback_numbers_grow
  toggleUserFavorite_numbers_grow upsertUserContext_numbers_grow : frame.

Lemma timer_callback_numbers_grow W orderId :
  preserves numbers_grow (timer_callback W orderId).
Proof. unfold timer_callback. frame; eauto with frame. Qed.

Lemma step_numbers_grow W r st : numbers_grow st (step W r st).
Proof.
  destruct r as [body|orderId|signature rawBody|reference stat|u i|u s e|n]; cbn [step].
  - revert st. change (preserves numbers_grow (post_orders W body)).
    unfold post_orders. frame; try numbers_prim; eauto with frame.
  - revert st. change (preserves numbers_grow (post_order_ready W orderId)).
    unfold post_order_ready. frame; try numbers_prim; eauto with frame.
  - revert st. change (preserves numbers_grow (post_webhook_stripe W signature rawBody)).
    unfold post_webhook_stripe. frame; try numbers_prim; eauto with frame.
  - revert st. change (preserves numbers_grow (post_webhook_swish W reference stat)).
    unfold post_webhook_swish. frame; try numbers_prim; eauto with frame.
  - revert st. change (preserves numbers_grow (post_favorites_toggle W u i)).
    unfold post_favorites_toggle. frame; try numbers_prim; eauto with frame.
  - revert st. change (preserves numbers_grow (post_user_context W u s e)).
    unfold post_user_context. frame; try numbers_prim; eauto with frame.
  - destruct (timers st !! n) as [orderId|]; [|reflexivity].
    etrans; [|apply (timer_callback_numbers_grow W orderId)].
    numbers_prim.
Qed.

Lemma run_numbers_grow W rs st : numbers_grow st (run W rs st).
Proof.
  revert st. induction rs as [|r rs IH]; intros st; [reflexivity|].
  simpl. etrans; [apply (step_numbers_grow W r)|apply IH].
Qed.

(** C5: the number [createOrder] issues is the maximum of the existing order
    numbers plus one, hence above every existing number; it is 10 on an
    empty orders table; and any later successful [createOrder], whatever
    requests the server handled in between, issues a strictly larger one. *)
Theorem order_numbers_strictly_increasing W req st r st' :
  createOrder W req st = (Return r, st') ->
  resp_orderNumber r = default 9 (max_order_number (orders (db st))) + 1
  /\ (forall id o, getOrder id (db st) = Some o -> orderNumber o < resp_orderNumber r)
  /\ (orders (db st) = ∅ -> resp_orderNumber r = 10)
  /\ (forall rs req2 r2 st2,
        createOrder W req2 (run W rs st') = (Return r2, st2) ->
        resp_orderNumber r < resp_orderNumber r2).
Proof.
  intros Hrun. pose proof (createOrder_effect W req st) as Heff. rewrite Hrun in Heff.
  destruct Heff as (ls & s & ts & _ & _ & Hnum & _ & Hord & _).
  split; [done|]. split; [|split].
  - intros id o Hget. rewrite Hnum. unfold getOrder in Hget.
    destruct (orders (db st) !! id) as [row|] eqn:Hrow; [|done].
    injection Hget as <-. simpl. by eapply nextOrderNumber_above.
  - intros Hempty. rewrite Hnum. by apply nextOrderNumber_empty.
  - intros rs req2 r2 st2 Hrun2.
    pose proof (createOrder_effect W req2 (run W rs st')) as Heff2. rewrite Hrun2 in Heff2.
    destruct Heff2 as (ls2 & s2 & ts2 & _ & _ & Hnum2 & _).
    pose proof (run_numbers_grow W rs st') as Hgrow. unfold numbers_grow in Hgrow.
    rewrite (nextOrderNumber_insert_next _ _ _ _ Hord) in Hgrow by done.
    lia.
Qed.

Lemma order_numbers_strictly_increasing_witness :
  exists r st',
    createOrder demo_world demo_request (initial_state demo_env) = (Return r, st')
    /\ resp_orderNumber r = 10
    /\ (forall rs req2 r2 st2,
          createOrder demo_world req2 (run demo_world rs st') = (Return r2, st2) ->
          resp_orderNumber r < resp_orderNumber r2).
Proof.
  destruct (createOrder demo_world demo_request (initial_state demo_env))
    as [[r|msg] st'] eqn:Hrun; [|by vm_compute in Hrun].
  exists r, st'. split; [done|].
  destruct (order_numbers_strictly_increasing demo_world demo_request
              (initial_state demo_env) r st' Hrun) as (_ & _ & Hfirst & Hlater).
  split; [by apply Hfirst|exact Hlater].
Defined.

(** ** The receipt channel *)

#[global] Instance trace_grows_ok_preorder : PreOrder trace_grows_ok.
Proof.
  split.
  - intros st. exists []. by rewrite app_nil_r.
  - intros a b c (n1 & H1 & Hok1) (n2 & H2 & Hok2). exists (n1 ++ n2). split.
    + by rewrite H2, H1, app_assoc.
    + by apply Forall_app.
Qed.

Ltac trace_prim :=
  first
    [ by (exists []; cbn; rewrite app_nil_r; split; [reflexivity|constructor])
    | by (eexists [_]; split; [reflexivity|repeat constructor; simpl; auto]) ].

Lemma sendTelegramReceipt_trace W o c :
  status o = confirmed -> preserves trace_grows_ok (sendTelegramReceipt W o c).
Proof.
  intros Hst.
  unfold sendTelegramReceipt, receipt_getBot, new_Date_toISOString.
  frame; trace_prim.
Qed.

Lemma sendOrderReadyNotification_trace W u n :
  preserves trace_grows_ok (sendOrderReadyNotification W u n).
Proof.
  unfold sendOrderReadyNotification, notification_getBot. frame; trace_prim.
Qed.

Lemma status_updateOrder id s d o d' :
  updateOrder id (SetStatus s) d = (Some o, d') -> status o = s /\ getOrder id d' = Some o.
Proof.
  destruct (getOrder id d) as [o0|] eqn:Hget.
  - rewrite (updateOrder_found _ _ _ _ Hget). intros [= <- <-]. split; [done|].
    rewrite <- (getOrder_order_id _ _ _ Hget).
    exact (getOrder_saveOrder_merge o0 (SetStatus s) d).
  - by rewrite (updateOrder_missing _ _ _ Hget).
Qed.

Lemma preserves_at {A} R (m : M A) st : preserves R m -> R st (m st).2.
Proof. intros H. apply H. Qed.

Lemma confirmOrder_trace W id : preserves trace_grows_ok (confirmOrder W id).
Proof.
  intros st. unfold confirmOrder. rewrite bind_run_db.
  destruct (updateOrder id (SetStatus confirmed) (db st)) as [[o|] d'] eqn:Hupd;
    cbn [fst snd].
  - apply status_updateOrder in Hupd as [Hst _].
    trans (with_db (fun _ => d') st); [trace_prim|].
    apply (preserves_at trace_grows_ok).
    unfold setTimeout. frame; try trace_prim.
    by apply sendTelegramReceipt_trace.
  - trace_prim.
Qed.

Lemma createOrder_trace W req : preserves trace_grows_ok (createOrder W req).
Proof.
  unfold createOrder, createPaymentForOrder, createStripePayment, createSwishPayment,
    getStripe, uuidv4, new_Date_toISOString.
  frame; trace_prim.
Qed.

Lemma markOrderReady_trace W id : preserves trace_grows_ok (markOrderReady W id).
Proof.
  unfold markOrderReady. frame; try trace_prim.
  apply sendOrderReadyNotification_trace.
Qed.

Lemma updatePaymentSession_trace W id s :
  preserves trace_grows_ok (updatePaymentSession W id s).
Proof. unfold updatePaymentSession, new_Date_toISOString. frame; trace_prim. Qed.

#[global] Hint Resolve confirmOrder_trace createOrder_trace markOrderReady_trace
  updatePaymentSession_trace : frame.

Lemma handleStripeWebhook_trace W rawBody signature :
  preserves trace_grows_ok (handleStripeWebhook W rawBody signature).
Proof.
  unfold handleStripeWebhook, getStripe. frame; try trace_prim; eauto with frame.
Qed.

Lemma handleSwishCallback_trace W reference stat :
  preserves trace_grows_ok (handleSwishCallback W reference stat).
Proof. unfold handleSwishCallback. frame; try trace_prim; eauto with frame. Qed.

Lemma toggleUserFavorite_trace W u i : preserves trace_grows_ok (toggleUserFavorite W u i).
Proof.
  unfold toggleUserFavorite, toggleFavorite, new_Date_toISOString. frame; trace_prim.
Qed.

Lemma upsertUserContext_trace W u s n :
  preserves trace_grows_ok (upsertUserContext W u s n).
Proof. unfold upsertUserContext, new_Date_toISOString. frame; trace_prim. Qed.

Lemma timer_callback_trace W orderId : preserves trace_grows_ok (timer_callback W orderId).
Proof. unfold timer_callback. frame; eauto with frame. Qed.

#[global] Hint Resolve handleStripeWebhook_trace handleSwishCallback_trace
  toggleUserFavorite_trace upsertUserContext_trace : frame.

Lemma step_trace W r st : trace_grows_ok st (step W r st).
Proof.
  destruct r as [body|orderId|signature rawBody|reference stat|u i|u s e|n]; cbn [step].
  - apply (preserves_at trace_grows_ok).
    unfold post_orders. frame; try trace_prim; eauto with frame.
  - apply (preserves_at trace_grows_ok).
    unfold post_order_ready. frame; try trace_prim; eauto with frame.
  - apply (preserves_at trace_grows_ok).
    unfold post_webhook_stripe. frame; try trace_prim; eauto with frame.
  - apply (preserves_at trace_grows_ok).
    unfold post_webhook_swish. frame; try trace_prim; eauto with frame.
  - apply (preserves_at trace_grows_ok).
    unfold post_favorites_toggle. frame; try trace_prim; eauto with frame.
  - apply (preserves_at trace_grows_ok).
    unfold post_user_context. frame; try trace_prim; eauto with frame.
  - destruct (timers st !! n) as [orderId|]; [|reflexivity].
    etrans; [|apply (timer_callback_trace W orderId)].
    trace_prim.
Qed.

Lemma run_trace W rs st : trace_grows_ok st (run W rs st).
Proof.
  revert st. induction rs as [|r rs IH]; intros st; [reflexivity|].
  simpl. etrans; [apply (step_trace W r)|apply IH].
Qed.



(** ** Unconfigured payment providers *)

Lemma createPaymentForOrder_card_unconfigured W orderId amt st :
  stripe st = None -> truthy (STRIPE_SECRET_KEY (env st)) = false ->
  exists st', createPaymentForOrder W orderId amt card st
              = (Throw "Stripe Checkout session creation failed", st')
              /\ db st' = db st.
Proof.
  intros Hnone Hkey.
  unfold createPaymentForOrder, createStripePayment, getStripe, uuidv4,
    new_Date_toISOString.
  unfold_monad. cbn -[truthy]. rewrite Hnone. cbn -[truthy]. rewrite Hkey.
  by eexists.
Qed.

Lemma createPaymentForOrder_swish_unconfigured W orderId amt st :
  truthy (SWISH_CERT_PATH (env st)) = false
  \/ truthy (SWISH_MERCHANT_NUMBER (env st)) = false ->
  exists msg st', createPaymentForOrder W orderId amt swish st = (Throw msg, st')
                  /\ includes "not configured" msg = true
                  /\ db st' = db st.
Proof.
  intros Hcfg.
  unfold createPaymentForOrder, createSwishPayment, uuidv4, new_Date_toISOString.
  unfold_monad. cbn -[truthy includes append].
  destruct Hcfg as [-> | ->]; rewrite ?orb_true_r; cbn -[truthy includes append];
    eexists _, _; (split; [reflexivity|split; [by vm_compute|reflexivity]]).
Qed.

Lemma createOrder_reaches_payment W req st ls :
  items req <> [] ->
  truthy (req_telegramUserId req) = true ->
  truthy (req_storeId req) = true ->
  is_Some (stores (db st) !! req_storeId req) ->
  price_lines (items req) = Return ls ->
  forall msg st',
    createPaymentForOrder W (uuidv4_at W (tick st)) (sum_lines ls) (req_paymentMethod req)
      (with_tick (S (tick st)) st) = (Throw msg, st') ->
    createOrder W req st = (Throw msg, st').
Proof.
  intros Hits Huser Hstore [row Hrow] Hls msg st' Hpay. unfold createOrder.
  destruct (items req) as [|it its] eqn:Heq; [done|]. cbn [length Nat.eqb].
  rewrite Huser, Hstore. cbn [negb]. mstep.
  unfold getStoreById. rewrite Hrow. cbn [fmap option_fmap option_map]. mstep.
  rewrite Hls. cbn [db with_tick]. unfold bind at 1. by rewrite Hpay.
Qed.

(** A well-formed card order placed while no Stripe key is configured is
    answered 500; a well-formed Swish order placed while the Swish
    certificate path or merchant number is missing is answered 400. *)
Lemma post_orders_unconfigured_provider W body its ls st :
  body_items body = Some its ->
  its <> [] ->
  truthy (body_telegramUserId body) = true ->
  truthy (body_storeId body) = true ->
  is_Some (stores (db st) !! body_storeId body) ->
  price_lines its = Return ls ->
  (body_paymentMethod body = "card" ->
   stripe st = None -> truthy (STRIPE_SECRET_KEY (env st)) = false ->
   exists resp st', post_orders W body st = (Return resp, st') /\ http_status resp = 500)
  /\ (body_paymentMethod body = "swish" ->
      truthy (SWISH_CERT_PATH (env st)) = false
      \/ truthy (SWISH_MERCHANT_NUMBER (env st)) = false ->
      exists resp st', post_orders W body st = (Return resp, st') /\ http_status resp = 400).
Proof.
  intros Hitems Hne Huser Hstore Hrow Hls.
  assert (Hlen : (length its =? 0)%nat = false) by by destruct its.
  split.
  - intros Hcard Hnone Hkey. unfold post_orders.
    rewrite Hitems, Hlen, Hcard, Huser, Hstore. cbn [parse_paymentMethod String.eqb negb].
    change (parse_paymentMethod "card") with (Some card). cbv iota.
    destruct (createPaymentForOrder_card_unconfigured W (uuidv4_at W (tick st))
                (sum_lines ls) (with_tick (S (tick st)) st) Hnone Hkey) as (st' & Hpay & _).
    unfold try_catch, bind at 1.
    rewrite (createOrder_reaches_payment W
               (mkCreateOrderRequest its card (body_telegramUserId body) (body_storeId body))
               st ls Hne Huser Hstore Hrow Hls _ _ Hpay).
    by eexists _, _.
  - intros Hswish Hcfg. unfold post_orders.
    rewrite Hitems, Hlen, Hswish, Huser, Hstore. cbn [negb].
    change (parse_paymentMethod "swish") with (Some swish). cbv iota.
    destruct (createPaymentForOrder_swish_unconfigured W (uuidv4_at W (tick st))
                (sum_lines ls) (with_tick (S (tick st)) st) Hcfg)
      as (msg & st' & Hpay & Hmsg & _).
    unfold try_catch, bind at 1.
    rewrite (createOrder_reaches_payment W
               (mkCreateOrderRequest its swish (body_telegramUserId body) (body_storeId body))
               st ls Hne Huser Hstore Hrow Hls _ _ Hpay).
    rewrite Hmsg, !orb_true_r. by eexists _, _.
Qed.

(** C4 (code defect): with no Stripe secret key the card path of
    POST /api/orders answers 500, because [createStripePayment] replaces
    the configuration error by its own message, which the route does not
    recognise; the Swish path, whose message says "not configured",
    answers 400. *)
Lemma card_order_without_stripe_key_answers_500 :
  (post_orders demo_world demo_body (initial_state demo_env_no_stripe)).1
  = Return (mkHttpResponse 500 (JsonError "Stripe Checkout session creation failed"))
  /\ http_status
       match (post_orders demo_world demo_body_swish (initial_state demo_env_no_swish)).1 with
       | Return resp => resp
       | Throw _ => mkHttpResponse 0 (JsonError "")
       end = 400.
Proof. split; vm_compute; reflexivity. Qed.

(** ** Confirming twice *)

#[global] Instance keeps_confirmed_preorder id : PreOrder (keeps_confirmed id).
Proof.
  split; [by intros st H|]. intros a b c Hab Hbc H. by apply Hbc, Hab.
Qed.

Lemma keeps_confirmed_same_orders id st st' :
  orders (db st') = orders (db st) -> keeps_confirmed id st st'.
Proof. intros Heq (o & Hget & Hst). exists o. unfold getOrder in *. by rewrite Heq. Qed.

Lemma keeps_confirmed_receiptSent id st :
  keeps_confirmed id st
    (with_db (fun _ => (updateOrder id (SetReceiptSent true) (db st)).2) st).
Proof.
  intros (o & Hget & Hst). rewrite (updateOrder_found _ _ _ _ Hget). cbn [snd db with_db].
  exists (merge_order o (SetReceiptSent true)). split; [|done].
  rewrite <- (getOrder_order_id _ _ _ Hget).
  exact (getOrder_saveOrder_merge o (SetReceiptSent true) (db st)).
Qed.

Lemma sendTelegramReceipt_keeps_confirmed W id o c :
  preserves (keeps_confirmed id) (sendTelegramReceipt W o c).
Proof.
  unfold sendTelegramReceipt, receipt_getBot, new_Date_toISOString.
  frame; by apply keeps_confirmed_same_orders.
Qed.

(** Whatever the status of a stored order, [confirmOrder] returns it, and
    leaves it stored, with status [confirmed]. *)
Lemma confirmOrder_overwrites_status W id st o :
  getOrder id (db st) = Some o ->
  exists o' st',
    confirmOrder W id st = (Return (Some o'), st')
    /\ status o' = confirmed
    /\ getOrder id (db st') = Some o'.
Proof.
  intros Hget. unfold confirmOrder, setTimeout. rewrite bind_run_db.
  rewrite (updateOrder_found _ _ _ _ Hget). cbn [fst snd].
  rewrite bind_try_swallow. rewrite bind_assoc, bind_emit, bind_modify, query_run.
  set (st1 := with_db (fun _ => saveOrder (merge_order o (SetStatus confirmed)) (db st)) st).
  match goal with |- context [ (?m st1).2 ] => set (body := m) end.
  assert (Hkeep : keeps_confirmed id st1 (body st1).2).
  { apply (preserves_at (keeps_confirmed id)). unfold body. frame.
    - apply sendTelegramReceipt_keeps_confirmed.
    - apply keeps_confirmed_receiptSent. }
  destruct Hkeep as (o' & Hget' & Hst').
  { exists (merge_order o (SetStatus confirmed)). split; [|done].
    unfold st1. cbn [db with_db]. rewrite <- (getOrder_order_id _ _ _ Hget).
    exact (getOrder_saveOrder_merge o (SetStatus confirmed) (db st)). }
  cbn [db with_timers with_trace]. rewrite Hget'. by eexists _, _.
Qed.

(** C2 (code defect): [confirmOrder] overwrites the status without looking
    at it, so a second confirmation that arrives after the order became
    [ready] moves it back to [confirmed]. *)
Lemma confirm_after_ready_moves_status_back :
  getOrder "uuid-0" (db demo_ready) = Some (demo_order ready true)
  /\ (confirmOrder demo_world "uuid-0" demo_ready).1
     = Return (Some (demo_order confirmed true))
  /\ getOrder "uuid-0"
       (db (step demo_world (PostWebhookStripe "valid" "cs_test_uuid-1") demo_ready))
     = Some (demo_order confirmed true)
  /\ status_rank (status (demo_order confirmed true))
     < status_rank (status (demo_order ready true)).
Proof.
  split; [vm_compute; reflexivity|].
  split; [vm_compute; reflexivity|].
  split; [vm_compute; reflexivity|].
  vm_compute; reflexivity.
Qed.

(** ** The push notification *)

Lemma getUserContext_saveOrder u o d :
  getUserContext u (saveOrder o d) = getUserContext u d.
Proof. done. Qed.

Lemma sendOrderReadyNotification_events W u n st :
  trace (sendOrderReadyNotification W u n st).2
  = trace st ++ PushCall u n ::
      (if push_bot_available st
       then [TelegramSend u (OrderReadyText n) (sendMessage W (tick st) u (OrderReadyText n))]
       else []).
Proof.
  unfold sendOrderReadyNotification, notification_getBot, push_bot_available.
  unfold_monad. cbn -[truthy].
  destruct (push_bot st) as [inst|] eqn:Hbot; cbn -[truthy].
  - by rewrite <- app_assoc.
  - destruct (truthy (TELEGRAM_BOT_TOKEN (env st))); cbn; [|done].
    by rewrite <- app_assoc.
Qed.

Lemma markOrderReady_events W id st o :
  getOrder id (db st) = Some o -> status o = confirmed ->
  trace (markOrderReady W id st).2
  = trace st ++ ready_events W (telegramUserId o) (orderNumber o) st.
Proof.
  intros Hget Hst. unfold markOrderReady, ready_events, notifications_on.
  mstep. rewrite Hget.
  rewrite bool_decide_eq_true_2 by done. cbn [negb].
  mstep. rewrite (updateOrder_found _ _ _ _ Hget). cbn [fst snd db with_db].
  rewrite getUserContext_saveOrder.
  destruct (match getUserContext (telegramUserId o) (db st) with
            | Some c => notificationsEnabled c
            | None => false
            end).
  - unfold bind at 1.
    pose proof (sendOrderReadyNotification_events W (telegramUserId o) (orderNumber o)
                  (with_db (fun _ => saveOrder (merge_order o (SetStatus ready)) (db st)) st))
      as Hev.
    destruct (sendOrderReadyNotification W _ _ _) as [[b|msg] st']; cbn [snd] in *;
      exact Hev.
  - cbn. by rewrite app_nil_r.
Qed.

Lemma push_message_in_ready_events W u n st :
  existsb (is_push_message u n) (ready_events W u n st)
  = notifications_on u (db st) && push_bot_available st.
Proof.
  unfold ready_events.
  destruct (notifications_on u (db st)); [|done].
  destruct (push_bot_available st); [|done].
  cbn. by rewrite !bool_decide_eq_true_2.
Qed.

(** C9 (as amended): when [markOrderReady] moves a confirmed order to
    [ready], it calls the push collaborator exactly when the owner's stored
    context exists with notifications enabled, and a push message is handed
    to Telegram exactly when, in addition, the notification service has a
    bot (one already created, or a bot token to create it from). *)
Theorem push_sent_iff_enabled_and_bot W id st o :
  getOrder id (db st) = Some o -> status o = confirmed ->
  exists o1 st1 new,
    markOrderReady W id st = (Return (Some o1), st1)
    /\ status o1 = ready
    /\ trace st1 = trace st ++ new
    /\ (PushCall (telegramUserId o) (orderNumber o) ∈ new
        <-> notifications_on (telegramUserId o) (db st) = true)
    /\ existsb (is_push_message (telegramUserId o) (orderNumber o)) new
       = notifications_on (telegramUserId o) (db st) && push_bot_available st
    /\ (notifications_on (telegramUserId o) (db st) = false -> new = []).
Proof.
  intros Hget Hst.
  destruct (markOrderReady_confirmed W id st o Hget Hst) as (st1 & Hrun & _).
  pose proof (markOrderReady_events W id st o Hget Hst) as Hev.
  rewrite Hrun in Hev. cbn [snd] in Hev.
  exists (merge_order o (SetStatus ready)), st1,
    (ready_events W (telegramUserId o) (orderNumber o) st).
  split; [done|]. split; [done|]. split; [done|]. split; [|split].
  - unfold ready_events.
    destruct (notifications_on (telegramUserId o) (db st)).
    + split; [done|]. intros _. apply list_elem_of_here.
    + split; [|done]. intros Hin. by apply elem_of_nil in Hin.
  - apply push_message_in_ready_events.
  - unfold ready_events. by intros ->.
Qed.

Lemma push_sent_iff_enabled_and_bot_witness :
  getOrder "uuid-1" (db demo_notify_confirmed) = Some demo_notify_order
  /\ notifications_on "user-1" (db demo_notify_confirmed)
     && push_bot_available demo_notify_confirmed = true
  /\ exists o1 st1 new,
      markOrderReady demo_world "uuid-1" demo_notify_confirmed = (Return (Some o1), st1)
      /\ status o1 = ready
      /\ trace st1 = trace demo_notify_confirmed ++ new
      /\ (PushCall "user-1" 10 ∈ new
          <-> notifications_on "user-1" (db demo_notify_confirmed) = true)
      /\ existsb (is_push_message "user-1" 10) new
         = notifications_on "user-1" (db demo_notify_confirmed)
           && push_bot_available demo_notify_confirmed
      /\ (notifications_on "user-1" (db demo_notify_confirmed) = false -> new = []).
Proof.
  assert (H : getOrder "uuid-1" (db demo_notify_confirmed) = Some demo_notify_order)
    by (vm_compute; reflexivity).
  split; [exact H|]. split; [vm_compute; reflexivity|].
  exact (push_sent_iff_enabled_and_bot demo_world "uuid-1" demo_notify_confirmed
           demo_notify_order H eq_refl).
Defined.

(** The claim C9 as it was stated fails when no bot token is configured:
    the order reaches [ready], its owner has notifications enabled, and no
    message is handed to Telegram. *)
Lemma push_skipped_without_bot_token :
  notifications_on "user-1" (db demo_no_bot_confirmed) = true
  /\ (status <$> getOrder "uuid-1" (db demo_no_bot_confirmed)) = Some confirmed
  /\ (status <$> getOrder "uuid-1"
                   (db (markOrderReady demo_world "uuid-1" demo_no_bot_confirmed).2))
     = Some ready
  /\ trace (markOrderReady demo_world "uuid-1" demo_no_bot_confirmed).2
     = trace demo_no_bot_confirmed ++ [PushCall "user-1" 10]
  /\ existsb (is_push_message "user-1" 10)
       (trace (markOrderReady demo_world "uuid-1" demo_no_bot_confirmed).2) = false.
Proof.
  split; [vm_compute; reflexivity|].
  split; [vm_compute; reflexivity|].
  split; [vm_compute; reflexivity|].
  split; [vm_compute; reflexivity|].
  vm_compute; reflexivity.
Qed.

(** * Further properties *)

(** ** Order creation, continued *)

Lemma createOrder_success_inv W req st r st' :
  createOrder W req st = (Return r, st') ->
  exists ls pr st2,
    items req <> []
    /\ truthy (req_telegramUserId req) = true
    /\ truthy (req_storeId req) = true
    /\ is_Some (stores (db st) !! req_storeId req)
    /\ price_lines (items req) = Return ls
    /\ createPaymentForOrder W (uuidv4_at W (tick st)) (sum_lines ls)
         (req_paymentMethod req) (with_tick (S (tick st)) st) = (Return pr, st2)
    /\ r = mkCreateOrderResponse (uuidv4_at W (tick st)) (nextOrderNumber (db st)) pending
             (pc_sessionId pr) (sum_lines ls)
             (if truthy_opt (pc_clientSecret pr) then pc_clientSecret pr else None)
             (if truthy_opt (pc_checkoutUrl pr) then pc_checkoutUrl pr else None)
             (if truthy_opt (pc_swishUrl pr) then pc_swishUrl pr else None).
Proof.
  unfold createOrder.
  destruct (items req) as [|it its] eqn:Hits; [done|]. cbn [length Nat.eqb].
  destruct (truthy (req_telegramUserId req)) eqn:Huser; [|done].
  destruct (truthy (req_storeId req)) eqn:Hstore; [|done]. cbn [negb].
  mstep. unfold getStoreById.
  destruct (stores (db st) !! req_storeId req) as [row|] eqn:Hrow; [|done].
  cbn [fmap option_fmap option_map]. mstep.
  destruct (price_lines (it :: its)) as [ls|msg] eqn:Hls; [|done].
  cbn [db with_tick]. unfold bind at 1.
  destruct (createPaymentForOrder W (uuidv4_at W (tick st)) (sum_lines ls)
              (req_paymentMethod req) (with_tick (S (tick st)) st))
    as [[pr|msg] st2] eqn:Hpay; [|done].
  mstep. intros Heq. apply (f_equal fst) in Heq. cbn [fst] in Heq.
  exists ls, pr, st2. do 6 (split; [done|]).
  symmetry. by injection Heq.
Qed.

Lemma price_lines_no_invalid_item its ls :
  price_lines its = Return ls -> ~ Exists invalid_item its.
Proof.
  intros Hls Hinv. destruct (price_lines_invalid its Hinv) as [msg Hthrow]. congruence.
Qed.

(** X1: when [createOrder] throws, for whatever reason (validation or a
    failing payment provider), the database is exactly as it was: no order,
    no payment session and no co-occurrence count is written. *)
Theorem createOrder_failure_writes_nothing W req st msg st' :
  createOrder W req st = (Throw msg, st') -> db st' = db st.
Proof.
  intros Hrun. pose proof (createOrder_effect W req st) as Heff. by rewrite Hrun in Heff.
Qed.

Lemma createOrder_failure_writes_nothing_witness :
  exists st',
    createOrder demo_world_stripe_down demo_request (initial_state demo_env)
    = (Throw "Stripe Checkout session creation failed", st')
    /\ db st' = db (initial_state demo_env).
Proof.
  destruct (createOrder demo_world_stripe_down demo_request (initial_state demo_env))
    as [[r|msg] st'] eqn:Hrun; [by vm_compute in Hrun|].
  exists st'. split.
  - vm_compute in Hrun. injection Hrun as <- <-. vm_compute. reflexivity.
  - exact (createOrder_failure_writes_nothing demo_world_stripe_down demo_request
             (initial_state demo_env) msg st' Hrun).
Defined.



(** X3: [createOrder] succeeds only for requests that pass validation: a
    non-empty item list, a user id, a store id of a known store, and every
    item with an integer quantity of at least 1 and a known menu item (for
    item ids that do not name an inherited object property). *)
Theorem createOrder_success_passed_validation W req st r st' :
  own_ids (items req) ->
  createOrder W req st = (Return r, st') -> ~ fails_validation (db st) req.
Proof.
  intros _ Hrun.
  destruct (createOrder_success_inv W req st r st' Hrun)
    as (ls & pr & st2 & Hne & Huser & Hstore & [row Hrow] & Hls & _).
  intros [Hf|[Hf|[Hf|[Hf|Hf]]]].
  - done.
  - by rewrite Hf in Huser.
  - by rewrite Hf in Hstore.
  - congruence.
  - by apply (price_lines_no_invalid_item _ _ Hls).
Qed.

Lemma createOrder_success_passed_validation_witness :
  exists r st',
    own_ids (items demo_request)
    /\ createOrder demo_world demo_request (initial_state demo_env) = (Return r, st')
    /\ ~ fails_validation (db (initial_state demo_env)) demo_request.
Proof.
  destruct (createOrder demo_world demo_request (initial_state demo_env))
    as [[r|msg] st'] eqn:Hrun; [|by vm_compute in Hrun].
  assert (Hown : own_ids (items demo_request)) by (vm_compute; reflexivity).
  exists r, st'. split; [exact Hown|]. split; [reflexivity|].
  exact (createOrder_success_passed_validation demo_world demo_request
           (initial_state demo_env) r st' Hown Hrun).
Defined.

Lemma serverMenuById_key k m : serverMenuById !! k = Some m -> menu_id m = k.
Proof.
  intros Hlook.
  assert (Hin : (k, m) ∈ map_to_list serverMenuById) by by apply elem_of_map_to_list.
  vm_compute in Hin. apply list_elem_of_In in Hin. simpl in Hin.
  repeat (destruct Hin as [[= <- <-]|Hin]; [reflexivity|]). done.
Qed.

Lemma price_line_snapshot it l : price_line it = Return l -> line_snapshots it l.
Proof.
  unfold price_line, line_snapshots.
  destruct (item_quantity it) as [q|]; [|done].
  destruct (q <? 1) eqn:Hq; [done|].
  destruct (serverMenuById !! item_menuItemId it) as [m|] eqn:Hm; [|done].
  intros [= <-]. exists m. cbn. apply Z.ltb_ge in Hq.
  repeat split; try done. by apply serverMenuById_key.
Qed.

Lemma price_lines_snapshot its ls :
  price_lines its = Return ls -> Forall2 line_snapshots its ls.
Proof.
  revert ls. induction its as [|it its IH]; intros ls; simpl.
  - intros [= <-]. constructor.
  - destruct (price_line it) as [l|] eqn:Hl; [|done].
    destruct (price_lines its) as [ls'|]; [|done].
    intros [= <-]. constructor; [by apply price_line_snapshot|by apply IH].
Qed.

(** X4: the order a successful [createOrder] stores has one line per
    request item, in order; each line carries the item's id and requested
    quantity (an integer, at least 1) and the name and price of the menu,
    not those the caller sent (for item ids that do not name an inherited
    object property). *)
Theorem createOrder_lines_snapshot_menu W req st r st' :
  own_ids (items req) ->
  createOrder W req st = (Return r, st') ->
  exists o,
    getOrder (resp_orderId r) (db st') = Some o
    /\ Forall2 line_snapshots (items req) (lines o)
    /\ length (lines o) = length (items req).
Proof.
  intros _ Hrun. pose proof (createOrder_effect W req st) as Heff. rewrite Hrun in Heff.
  destruct Heff as (ls & s & ts & Hls & _ & _ & _ & Hord & _).
  apply price_lines_snapshot in Hls.
  eexists. split; [|split].
  - unfold getOrder. rewrite Hord, lookup_insert_eq. reflexivity.
  - exact Hls.
  - cbn. symmetry. by eapply Forall2_length.
Qed.

Lemma createOrder_lines_snapshot_menu_witness :
  exists r st' o,
    own_ids (items (set_prices 999 demo_request))
    /\ createOrder demo_world (set_prices 999 demo_request) (initial_state demo_env)
       = (Return r, st')
    /\ getOrder (resp_orderId r) (db st') = Some o
    /\ Forall2 line_snapshots (items (set_prices 999 demo_request)) (lines o)
    /\ lines o = [mkOrderLine "hotdog_classic" "Kokt varmkorv" 2 5].
Proof.
  destruct (createOrder demo_world (set_prices 999 demo_request) (initial_state demo_env))
    as [[r|msg] st'] eqn:Hrun; [|by vm_compute in Hrun].
  assert (Hown : own_ids (items (set_prices 999 demo_request)))
    by (vm_compute; reflexivity).
  destruct (createOrder_lines_snapshot_menu demo_world (set_prices 999 demo_request)
              (initial_state demo_env) r st' Hown Hrun) as (o & Hget & Hsnap & _).
  exists r, st', o. split; [exact Hown|]. split; [reflexivity|]. split; [exact Hget|].
  split; [exact Hsnap|].
  vm_compute in Hrun. injection Hrun as <- <-.
  vm_compute in Hget. by injection Hget as <-.
Defined.

Lemma createPaymentForOrder_artifact W orderId amt method st pr st' :
  createPaymentForOrder W orderId amt method st = (Return pr, st') ->
  pc_clientSecret pr = None
  /\ match method with
     | card => pc_swishUrl pr = None /\ is_Some (pc_checkoutUrl pr)
     | swish =>
         pc_checkoutUrl pr = None
         /\ exists token, pc_swishUrl pr = Some ("swish://paymentrequest?token=" +:+ token)
     end.
Proof.
  unfold createPaymentForOrder, createStripePayment, createSwishPayment, getStripe,
    uuidv4, new_Date_toISOString.
  unfold_monad. cbn -[append].
  repeat case_match; simplify_eq; cbn -[append]; intros; simplify_eq; cbn -[append];
    try done; eauto.
Qed.

(** X5: the response of a successful [createOrder] never carries a
    clientSecret and has status pending; for a card order it carries no
    swishUrl, and a checkoutUrl, if it carries one, is not empty; for a
    Swish order it carries no checkoutUrl and always a swishUrl that is the
    deep link
    "swish://paymentrequest?token=" followed by a token. *)
Theorem createOrder_redirect_artifact W req st r st' :
  createOrder W req st = (Return r, st') ->
  resp_clientSecret r = None
  /\ resp_status r = pending
  /\ match req_paymentMethod req with
     | card =>
         resp_swishUrl r = None
         /\ (forall url, resp_checkoutUrl r = Some url -> url <> "")
     | swish =>
         resp_checkoutUrl r = None
         /\ exists token,
              resp_swishUrl r = Some ("swish://paymentrequest?token=" +:+ token)
     end.
Proof.
  intros Hrun.
  destruct (createOrder_success_inv W req st r st' Hrun)
    as (ls & pr & st2 & _ & _ & _ & _ & _ & Hpay & ->).
  destruct (createPaymentForOrder_artifact _ _ _ _ _ _ _ Hpay) as [Hsecret Hmethod].
  cbn [resp_clientSecret resp_status resp_swishUrl resp_checkoutUrl].
  rewrite Hsecret. split; [done|]. split; [done|].
  destruct (req_paymentMethod req).
  - destruct Hmethod as [-> _]. split; [done|].
    intros url. destruct (pc_checkoutUrl pr) as [u|]; [|done].
    cbn [truthy_opt]. destruct u; [done|]. by intros [= <-].
  - destruct Hmethod as [-> [token ->]]. split; [done|]. by exists token.
Qed.

Lemma createOrder_redirect_artifact_witness :
  exists r st',
    createOrder demo_world
      (mkCreateOrderRequest (items demo_request) swish "user-1" "store-malmo")
      (initial_state demo_env) = (Return r, st')
    /\ resp_checkoutUrl r = None
    /\ resp_swishUrl r = Some "swish://paymentrequest?token=REQ1".
Proof.
  destruct (createOrder demo_world
              (mkCreateOrderRequest (items demo_request) swish "user-1" "store-malmo")
              (initial_state demo_env)) as [[r|msg] st'] eqn:Hrun;
    [|by vm_compute in Hrun].
  destruct (createOrder_redirect_artifact demo_world _ _ r st' Hrun)
    as (_ & _ & Hurl & _).
  exists r, st'. split; [done|]. split; [exact Hurl|].
  vm_compute in Hrun. by injection Hrun as <- _.
Defined.

(** X6: right after a successful [createOrder], [getOrderStatus] on the
    returned id reports the returned order number, status [pending], a
    total equal to the returned amount, the requested payment method and
    store, and no receipt sent. *)
Theorem getOrderStatus_after_createOrder W req st r st' :
  createOrder W req st = (Return r, st') ->
  getOrderStatus (resp_orderId r) (db st')
  = Some (mkOrderStatusResponse (resp_orderId r) (resp_orderNumber r) pending (amount r)
            (req_paymentMethod req) false (req_storeId req)).
Proof.
  intros Hrun. pose proof (createOrder_effect W req st) as Heff. rewrite Hrun in Heff.
  destruct Heff as (ls & s & ts & _ & Hamt & Hnum & _ & Hord & _).
  unfold getOrderStatus, getOrder. rewrite Hord, lookup_insert_eq. cbn.
  by rewrite Hamt, Hnum.
Qed.

Lemma getOrderStatus_after_createOrder_witness :
  exists r st',
    createOrder demo_world demo_request (initial_state demo_env) = (Return r, st')
    /\ getOrderStatus (resp_orderId r) (db st')
       = Some (mkOrderStatusResponse (resp_orderId r) (resp_orderNumber r) pending
                 (amount r) card false "store-malmo").
Proof.
  destruct (createOrder demo_world demo_request (initial_state demo_env))
    as [[r|msg] st'] eqn:Hrun; [|by vm_compute in Hrun].
  exists r, st'. split; [done|].
  exact (getOrderStatus_after_createOrder demo_world demo_request
           (initial_state demo_env) r st' Hrun).
Defined.

(** ** Inbound callbacks, continued *)

#[global] Instance same_timers_preorder : PreOrder same_timers.
Proof.
  split; [by intros st|]. intros a b c Hab Hbc. unfold same_timers in *. congruence.
Qed.

#[global] Instance same_sessions_preorder : PreOrder same_sessions.
Proof.
  split; [by intros st|]. intros a b c Hab Hbc. unfold same_sessions in *. congruence.
Qed.

#[global] Instance nothing_happened_preorder : PreOrder nothing_happened.
Proof.
  split; [by intros st|]. intros a b c (H1 & H2 & H3) (H4 & H5 & H6).
  unfold nothing_happened. repeat split; congruence.
Qed.

Lemma getPaymentSessionByExternalRef_found ref d s :
  getPaymentSessionByExternalRef ref d = Some s ->
  externalReference s = ref /\ getPaymentSession (ps_id s) d = Some s.
Proof.
  unfold getPaymentSessionByExternalRef, getPaymentSession.
  destruct (head _) as [[id row]|] eqn:Hhead; [|done].
  apply head_Some_elem_of, list_elem_of_filter in Hhead as [Hp Hin].
  apply elem_of_map_to_list in Hin. intros [= <-]. simpl in *.
  by rewrite Hin.
Qed.

(** X7: a Stripe webhook whose signature does not verify is answered
    [{success: false}] by the service and 400 by the route, and changes
    neither the database, nor the trace of outside calls, nor the timers:
    no order is confirmed by it. *)
Theorem stripe_webhook_unverified_changes_nothing W rawBody signature st :
  constructEvent W rawBody signature (STRIPE_WEBHOOK_SECRET (env st)) = None ->
  (exists st', handleStripeWebhook W rawBody signature st
               = (Return (mkWebhookResult false None), st')
               /\ nothing_happened st st')
  /\ (exists resp st', post_webhook_stripe W signature rawBody st = (Return resp, st')
                       /\ http_status resp = 400
                       /\ nothing_happened st st').
Proof.
  intros Hev.
  assert (Hsvc : exists st', handleStripeWebhook W rawBody signature st
                             = (Return (mkWebhookResult false None), st')
                             /\ nothing_happened st st').
  { unfold handleStripeWebhook, getStripe. unfold_monad. cbn -[truthy].
    destruct (truthy (STRIPE_WEBHOOK_SECRET (env st))); cbn -[truthy]; [|by eexists].
    rewrite Hev.
    destruct (stripe st); cbn -[truthy]; [by eexists|].
    destruct (truthy (STRIPE_SECRET_KEY (env st))); cbn; by eexists. }
  split; [exact Hsvc|].
  destruct Hsvc as (st' & Hrun & Hsame).
  unfold post_webhook_stripe, try_catch.
  destruct (truthy signature); cbn [negb].
  - unfold bind. rewrite Hrun. cbn. by eexists _, _.
  - by eexists _, _.
Qed.

Lemma stripe_webhook_unverified_changes_nothing_witness :
  constructEvent demo_world "cs_test_uuid-1" "forged"
    (STRIPE_WEBHOOK_SECRET (env demo_pending)) = None
  /\ exists st', handleStripeWebhook demo_world "cs_test_uuid-1" "forged" demo_pending
                 = (Return (mkWebhookResult false None), st')
                 /\ nothing_happened demo_pending st'.
Proof.
  assert (H : constructEvent demo_world "cs_test_uuid-1" "forged"
                (STRIPE_WEBHOOK_SECRET (env demo_pending)) = None)
    by (vm_compute; reflexivity).
  split; [exact H|].
  exact (proj1 (stripe_webhook_unverified_changes_nothing demo_world "cs_test_uuid-1"
                  "forged" demo_pending H)).
Defined.

(** X8: an order id that is not stored makes [confirmOrder] and
    [markOrderReady] return nothing and leave the whole state untouched (no
    receipt, no timer, no notification), and makes the ready route answer
    404. *)
Theorem unknown_order_is_not_found W id st :
  getOrder id (db st) = None ->
  confirmOrder W id st = (Return None, st)
  /\ markOrderReady W id st = (Return None, st)
  /\ exists resp, post_order_ready W id st = (Return resp, st) /\ http_status resp = 404.
Proof.
  intros Hget.
  assert (Hready : markOrderReady W id st = (Return None, st)).
  { unfold markOrderReady. mstep. by rewrite Hget. }
  split; [|split; [exact Hready|]].
  - unfold confirmOrder. rewrite bind_run_db.
    rewrite (updateOrder_missing _ _ _ Hget). cbn [fst snd]. unfold ret.
    clear. by destruct st.
  - unfold post_order_ready, try_catch, bind. rewrite Hready. by eexists.
Qed.

Lemma unknown_order_is_not_found_witness :
  getOrder "no-such-order" (db demo_pending) = None
  /\ confirmOrder demo_world "no-such-order" demo_pending = (Return None, demo_pending).
Proof.
  assert (H : getOrder "no-such-order" (db demo_pending) = None)
    by (vm_compute; reflexivity).
  split; [exact H|].
  exact (proj1 (unknown_order_is_not_found demo_world "no-such-order" demo_pending H)).
Defined.

Lemma updateOrder_other_tables id u d :
  let d' := (updateOrder id u d).2 in
  payment_sessions d' = payment_sessions d /\ receipts d' = receipts d
  /\ stores d' = stores d /\ user_contexts d' = user_contexts d
  /\ favorites d' = favorites d /\ order_category_stats d' = order_category_stats d.
Proof. unfold updateOrder. by destruct (getOrder id d). Qed.

Ltac field_prim :=
  unfold same_timers, same_sessions;
  cbn [db timers with_db with_tick with_trace with_stripe with_receipt_bot with_push_bot
       with_timers];
  first
    [ reflexivity
    | match goal with
      | |- context [updateOrder ?i ?u ?d] =>
          by destruct (updateOrder_other_tables i u d) as (? & ? & ? & ? & ? & ?)
      end
    | by (unfold saveReceipt, saveOrder;
          cbn [payment_sessions with_receipts with_orders]) ].

Lemma sendTelegramReceipt_same_timers W o c :
  preserves same_timers (sendTelegramReceipt W o c).
Proof.
  unfold sendTelegramReceipt, receipt_getBot, new_Date_toISOString. frame; field_prim.
Qed.

Lemma sendTelegramReceipt_same_sessions W o c :
  preserves same_sessions (sendTelegramReceipt W o c).
Proof.
  unfold sendTelegramReceipt, receipt_getBot, new_Date_toISOString. frame; field_prim.
Qed.

Lemma sendOrderReadyNotification_same_timers W u n :
  preserves same_timers (sendOrderReadyNotification W u n).
Proof. unfold sendOrderReadyNotification, notification_getBot. frame; field_prim. Qed.

Lemma markOrderReady_same_timers W id : preserves same_timers (markOrderReady W id).
Proof.
  unfold markOrderReady. frame; try field_prim.
  apply sendOrderReadyNotification_same_timers.
Qed.

Lemma confirmOrder_same_sessions W id : preserves same_sessions (confirmOrder W id).
Proof.
  unfold confirmOrder, setTimeout. frame; try field_prim.
  apply sendTelegramReceipt_same_sessions.
Qed.

(** [confirmOrder] on a stored order queues exactly one timer, for that
    order, behind the timers already queued. *)
Lemma confirmOrder_queues_timer W id st o :
  getOrder id (db st) = Some o -> timers (confirmOrder W id st).2 = timers st ++ [id].
Proof.
  intros Hget. unfold confirmOrder, setTimeout. rewrite bind_run_db.
  rewrite (updateOrder_found _ _ _ _ Hget). cbn [fst snd].
  rewrite bind_try_swallow, bind_assoc, bind_emit, bind_modify, query_run.
  cbn [snd timers with_timers with_trace]. f_equal.
  match goal with |- timers (?m ?s).2 = _ =>
    transitivity (timers s); [apply (preserves_at same_timers m s)|reflexivity] end.
  frame; try field_prim. apply sendTelegramReceipt_same_timers.
Qed.

Lemma getPaymentSession_id id d s : getPaymentSession id d = Some s -> ps_id s = id.
Proof.
  unfold getPaymentSession. destruct (payment_sessions d !! id); [|done].
  by intros [= <-].
Qed.

Lemma updatePaymentSession_found W id x st s :
  getPaymentSession id (db st) = Some s ->
  let s' := mkPaymentSession (ps_id s) (ps_orderId s) (ps_method s) (ps_amount s) x
              (externalReference s) (ps_createdAt s) (toISOString_at W (tick st)) in
  updatePaymentSession W id x st
  = (Return (Some s'), with_db (savePaymentSession s') (with_tick (S (tick st)) st)).
Proof.
  intros Hget. unfold updatePaymentSession. mstep. rewrite Hget. mstep.
  cbn [db with_db with_tick]. do 2 f_equal.
  pose proof (getPaymentSession_id _ _ _ Hget) as <-.
  unfold getPaymentSession, savePaymentSession. cbn. by rewrite lookup_insert_eq.
Qed.

(** X9: a Swish callback with a status other than "PAID" is answered
    [{success: false}] and touches no order, sends nothing and queues no
    timer; with a status other than "DECLINED" and "ERROR" too it leaves the
    whole database as it was, and with one of those two it marks the
    matching payment session [failed] while the order stays as it is. *)
Theorem swish_unpaid_leaves_orders W reference stat st :
  stat <> "PAID" ->
  exists st',
    handleSwishCallback W reference stat st = (Return (mkWebhookResult false None), st')
    /\ orders (db st') = orders (db st)
    /\ trace st' = trace st
    /\ timers st' = timers st
    /\ (stat <> "DECLINED" -> stat <> "ERROR" -> db st' = db st)
    /\ (stat = "DECLINED" \/ stat = "ERROR" ->
        forall s, getPaymentSessionByExternalRef reference (db st) = Some s ->
                  ps_status <$> getPaymentSession (ps_id s) (db st') = Some failed).
Proof.
  intros Hpaid. unfold handleSwishCallback. mstep.
  destruct (getPaymentSessionByExternalRef reference (db st)) as [s|] eqn:Hfound.
  - apply String.eqb_neq in Hpaid. rewrite Hpaid.
    apply getPaymentSessionByExternalRef_found in Hfound as [_ Hget].
    destruct (String.eqb stat "DECLINED" || String.eqb stat "ERROR")%bool eqn:Hfail.
    + rewrite bind_assoc. unfold bind at 1.
      rewrite (updatePaymentSession_found W _ failed st s Hget). cbv zeta. mstep.
      eexists. split; [reflexivity|]. repeat split; try done.
      * intros Hd He. apply String.eqb_neq in Hd, He. by rewrite Hd, He in Hfail.
      * intros _ s0 [= <-]. cbn [db with_db].
        unfold getPaymentSession, savePaymentSession. cbn.
        by rewrite lookup_insert_eq.
    + mstep. eexists. split; [reflexivity|]. repeat split; try done.
      intros [-> | ->]; by cbn in Hfail.
  - mstep. eexists. split; [reflexivity|]. repeat split; done.
Qed.

Lemma swish_unpaid_leaves_orders_witness :
  exists st',
    handleSwishCallback demo_world "REF-UNKNOWN" "DECLINED" demo_pending
    = (Return (mkWebhookResult false None), st')
    /\ orders (db st') = orders (db demo_pending).
Proof.
  destruct (swish_unpaid_leaves_orders demo_world "REF-UNKNOWN" "DECLINED" demo_pending)
    as (st' & Hrun & Hord & _); [discriminate|].
  exact (ex_intro _ st' (conj Hrun Hord)).
Defined.

(** What both payment handlers do once they have found the session of a
    successful payment. *)
Lemma confirm_paid_session W st s o :
  getPaymentSession (ps_id s) (db st) = Some s ->
  getOrder (ps_orderId s) (db st) = Some o ->
  exists st',
    (let* _ := updatePaymentSession W (ps_id s) succeeded in
     let* order := confirmOrder W (ps_orderId s) in
     ret (mkWebhookResult true (order_id <$> order))) st
    = (Return (mkWebhookResult true (Some (ps_orderId s))), st')
    /\ status <$> getOrder (ps_orderId s) (db st') = Some confirmed
    /\ ps_status <$> getPaymentSession (ps_id s) (db st') = Some succeeded
    /\ timers st' = timers st ++ [ps_orderId s].
Proof.
  intros Hses Hord. unfold bind at 1.
  rewrite (updatePaymentSession_found W _ succeeded st s Hses). cbv zeta.
  set (s' := mkPaymentSession _ _ _ _ _ _ _ _).
  set (st1 := with_db (savePaymentSession s') (with_tick (S (tick st)) st)).
  assert (Hord1 : getOrder (ps_orderId s) (db st1) = Some o) by exact Hord.
  destruct (confirmOrder_overwrites_status W _ st1 o Hord1) as (o' & st' & Hrun & Hst & Hget').
  pose proof (confirmOrder_queues_timer W _ st1 o Hord1) as Htimers.
  pose proof (confirmOrder_same_sessions W (ps_orderId s) st1) as Hsame.
  unfold same_sessions in Hsame. rewrite Hrun in Htimers, Hsame. cbn [snd] in *.
  unfold bind. rewrite Hrun. unfold ret. exists st'. split; [|split; [|split]].
  - cbn. by rewrite (getOrder_order_id _ _ _ Hget').
  - by rewrite Hget'; cbn; rewrite Hst.
  - unfold getPaymentSession. rewrite Hsame. unfold st1, savePaymentSession. cbn.
    by rewrite lookup_insert_eq.
  - exact Htimers.
Qed.

(** The verification block of [handleStripeWebhook] on an authentic
    event, when a Stripe key is configured. *)
Lemma stripe_event_verified W rawBody signature secret st ev :
  truthy (STRIPE_SECRET_KEY (env st)) = true ->
  constructEvent W rawBody signature secret = Some ev ->
  try_catch
    (let* _ := getStripe in
     match constructEvent W rawBody signature secret with
     | None => throw "No signatures found matching the expected signature for payload"
     | Some event => ret (Some event)
     end)
    (fun _ => ret None) st
  = (Return (Some ev), stripe_ready st).
Proof.
  intros Hkey Hev. unfold getStripe, stripe_ready. unfold_monad. cbn -[truthy].
  destruct (stripe st); cbn -[truthy]; rewrite ?Hkey, Hev; reflexivity.
Qed.

(** X10: a Swish "PAID" callback, or a verified Stripe
    checkout.session.completed event, whose reference belongs to a stored
    session of a stored order is answered [{success: true}] with that
    order's id; afterwards the session is [succeeded], the order is stored
    as [confirmed], and one ready-timer for it has been queued. *)
Theorem payment_success_confirms_order W st s o :
  getPaymentSessionByExternalRef (externalReference s) (db st) = Some s ->
  getOrder (ps_orderId s) (db st) = Some o ->
  (exists st',
     handleSwishCallback W (externalReference s) "PAID" st
     = (Return (mkWebhookResult true (Some (ps_orderId s))), st')
     /\ status <$> getOrder (ps_orderId s) (db st') = Some confirmed
     /\ ps_status <$> getPaymentSession (ps_id s) (db st') = Some succeeded
     /\ timers st' = timers st ++ [ps_orderId s])
  /\ (forall rawBody signature,
        truthy (STRIPE_WEBHOOK_SECRET (env st)) = true ->
        truthy (STRIPE_SECRET_KEY (env st)) = true ->
        constructEvent W rawBody signature (STRIPE_WEBHOOK_SECRET (env st))
        = Some (mkStripeEvent "checkout.session.completed" (externalReference s)) ->
        exists st',
          handleStripeWebhook W rawBody signature st
          = (Return (mkWebhookResult true (Some (ps_orderId s))), st')
          /\ status <$> getOrder (ps_orderId s) (db st') = Some confirmed
          /\ ps_status <$> getPaymentSession (ps_id s) (db st') = Some succeeded
          /\ timers st' = timers st ++ [ps_orderId s]).
Proof.
  intros Hfound Hord.
  pose proof (getPaymentSessionByExternalRef_found _ _ _ Hfound) as [_ Hses].
  split.
  - unfold handleSwishCallback. rewrite bind_query, Hfound.
    change (String.eqb "PAID" "PAID") with true. cbv iota.
    exact (confirm_paid_session W st s o Hses Hord).
  - intros rawBody signature Hsecret Hkey Hev.
    unfold handleStripeWebhook. rewrite bind_gets, Hsecret. cbn [negb].
    unfold bind at 1. rewrite (stripe_event_verified W _ _ _ st _ Hkey Hev).
    cbn [event_type object_id].
    change (String.eqb "checkout.session.completed" "checkout.session.completed")
      with true. cbv iota.
    rewrite bind_query.
    assert (Hdb : db (stripe_ready st) = db st) by (unfold stripe_ready; by destruct (stripe st)).
    assert (Htm : timers (stripe_ready st) = timers st)
      by (unfold stripe_ready; by destruct (stripe st)).
    rewrite Hdb, Hfound.
    rewrite <- Hdb in Hses, Hord.
    destruct (confirm_paid_session W (stripe_ready st) s o Hses Hord)
      as (st' & Hrun & H1 & H2 & H3).
    exists st'. rewrite <- Htm. by repeat split.
Qed.

Lemma payment_success_confirms_order_witness :
  exists s o st',
    getPaymentSessionByExternalRef (externalReference s) (db demo_pending) = Some s
    /\ getOrder (ps_orderId s) (db demo_pending) = Some o
    /\ status o = pending
    /\ handleSwishCallback demo_world (externalReference s) "PAID" demo_pending
       = (Return (mkWebhookResult true (Some (ps_orderId s))), st')
    /\ status <$> getOrder (ps_orderId s) (db st') = Some confirmed.
Proof.
  pose (s := mkPaymentSession "uuid-1" "uuid-0" card 10 created "cs_test_uuid-1"
               "2026-01-01T00:00:2" "2026-01-01T00:00:2").
  assert (Hs : getPaymentSessionByExternalRef (externalReference s) (db demo_pending)
               = Some s) by (vm_compute; reflexivity).
  assert (Ho : getOrder (ps_orderId s) (db demo_pending) = Some (demo_order pending false))
    by (vm_compute; reflexivity).
  destruct (proj1 (payment_success_confirms_order demo_world demo_pending s
                     (demo_order pending false) Hs Ho)) as (st' & Hrun & Hst & _).
  exact (ex_intro _ s (ex_intro _ (demo_order pending false) (ex_intro _ st'
           (conj Hs (conj Ho (conj eq_refl (conj Hrun Hst))))))).
Defined.

(** ** Confirm, then the timer *)

(** X11: [confirmOrder] on a stored order queues its ready-timer last in
    the queue, and when that timer fires the order is stored as [ready] and
    the queue is back to what it was before the confirmation. *)
Theorem confirm_then_timer_makes_ready W id st o :
  getOrder id (db st) = Some o ->
  let st1 := (confirmOrder W id st).2 in
  let st2 := step W (TimerFires (length (timers st))) st1 in
  timers st1 = timers st ++ [id]
  /\ status <$> getOrder id (db st1) = Some confirmed
  /\ status <$> getOrder id (db st2) = Some ready
  /\ timers st2 = timers st.
Proof.
  intros Hget st1 st2.
  pose proof (confirmOrder_queues_timer W id st o Hget) as Htimers. fold st1 in Htimers.
  destruct (confirmOrder_overwrites_status W id st o Hget) as (o' & st' & Hrun & Hst & Hget').
  assert (Hst1 : st1 = st') by (unfold st1; by rewrite Hrun).
  rewrite <- Hst1 in Hget'. clear Hrun Hst1 st'.
  split; [exact Htimers|]. split; [by rewrite Hget'; cbn; rewrite Hst|].
  unfold st2. cbn [step]. rewrite Htimers.
  rewrite list_lookup_middle by done.
  unfold timer_callback. rewrite try_catch_swallow. cbn [snd].
  set (st1' := with_timers _ st1).
  assert (Hget1 : getOrder id (db st1') = Some o') by exact Hget'.
  destruct (markOrderReady_confirmed W id st1' o' Hget1 Hst) as (st3 & Hrun3 & Hdb3).
  pose proof (markOrderReady_same_timers W id st1') as Htm. unfold same_timers in Htm.
  unfold bind. rewrite Hrun3 in *. cbn [snd ret] in *. split.
  - rewrite Hdb3. rewrite <- (getOrder_order_id _ _ _ Hget1).
    by rewrite getOrder_saveOrder_merge.
  - rewrite Htm. unfold st1'. cbn [timers with_timers]. rewrite Htimers.
    rewrite take_app_length, drop_ge; [by rewrite app_nil_r|].
    rewrite length_app. cbn. lia.
Qed.

Lemma confirm_then_timer_makes_ready_witness :
  getOrder "uuid-0" (db demo_pending) = Some (demo_order pending false)
  /\ status <$> getOrder "uuid-0"
       (db (step demo_world (TimerFires (length (timers demo_pending)))
              (confirmOrder demo_world "uuid-0" demo_pending).2)) = Some ready.
Proof.
  assert (H : getOrder "uuid-0" (db demo_pending) = Some (demo_order pending false))
    by (vm_compute; reflexivity).
  exact (conj H (proj1 (proj2 (proj2
           (confirm_then_timer_makes_ready demo_world "uuid-0" demo_pending
              (demo_order pending false) H))))).
Defined.

(** ** At most one receipt per order *)

#[global] Instance keeps_receipts_consistent_preorder : PreOrder keeps_receipts_consistent.
Proof.
  split; [by intros st H|]. intros a b c Hab Hbc H. by apply Hbc, Hab.
Qed.

Lemma delivered_receipts_app id t1 t2 :
  delivered_receipts id (t1 ++ t2)
  = (delivered_receipts id t1 + delivered_receipts id t2)%nat.
Proof. unfold delivered_receipts. by rewrite List.filter_app, length_app. Qed.

(** New events among which no receipt was delivered, and an untouched
    receipts table, keep the trace and the table consistent. *)
Lemma receipts_consistent_quiet st st' new :
  trace st' = trace st ++ new ->
  (forall id, delivered_receipts id new = 0%nat) ->
  receipts (db st') = receipts (db st) ->
  keeps_receipts_consistent st st'.
Proof.
  intros Htrace Hnew Hrec Hcons id. destruct (Hcons id) as [Hle Hone].
  rewrite Htrace, delivered_receipts_app, Hnew, Nat.add_0_r.
  split; [done|]. intros H1. unfold receipt_recorded, getReceipt. rewrite Hrec.
  by apply Hone.
Qed.

(** One attempt for an order whose receipt is not recorded yet, recorded
    with its outcome, keeps the trace and the table consistent. *)
Lemma receipts_consistent_attempt st st' id new (b : bool) ts :
  receipt_recorded id (db st) = false ->
  trace st' = trace st ++ new ->
  (forall id', id' <> id -> delivered_receipts id' new = 0%nat) ->
  delivered_receipts id new = (if b then 1%nat else 0%nat) ->
  receipts (db st') = <[id := mkReceiptRow b ts]> (receipts (db st)) ->
  keeps_receipts_consistent st st'.
Proof.
  intros Hnot Htrace Hothers Hthis Hrec Hcons id'.
  destruct (Hcons id') as [Hle Hone].
  rewrite Htrace, delivered_receipts_app.
  destruct (decide (id' = id)) as [->|Hne].
  - assert (Hzero : delivered_receipts id (trace st) = 0%nat).
    { destruct (delivered_receipts id (trace st)) as [|[|n]]; [done| |lia].
      rewrite Hone in Hnot; done. }
    rewrite Hzero, Hthis. unfold receipt_recorded, getReceipt.
    rewrite Hrec, lookup_insert_eq. cbn. destruct b; split; (lia || done).
  - rewrite (Hothers _ Hne), Nat.add_0_r. split; [done|].
    intros H1. unfold receipt_recorded, getReceipt.
    rewrite Hrec, lookup_insert_ne by done. by apply Hone.
Qed.

Lemma is_delivered_receipt_other id' o c b :
  id' <> order_id o ->
  delivered_receipts id' [ReceiptCall o c; TelegramSend c (ReceiptText o) b] = 0%nat.
Proof.
  intros Hne. unfold delivered_receipts. cbn.
  destruct b; [|done]. by rewrite bool_decide_eq_false_2.
Qed.

Lemma sendTelegramReceipt_receipts W o c :
  preserves keeps_receipts_consistent (sendTelegramReceipt W o c).
Proof.
  intros st. unfold sendTelegramReceipt. rewrite bind_emit, bind_query.
  cbn [db with_trace].
  destruct (receipt_recorded (order_id o) (db st)) eqn:Hrecd;
    unfold receipt_recorded in Hrecd; rewrite Hrecd.
  - apply (receipts_consistent_quiet _ _ [ReceiptCall o c]); done.
  - fold (receipt_recorded (order_id o) (db st)) in Hrecd.
    unfold receipt_getBot, new_Date_toISOString. unfold_monad. cbn -[truthy].
    destruct (receipt_bot st) as [inst|]; cbn -[truthy].
    + destruct (sendMessage W (tick st) c (ReceiptText o)) eqn:Hsend; cbn -[truthy].
      * eapply (receipts_consistent_attempt _ _ (order_id o)
                  [ReceiptCall o c; TelegramSend c (ReceiptText o) true] true);
          [done|by cbn; rewrite <- app_assoc|by intros; apply is_delivered_receipt_other| |done].
        unfold delivered_receipts. cbn. by rewrite bool_decide_eq_true_2.
      * eapply (receipts_consistent_attempt _ _ (order_id o)
                  [ReceiptCall o c; TelegramSend c (ReceiptText o) false] false);
          [done|by cbn; rewrite <- app_assoc|by intros; apply is_delivered_receipt_other|done|done].
    + destruct (truthy (TELEGRAM_BOT_TOKEN (env st))); cbn -[truthy].
      * destruct (sendMessage W (tick st) c (ReceiptText o)) eqn:Hsend; cbn -[truthy].
        -- eapply (receipts_consistent_attempt _ _ (order_id o)
                     [ReceiptCall o c; TelegramSend c (ReceiptText o) true] true);
             [done|by cbn; rewrite <- app_assoc|by intros; apply is_delivered_receipt_other| |done].
           unfold delivered_receipts. cbn. by rewrite bool_decide_eq_true_2.
        -- eapply (receipts_consistent_attempt _ _ (order_id o)
                     [ReceiptCall o c; TelegramSend c (ReceiptText o) false] false);
             [done|by cbn; rewrite <- app_assoc|by intros; apply is_delivered_receipt_other
             |done|done].
      * eapply (receipts_consistent_attempt _ _ (order_id o) [ReceiptCall o c] false);
          done.
Qed.

Ltac receipts_prim :=
  first
    [ by (apply (receipts_consistent_quiet _ _ []);
          [cbn; by rewrite app_nil_r|done|done])
    | by (eapply (receipts_consistent_quiet _ _ [_]); [reflexivity|done|done])
    | match goal with
      | |- context [updateOrder ?i ?u ?d] =>
          apply (receipts_consistent_quiet _ _ []);
          [cbn; by rewrite app_nil_r|done
          |by destruct (updateOrder_other_tables i u d) as (? & ? & ? & ? & ? & ?)]
      end ].

Lemma sendOrderReadyNotification_receipts W u n :
  preserves keeps_receipts_consistent (sendOrderReadyNotification W u n).
Proof.
  unfold sendOrderReadyNotification, notification_getBot. frame; receipts_prim.
Qed.

Lemma confirmOrder_receipts W id : preserves keeps_receipts_consistent (confirmOrder W id).
Proof.
  unfold confirmOrder, setTimeout. frame; try receipts_prim.
  apply sendTelegramReceipt_receipts.
Qed.

Lemma markOrderReady_receipts W id :
  preserves keeps_receipts_consistent (markOrderReady W id).
Proof.
  unfold markOrderReady. frame; try receipts_prim.
  apply sendOrderReadyNotification_receipts.
Qed.

Lemma createOrder_receipts W req : preserves keeps_receipts_consistent (createOrder W req).
Proof.
  unfold createOrder, createPaymentForOrder, createStripePayment, createSwishPayment,
    getStripe, uuidv4, new_Date_toISOString.
  frame; try receipts_prim.
  apply (receipts_consistent_quiet _ _ []); [cbn; by rewrite app_nil_r|done|].
  cbn [db with_db].
  match goal with
  | |- context [fold_left ?f ?ps ?d] =>
      by destruct (record_pairs_frame ps d) as (_ & _ & -> & _)
  end.
Qed.

Lemma updatePaymentSession_receipts W id s :
  preserves keeps_receipts_consistent (updatePaymentSession W id s).
Proof. unfold updatePaymentSession, new_Date_toISOString. frame; receipts_prim. Qed.

#[global] Hint Resolve confirmOrder_receipts createOrder_receipts markOrderReady_receipts
  updatePaymentSession_receipts : frame.

Lemma handleStripeWebhook_receipts W rawBody signature :
  preserves keeps_receipts_consistent (handleStripeWebhook W rawBody signature).
Proof.
  unfold handleStripeWebhook, getStripe. frame; try receipts_prim; eauto with frame.
Qed.

Lemma handleSwishCallback_receipts W reference stat :
  preserves keeps_receipts_consistent (handleSwishCallback W reference stat).
Proof. unfold handleSwishCallback. frame; try receipts_prim; eauto with frame. Qed.

Lemma toggleUserFavorite_receipts W u i :
  preserves keeps_receipts_consistent (toggleUserFavorite W u i).
Proof.
  unfold toggleUserFavorite, toggleFavorite, new_Date_toISOString. frame; receipts_prim.
Qed.

Lemma upsertUserContext_receipts W u s n :
  preserves keeps_receipts_consistent (upsertUserContext W u s n).
Proof. unfold upsertUserContext, new_Date_toISOString. frame; receipts_prim. Qed.

Lemma timer_callback_receipts W orderId :
  preserves keeps_receipts_consistent (timer_callback W orderId).
Proof. unfold timer_callback. frame; eauto with frame. Qed.

#[global] Hint Resolve handleStripeWebhook_receipts handleSwishCallback_receipts
  toggleUserFavorite_receipts upsertUserContext_receipts : frame.

Lemma step_receipts W r st : keeps_receipts_consistent st (step W r st).
Proof.
  destruct r as [body|orderId|signature rawBody|reference stat|u i|u s e|n]; cbn [step].
  - apply (preserves_at keeps_receipts_consistent).
    unfold post_orders. frame; try receipts_prim; eauto with frame.
  - apply (preserves_at keeps_receipts_consistent).
    unfold post_order_ready. frame; try receipts_prim; eauto with frame.
  - apply (preserves_at keeps_receipts_consistent).
    unfold post_webhook_stripe. frame; try receipts_prim; eauto with frame.
  - apply (preserves_at keeps_receipts_consistent).
    unfold post_webhook_swish. frame; try receipts_prim; eauto with frame.
  - apply (preserves_at keeps_receipts_consistent).
    unfold post_favorites_toggle. frame; try receipts_prim; eauto with frame.
  - apply (preserves_at keeps_receipts_consistent).
    unfold post_user_context. frame; try receipts_prim; eauto with frame.
  - destruct (timers st !! n) as [orderId|]; [|reflexivity].
    etrans; [|apply (timer_callback_receipts W orderId)].
    receipts_prim.
Qed.

Lemma run_receipts W rs st : keeps_receipts_consistent st (run W rs st).
Proof.
  revert st. induction rs as [|r rs IH]; intros st; [reflexivity|].
  simpl. etrans; [apply (step_receipts W r)|apply IH].
Qed.



(** ** Orders are never deleted and keep their content *)

Lemma same_content_refl o : same_content o o.
Proof. by repeat split. Qed.

Lemma same_content_trans o1 o2 o3 :
  same_content o1 o2 -> same_content o2 o3 -> same_content o1 o3.
Proof.
  unfold same_content.
  intros (?&?&?&?&?&?&?&?&?) (?&?&?&?&?&?&?&?&?). repeat split; congruence.
Qed.

Lemma same_content_merge o u : same_content o (merge_order o u).
Proof. destruct u; by repeat split. Qed.

#[global] Instance orders_keep_content_preorder : PreOrder orders_keep_content.
Proof.
  split.
  - intros st id. destruct (getOrder id (db st)); [apply same_content_refl|done].
  - intros a b c Hab Hbc id. specialize (Hab id). specialize (Hbc id).
    destruct (getOrder id (db a)), (getOrder id (db b)), (getOrder id (db c));
      try done. by eapply same_content_trans.
Qed.

Lemma orders_keep_content_same_orders st st' :
  orders (db st') = orders (db st) -> orders_keep_content st st'.
Proof.
  intros Heq id. unfold getOrder. rewrite Heq.
  destruct (orders (db st) !! id); [apply same_content_refl|done].
Qed.

Lemma getOrder_saveOrder_other o d id :
  order_id o <> id -> getOrder id (saveOrder o d) = getOrder id d.
Proof.
  intros Hne. unfold getOrder, saveOrder; simpl. by rewrite lookup_insert_ne.
Qed.

Lemma orders_keep_content_updateOrder id u st :
  orders_keep_content st (with_db (fun _ => (updateOrder id u (db st)).2) st).
Proof.
  intros id'. cbn [db with_db].
  destruct (getOrder id (db st)) as [o|] eqn:Hget.
  - rewrite (updateOrder_found _ _ _ _ Hget). cbn [snd].
    pose proof (getOrder_order_id _ _ _ Hget) as <-.
    destruct (decide (order_id o = id')) as [<-|Hne].
    + rewrite Hget, getOrder_saveOrder_merge. apply same_content_merge.
    + rewrite getOrder_saveOrder_other by by rewrite order_id_merge_order.
      destruct (getOrder id' (db st)); [apply same_content_refl|done].
  - rewrite (updateOrder_missing _ _ _ Hget). cbn [snd].
    destruct (getOrder id' (db st)); [apply same_content_refl|done].
Qed.

Ltac content_prim :=
  first
    [ apply orders_keep_content_updateOrder
    | by (apply orders_keep_content_same_orders) ].

Lemma sendTelegramReceipt_content W o c :
  preserves orders_keep_content (sendTelegramReceipt W o c).
Proof.
  unfold sendTelegramReceipt, receipt_getBot, new_Date_toISOString. frame; content_prim.
Qed.

Lemma sendOrderReadyNotification_content W u n :
  preserves orders_keep_content (sendOrderReadyNotification W u n).
Proof. unfold sendOrderReadyNotification, notification_getBot. frame; content_prim. Qed.

Lemma confirmOrder_content W id : preserves orders_keep_content (confirmOrder W id).
Proof.
  unfold confirmOrder, setTimeout. frame; try content_prim.
  apply sendTelegramReceipt_content.
Qed.

Lemma markOrderReady_content W id : preserves orders_keep_content (markOrderReady W id).
Proof.
  unfold markOrderReady. frame; try content_prim.
  apply sendOrderReadyNotification_content.
Qed.

Lemma updatePaymentSession_content W id s :
  preserves orders_keep_content (updatePaymentSession W id s).
Proof. unfold updatePaymentSession, new_Date_toISOString. frame; content_prim. Qed.

#[global] Hint Resolve confirmOrder_content markOrderReady_content
  updatePaymentSession_content : frame.

Lemma handleStripeWebhook_content W rawBody signature :
  preserves orders_keep_content (handleStripeWebhook W rawBody signature).
Proof.
  unfold handleStripeWebhook, getStripe. frame; try content_prim; eauto with frame.
Qed.

Lemma handleSwishCallback_content W reference stat :
  preserves orders_keep_content (handleSwishCallback W reference stat).
Proof. unfold handleSwishCallback. frame; try content_prim; eauto with frame. Qed.

Lemma toggleUserFavorite_content W u i :
  preserves orders_keep_content (toggleUserFavorite W u i).
Proof.
  unfold toggleUserFavorite, toggleFavorite, new_Date_toISOString. frame; content_prim.
Qed.

Lemma upsertUserContext_content W u s n :
  preserves orders_keep_content (upsertUserContext W u s n).
Proof. unfold upsertUserContext, new_Date_toISOString. frame; content_prim. Qed.

Lemma timer_callback_content W orderId :
  preserves orders_keep_content (timer_callback W orderId).
Proof. unfold timer_callback. frame; eauto with frame. Qed.

#[global] Hint Resolve handleStripeWebhook_content handleSwishCallback_content
  toggleUserFavorite_content upsertUserContext_content : frame.

Lemma step_content W r st :
  is_post_orders r = false -> orders_keep_content st (step W r st).
Proof.
  destruct r as [body|orderId|signature rawBody|reference stat|u i|u s e|n];
    [done| | | | | |]; intros _; cbn [step].
  - apply (preserves_at orders_keep_content).
    unfold post_order_ready. frame; try content_prim; eauto with frame.
  - apply (preserves_at orders_keep_content).
    unfold post_webhook_stripe. frame; try content_prim; eauto with frame.
  - apply (preserves_at orders_keep_content).
    unfold post_webhook_swish. frame; try content_prim; eauto with frame.
  - apply (preserves_at orders_keep_content).
    unfold post_favorites_toggle. frame; try content_prim; eauto with frame.
  - apply (preserves_at orders_keep_content).
    unfold post_user_context. frame; try content_prim; eauto with frame.
  - destruct (timers st !! n) as [orderId|]; [|reflexivity].
    etrans; [|apply (timer_callback_content W orderId)].
    content_prim.
Qed.

(** X13: payment callbacks, the ready route, the timers, favorites and
    user-context requests neither create nor delete an order, and leave every
    stored order with the id, number, lines, total, payment method, session
    id, user, store and creation time it had: only its status and receipt
    flag can change. *)
Theorem orders_keep_their_content W rs st id :
  Forall (fun r => is_post_orders r = false) rs ->
  match getOrder id (db st), getOrder id (db (run W rs st)) with
  | Some o, Some o' => same_content o o'
  | None, None => True
  | _, _ => False
  end.
Proof.
  intros Hrs. revert st. induction Hrs as [|r rs Hr _ IH]; intros st.
  - cbn. destruct (getOrder id (db st)); [apply same_content_refl|done].
  - cbn [run fold_left]. pose proof (step_content W r st Hr id) as Hstep.
    specialize (IH (step W r st)). fold (run W rs (step W r st)).
    destruct (getOrder id (db st)), (getOrder id (db (step W r st))),
      (getOrder id (db (run W rs (step W r st)))); try done.
    by eapply same_content_trans.
Qed.

Lemma orders_keep_their_content_witness :
  Forall (fun r => is_post_orders r = false) (drop 1 demo_requests)
  /\ match getOrder "uuid-0" (db demo_pending),
           getOrder "uuid-0" (db (run demo_world (drop 1 demo_requests) demo_pending)) with
     | Some o, Some o' => same_content o o'
     | None, None => True
     | _, _ => False
     end.
Proof.
  assert (H : Forall (fun r => is_post_orders r = false) (drop 1 demo_requests))
    by (repeat constructor).
  pose proof (orders_keep_their_content demo_world (drop 1 demo_requests)
                demo_pending "uuid-0" H) as Hkeep.
  split; [exact H|exact Hkeep].
Defined.

(** ** Only a payment callback takes an order out of pending *)

#[global] Instance pending_stay_pending_preorder : PreOrder pending_stay_pending.
Proof.
  split.
  - intros st id o Hget Hst. by exists o.
  - intros a b c Hab Hbc id o Hget Hst.
    destruct (Hab id o Hget Hst) as (o' & Hget' & Hst'). by apply (Hbc id o').
Qed.

Lemma pending_stay_pending_same_orders st st' :
  orders (db st') = orders (db st) -> pending_stay_pending st st'.
Proof. intros Heq id o Hget Hst. exists o. unfold getOrder in *. by rewrite Heq. Qed.

Ltac pending_prim := by (apply pending_stay_pending_same_orders).

Lemma sendOrderReadyNotification_pending W u n :
  preserves pending_stay_pending (sendOrderReadyNotification W u n).
Proof. unfold sendOrderReadyNotification, notification_getBot. frame; pending_prim. Qed.

Lemma markOrderReady_pending W id : preserves pending_stay_pending (markOrderReady W id).
Proof.
  intros st. destruct (getOrder id (db st)) as [o|] eqn:Hget.
  - destruct (decide (status o = confirmed)) as [Hc|Hc].
    + destruct (markOrderReady_confirmed W id st o Hget Hc) as (st1 & -> & Hdb).
      cbn [snd]. intros id' o' Hget' Hst'. rewrite Hdb.
      pose proof (getOrder_order_id _ _ _ Hget) as <-.
      destruct (decide (order_id o = id')) as [<-|Hne]; [congruence|].
      exists o'. split; [|done].
      by rewrite getOrder_saveOrder_other by by rewrite order_id_merge_order.
    + rewrite (markOrderReady_other_status W id st o Hget Hc). reflexivity.
  - unfold markOrderReady. rewrite bind_query, Hget. reflexivity.
Qed.

Lemma createOrder_pending W req : preserves pending_stay_pending (createOrder W req).
Proof.
  intros st. pose proof (createOrder_effect W req st) as Heff.
  destruct (createOrder W req st) as [[r|msg] st']; cbn [snd].
  - destruct Heff as (ls & s & ts & _ & _ & _ & _ & Hord & _).
    intros id o Hget Hst. unfold getOrder. rewrite Hord.
    destruct (decide (resp_orderId r = id)) as [<-|Hne].
    + rewrite lookup_insert_eq. by eexists.
    + rewrite lookup_insert_ne by done. by exists o.
  - apply pending_stay_pending_same_orders. by rewrite Heff.
Qed.

Lemma toggleUserFavorite_pending W u i :
  preserves pending_stay_pending (toggleUserFavorite W u i).
Proof.
  unfold toggleUserFavorite, toggleFavorite, new_Date_toISOString. frame; pending_prim.
Qed.

Lemma upsertUserContext_pending W u s n :
  preserves pending_stay_pending (upsertUserContext W u s n).
Proof. unfold upsertUserContext, new_Date_toISOString. frame; pending_prim. Qed.

Lemma timer_callback_pending W orderId :
  preserves pending_stay_pending (timer_callback W orderId).
Proof.
  unfold timer_callback. frame. apply markOrderReady_pending.
Qed.

#[global] Hint Resolve markOrderReady_pending createOrder_pending
  toggleUserFavorite_pending upsertUserContext_pending : frame.

(** X14: no request other than a payment callback takes an order out of
    [pending]: after an order submission, a ready request, a timer, a
    favorites toggle or a user-context update, every order that was stored
    as pending is still stored as pending. *)
Theorem only_callbacks_leave_pending W rs st id o :
  Forall (fun r => is_payment_callback r = false) rs ->
  getOrder id (db st) = Some o -> status o = pending ->
  exists o', getOrder id (db (run W rs st)) = Some o' /\ status o' = pending.
Proof.
  intros Hrs. revert st o. induction Hrs as [|r rs Hr _ IH]; intros st o Hget Hst.
  - by exists o.
  - cbn [run fold_left]. fold (run W rs (step W r st)).
    assert (Hstep : pending_stay_pending st (step W r st)).
    { clear IH Hget Hst.
      destruct r as [body|orderId|signature rawBody|reference stat|u i|u s e|n];
        try done; cbn [step].
      - apply (preserves_at pending_stay_pending).
        unfold post_orders. frame; try pending_prim; eauto with frame.
      - apply (preserves_at pending_stay_pending).
        unfold post_order_ready. frame; try pending_prim; eauto with frame.
      - apply (preserves_at pending_stay_pending).
        unfold post_favorites_toggle. frame; try pending_prim; eauto with frame.
      - apply (preserves_at pending_stay_pending).
        unfold post_user_context. frame; try pending_prim; eauto with frame.
      - destruct (timers st !! n) as [orderId|]; [|reflexivity].
        etrans; [|apply (timer_callback_pending W orderId)].
        pending_prim. }
    destruct (Hstep id o Hget Hst) as (o1 & Hget1 & Hst1).
    by apply (IH (step W r st) o1).
Qed.

Lemma only_callbacks_leave_pending_witness :
  Forall (fun r => is_payment_callback r = false)
         [PostOrderReady "uuid-0"; PostOrders demo_body]
  /\ getOrder "uuid-0" (db demo_pending) = Some (demo_order pending false)
  /\ exists o', getOrder "uuid-0"
                  (db (run demo_world [PostOrderReady "uuid-0"; PostOrders demo_body]
                         demo_pending)) = Some o'
                /\ status o' = pending.
Proof.
  assert (H : Forall (fun r => is_payment_callback r = false)
                     [PostOrderReady "uuid-0"; PostOrders demo_body])
    by (repeat constructor).
  assert (Hget : getOrder "uuid-0" (db demo_pending) = Some (demo_order pending false))
    by (vm_compute; reflexivity).
  pose proof (only_callbacks_leave_pending demo_world _ demo_pending "uuid-0"
                (demo_order pending false) H Hget eq_refl) as Hw.
  split; [exact H|]. split; [exact Hget|exact Hw].
Defined.

(** ** The HTTP adapters *)

Lemma price_lines_throw_message its msg :
  price_lines its = Throw msg -> startsWith "Invalid" msg = true.
Proof.
  induction its as [|it its IH]; [done|]. simpl.
  destruct (price_line it) as [l|m] eqn:Hl.
  - destruct (price_lines its); [done|]. intros [= <-]. by apply IH.
  - intros [= <-]. unfold price_line in Hl.
    destruct (item_quantity it) as [q|]; [|by injection Hl as <-].
    destruct (q <? 1); [by injection Hl as <-|].
    destruct (serverMenuById !! item_menuItemId it); [done|]. by injection Hl as <-.
Qed.

(** X15: POST /api/orders always answers, with 201, 400 or 500; a 201
    carries the response of [createOrder] with status pending, and any other
    answer leaves the database exactly as it was. *)
Theorem post_orders_answers W body st :
  exists resp st',
    post_orders W body st = (Return resp, st')
    /\ (http_status resp = 201 \/ http_status resp = 400 \/ http_status resp = 500)
    /\ (http_status resp <> 201 -> db st' = db st)
    /\ (http_status resp = 201 ->
        exists req r, body_request body = Some req
                      /\ createOrder W req st = (Return r, st')
                      /\ http_body resp = JsonCreated r /\ resp_status r = pending).
Proof.
  unfold post_orders, body_request.
  destruct (body_items body) as [its|]; [|by eexists _, _; repeat split; eauto].
  destruct (length its =? 0)%nat; [by eexists _, _; repeat split; eauto|].
  destruct (parse_paymentMethod (body_paymentMethod body)) as [method|];
    [|by eexists _, _; repeat split; eauto].
  destruct (truthy (body_telegramUserId body)); cbn [negb];
    [|by eexists _, _; repeat split; eauto].
  destruct (truthy (body_storeId body)); cbn [negb];
    [|by eexists _, _; repeat split; eauto].
  unfold try_catch, bind at 1.
  set (req := mkCreateOrderRequest its method _ _).
  pose proof (createOrder_effect W req st) as Heff.
  destruct (createOrder W req st) as [[r|msg] st'] eqn:Hrun.
  - destruct Heff as (ls & s & ts & _ & _ & _ & Hst & _).
    rewrite ret_run. eexists _, _. split; [reflexivity|]. cbn.
    split; [by left|]. split; [done|]. intros _. by exists req, r.
  - destruct (startsWith "Invalid" msg || includes "must" msg
              || includes "required" msg || includes "not configured" msg)%bool;
      rewrite ret_run; eexists _, _; (split; [reflexivity|]); cbn;
      repeat split; auto; done.
Qed.



(** X17: the ready route answers 200 for every stored order, with status
    [ready] when the order was confirmed and with the order's unchanged
    status otherwise (a pending order stays pending and is still answered
    200). *)
Theorem post_order_ready_answers_200 W id st o :
  getOrder id (db st) = Some o ->
  exists st',
    post_order_ready W id st
    = (Return (mkHttpResponse 200
                 (JsonOrderStatus id (if decide (status o = confirmed)
                                      then ready else status o))), st')
    /\ (status o <> confirmed -> st' = st).
Proof.
  intros Hget. unfold post_order_ready, try_catch, bind at 1.
  pose proof (getOrder_order_id _ _ _ Hget) as Hid.
  destruct (decide (status o = confirmed)) as [Hc|Hc].
  - destruct (markOrderReady_confirmed W id st o Hget Hc) as (st1 & -> & _).
    rewrite ret_run. cbn. rewrite Hid. by eexists.
  - rewrite (markOrderReady_other_status W id st o Hget Hc), ret_run, Hid. by eexists.
Qed.

Lemma post_order_ready_answers_200_witness :
  getOrder "uuid-0" (db demo_pending) = Some (demo_order pending false)
  /\ post_order_ready demo_world "uuid-0" demo_pending
     = (Return (mkHttpResponse 200 (JsonOrderStatus "uuid-0" pending)), demo_pending).
Proof.
  assert (Hget : getOrder "uuid-0" (db demo_pending) = Some (demo_order pending false))
    by (vm_compute; reflexivity).
  destruct (post_order_ready_answers_200 demo_world "uuid-0" demo_pending
              (demo_order pending false) Hget) as (st' & Hrun & Hsame).
  rewrite (Hsame ltac:(discriminate)) in Hrun.
  split; [exact Hget|exact Hrun].
Defined.

(** ** store/database.ts, continued *)

Lemma canonical_pair_comm a b : a <> b -> canonical_pair a b = canonical_pair b a.
Proof.
  intros Hne. unfold canonical_pair.
  destruct (String.leb a b) eqn:Hab, (String.leb b a) eqn:Hba; try done.
  - destruct Hne. by apply String.leb_antisym.
  - destruct (String.leb_total a b); congruence.
Qed.

Lemma recordCategoryCoOccurrence_canonical a b d :
  a <> b ->
  recordCategoryCoOccurrence a b d
  = with_order_category_stats
      (fun t => match t !! canonical_pair a b with
                | Some n => <[canonical_pair a b := n + 1]> t
                | None => <[canonical_pair a b := 1]> t
                end) d.
Proof.
  intros Hne. unfold recordCategoryCoOccurrence, canonical_pair.
  rewrite decide_False by done. by destruct (String.leb a b).
Qed.


Lemma seedStores_keeps l t id row :
  t !! id = Some row -> seedStores l t !! id = Some row.
Proof.
  revert t. induction l as [|s l IH]; intros t Hrow; [done|].
  unfold seedStores. cbn [fold_left]. fold (seedStores l).
  destruct (t !! store_id s) eqn:Hs; apply IH; [done|].
  rewrite lookup_insert_ne; [done|]. intros <-. congruence.
Qed.

Lemma seedStores_covers l t s : s ∈ l -> is_Some (seedStores l t !! store_id s).
Proof.
  revert t. induction l as [|s0 l IH]; intros t Hin; [by apply elem_of_nil in Hin|].
  unfold seedStores. cbn [fold_left]. fold (seedStores l).
  apply elem_of_cons in Hin as [->|Hin].
  - destruct (t !! store_id s0) as [row|] eqn:Hs.
    + exists row. by apply seedStores_keeps.
    + eexists. apply seedStores_keeps. by rewrite lookup_insert_eq.
  - by apply IH.
Qed.

Lemma seedStores_present l t :
  (forall s, s ∈ l -> is_Some (t !! store_id s)) -> seedStores l t = t.
Proof.
  revert t. induction l as [|s l IH]; intros t Hall; [done|].
  unfold seedStores. cbn [fold_left]. fold (seedStores l).
  destruct (Hall s) as [row Hrow]; [apply list_elem_of_here|]. rewrite Hrow.
  apply IH. intros s' Hin. apply Hall. by apply list_elem_of_further.
Qed.

(** X19: seeding the stores never overwrites a row that is already there,
    makes every seeded store present, adds no other store, and is
    idempotent: seeding again changes nothing. *)
Theorem seedStores_idempotent l t :
  (forall id row, t !! id = Some row -> seedStores l t !! id = Some row)
  /\ (forall s, s ∈ l -> is_Some (seedStores l t !! store_id s))
  /\ (forall id, is_Some (seedStores l t !! id) ->
                 is_Some (t !! id) \/ id ∈ map store_id l)
  /\ seedStores l (seedStores l t) = seedStores l t.
Proof.
  split; [intros; by apply seedStores_keeps|].
  split; [intros; by apply seedStores_covers|]. split.
  - revert t. induction l as [|s l IH]; intros t id Hsome; [by left|].
    unfold seedStores in Hsome. cbn [fold_left] in Hsome. fold (seedStores l) in Hsome.
    destruct (t !! store_id s) eqn:Hs.
    + destruct (IH _ _ Hsome) as [H|H]; [by left|right].
      cbn. by apply list_elem_of_further.
    + destruct (IH _ _ Hsome) as [H|H].
      * destruct (decide (store_id s = id)) as [<-|Hne].
        -- right. cbn. apply list_elem_of_here.
        -- left. by rewrite lookup_insert_ne in H.
      * right. cbn. by apply list_elem_of_further.
  - apply seedStores_present. intros s Hin. by apply seedStores_covers.
Qed.

(** X20: [upsertUserContext] returns the row it leaves stored for the user:
    it carries the given store and notification flag and the current time as
    update time, keeps the creation time of an existing row (a new row gets
    the current time), and the rows of other users and all orders are
    untouched; the route turns a missing notification flag into "enabled". *)
Theorem upsertUserContext_stores_row W u s n st :
  exists row st',
    upsertUserContext W u s n st = (Return (Some row), st')
    /\ getUserContext u (db st') = Some row
    /\ ctx_storeId row = s
    /\ notificationsEnabled row = n
    /\ ctx_updatedAt row = toISOString_at W (tick st)
    /\ ctx_createdAt row
       = match getUserContext u (db st) with
         | Some old => ctx_createdAt old
         | None => toISOString_at W (tick st)
         end
    /\ (forall u', u' <> u -> getUserContext u' (db st') = getUserContext u' (db st))
    /\ orders (db st') = orders (db st)
    /\ (post_user_context W u s None st).2
       = (post_user_context W u s (Some true) st).2.
Proof.
  unfold upsertUserContext, getUserContext. rewrite bind_new_Date, bind_query.
  cbn [db with_tick].
  destruct (user_contexts (db st) !! u) as [old|] eqn:Hold;
    cbn [fmap option_fmap option_map]; rewrite bind_exec, query_run;
    cbn [db with_db with_tick with_user_contexts user_contexts orders];
    rewrite ?Hold, ?lookup_insert_eq; cbn [fmap option_fmap option_map];
    (eexists _, _; split; [reflexivity|]);
    cbn [db with_db with_tick with_user_contexts user_contexts orders];
    rewrite ?Hold, ?lookup_insert_eq; cbn; repeat split; try done;
    intros u' Hne; by rewrite lookup_insert_ne.
Qed.

(** ** services/upsellService.ts *)

Lemma find_by_category_spec catId m :
  find_by_category catId = Some m -> m ∈ serverMenuItems /\ categoryId m = catId.
Proof.
  unfold find_by_category. intros Hfind. apply List.find_some in Hfind as [Hin Heq].
  split; [by apply list_elem_of_In|]. by apply String.eqb_eq.
Qed.

Lemma find_by_id_spec itemId m :
  find_by_id itemId = Some m -> m ∈ serverMenuItems /\ menu_id m = itemId.
Proof.
  unfold find_by_id. intros Hfind. apply List.find_some in Hfind as [Hin Heq].
  split; [by apply list_elem_of_In|]. by apply String.eqb_eq.
Qed.

(** What both loops keep: at most three results, all good, whose
    categories are exactly the used ones, without repetition. *)
Definition upsell_inv (cart : list string) (results : list UpsellItem)
    (used : list string) : Prop :=
  (length results <= 3)%nat
  /\ Forall (good_suggestion cart) results
  /\ used = map up_categoryId results
  /\ NoDup used.

Lemma suggest_from_stats_inv cart suggested results used :
  NoDup suggested ->
  (forall c, c ∈ suggested -> c ∉ used) ->
  (length results < 3)%nat ->
  upsell_inv cart results used ->
  upsell_inv cart (suggest_from_stats cart suggested results used).1
                  (suggest_from_stats cart suggested results used).2.
Proof.
  revert results used.
  induction suggested as [|catId rest IH]; intros results used Hnd Hfresh Hlen Hinv;
    [done|].
  apply NoDup_cons in Hnd as [Hnotin Hnd]. cbn [suggest_from_stats].
  assert (Hfresh' : forall c, c ∈ rest -> c ∉ used).
  { intros c Hc. apply Hfresh. by apply list_elem_of_further. }
  case_bool_decide as Hcart; [by apply IH|].
  destruct (find_by_category catId) as [item|] eqn:Hfind.
  - apply find_by_category_spec in Hfind as [Hin Hcat].
    destruct Hinv as (Hle & Hgood & Hused & Hnodup).
    assert (Hinv' : upsell_inv cart
              (mkUpsellItem (menu_id item) (menu_name item) (price item) catId :: results)
              (catId :: used)).
    { split; [cbn; lia|]. split; [|split].
      - constructor; [|done]. split; [done|]. by exists item.
      - cbn. by rewrite Hused.
      - apply NoDup_cons. split; [|done]. apply Hfresh, list_elem_of_here. }
    destruct (3 <=? length (_ :: results))%nat eqn:Hfull; [done|].
    apply Nat.leb_gt in Hfull. apply IH; try done.
    intros c Hc [->|Hu]%elem_of_cons; [done|]. by apply (Hfresh' c).
  - destruct (3 <=? length results)%nat; [done|]. by apply IH.
Qed.

Lemma suggest_static_inv cart ids results used :
  upsell_inv cart results used ->
  upsell_inv cart (suggest_static cart ids results used)
             (map up_categoryId (suggest_static cart ids results used)).
Proof.
  revert results used. induction ids as [|itemId rest IH]; intros results used Hinv.
  - cbn. destruct Hinv as (Hle & Hgood & Hused & Hnodup). by rewrite <- Hused.
  - cbn [suggest_static].
    destruct (3 <=? length results)%nat eqn:Hfull.
    { destruct Hinv as (Hle & Hgood & Hused & Hnodup). by rewrite <- Hused. }
    apply Nat.leb_gt in Hfull.
    destruct (find_by_id itemId) as [item|] eqn:Hfind; [|by apply IH].
    apply find_by_id_spec in Hfind as [Hin Hid].
    case_bool_decide as Hcart; [by apply IH|].
    case_bool_decide as Hused'; [by apply IH|].
    apply IH. destruct Hinv as (Hle & Hgood & Hused & Hnodup).
    split; [cbn; lia|]. split; [|split].
    + constructor; [|done]. split; [done|]. by exists item.
    + cbn. by rewrite Hused.
    + by apply NoDup_cons.
Qed.

(** X21: whatever rows the co-occurrence query returned (without
    repetition), [getUpsellSuggestions] returns at most three items; each is
    a menu item with its own id, name, price and category; none is from a
    category of the cart; and no two are from the same category. *)
Theorem getUpsellSuggestions_sound cart rows :
  NoDup rows ->
  (length (getUpsellSuggestions cart rows) <= 3)%nat
  /\ Forall (good_suggestion cart) (getUpsellSuggestions cart rows)
  /\ NoDup (map up_categoryId (getUpsellSuggestions cart rows)).
Proof.
  intros Hnd. unfold getUpsellSuggestions.
  assert (Hnd' : NoDup (getTopCoOccurringCategories cart rows)).
  { unfold getTopCoOccurringCategories. destruct (length cart =? 0)%nat; [constructor|].
    apply NoDup_ListNoDup, List.NoDup_filter. by apply NoDup_ListNoDup. }
  set (suggested := getTopCoOccurringCategories cart rows) in *.
  assert (Hfirst : upsell_inv cart (suggest_from_stats cart suggested [] []).1
                              (suggest_from_stats cart suggested [] []).2).
  { apply suggest_from_stats_inv; [done|intros c _; apply not_elem_of_nil|cbn; lia|].
    split; [cbn; lia|]. split; [constructor|]. split; [done|constructor]. }
  destruct (suggest_from_stats cart suggested [] []) as [results used]. cbn [fst snd] in *.
  assert (Hfinal : upsell_inv cart
            (if (length results <? 3)%nat
             then suggest_static cart STATIC_UPSELL_IDS results used else results)
            (map up_categoryId
               (if (length results <? 3)%nat
                then suggest_static cart STATIC_UPSELL_IDS results used else results))).
  { destruct (length results <? 3)%nat; [by apply suggest_static_inv|].
    destruct Hfirst as (Hle & Hgood & Hused & Hnodup). by rewrite <- Hused. }
  destruct Hfinal as (Hle & Hgood & _ & Hnodup).
  split; [by rewrite length_rev|]. split.
  - by apply Forall_rev.
  - rewrite map_rev. by apply NoDup_ListNoDup, List.NoDup_rev, NoDup_ListNoDup.
Qed.

Lemma getUpsellSuggestions_sound_witness :
  NoDup ["kall_dryck"; "toppings"]
  /\ getUpsellSuggestions ["varm_mat"] ["kall_dryck"; "toppings"]
     = [mkUpsellItem "fountain_drink" "Dryck i mugg" 10 "kall_dryck";
        mkUpsellItem "onion" "Rostad lök" 2 "toppings";
        mkUpsellItem "kanelbulle" "Kanelbulle" 5 "fika_glass"]
  /\ Forall (good_suggestion ["varm_mat"])
            (getUpsellSuggestions ["varm_mat"] ["kall_dryck"; "toppings"]).
Proof.
  assert (H : NoDup ["kall_dryck"; "toppings"]).
  { apply NoDup_cons. split; [|apply NoDup_singleton].
    intros Hin%list_elem_of_In. simpl in Hin. by destruct Hin as [[=]|[]]. }
  pose proof (getUpsellSuggestions_sound ["varm_mat"] ["kall_dryck"; "toppings"] H)
    as (_ & Hgood & _).
  split; [exact H|]. split; [vm_compute; reflexivity|exact Hgood].
Defined.

(** ** Category statistics recorded by createOrder *)

Lemma elem_of_unique_in_order seen xs x :
  x ∈ unique_in_order seen xs <-> x ∈ xs /\ x ∉ seen.
Proof.
  revert seen. induction xs as [|y xs IH]; intros seen; cbn [unique_in_order].
  - split; [by intros ?%not_elem_of_nil|by intros [?%not_elem_of_nil _]].
  - destruct (decide (y ∈ seen)) as [Hy|Hy].
    + rewrite IH, elem_of_cons. split; [intuition (subst; auto; congruence)|].
      intros [[->|Hx] Hn]; [done|done].
    + rewrite !elem_of_cons, IH, elem_of_cons. split; [intuition (subst; auto; congruence)|].
      intros [[->|Hx] Hn]; [by left|].
      destruct (decide (x = y)) as [->|Hne]; [by left|right; intuition (subst; auto; congruence)].
Qed.

Lemma NoDup_unique_in_order seen xs : NoDup (unique_in_order seen xs).
Proof.
  revert seen. induction xs as [|y xs IH]; intros seen; cbn [unique_in_order].
  - constructor.
  - destruct (decide (y ∈ seen)); [apply IH|].
    apply NoDup_cons. split; [|apply IH].
    rewrite elem_of_unique_in_order, elem_of_cons. intuition (subst; auto; congruence).
Qed.

Lemma canonical_pair_inj x y a b :
  x <> y -> a <> b -> canonical_pair x y = canonical_pair a b ->
  (x = a /\ y = b) \/ (x = b /\ y = a).
Proof.
  unfold canonical_pair. intros Hxy Hab.
  destruct (String.leb x y), (String.leb a b); intros [= -> ->]; auto.
Qed.

Lemma counts_for_spec a b p :
  a <> b -> counts_for (canonical_pair a b) p = true <-> p = (a, b) \/ p = (b, a).
Proof.
  intros Hab. destruct p as [x y]. unfold counts_for. cbn [fst snd].
  rewrite andb_true_iff, negb_true_iff, bool_decide_eq_false, bool_decide_eq_true.
  split.
  - intros [Hxy Hc]. destruct (canonical_pair_inj x y a b Hxy Hab Hc) as [[-> ->]|[-> ->]];
      auto.
  - intros [[= -> ->]|[= -> ->]]; [done|]. split; [done|].
    apply canonical_pair_comm. congruence.
Qed.

Lemma recordCategoryCoOccurrence_count x y d k :
  default 0 (order_category_stats (recordCategoryCoOccurrence x y d) !! k)
  = default 0 (order_category_stats d !! k) + (if counts_for k (x, y) then 1 else 0).
Proof.
  unfold counts_for. cbn [fst snd].
  destruct (decide (x = y)) as [->|Hne].
  - unfold recordCategoryCoOccurrence. rewrite decide_True by done.
    rewrite bool_decide_eq_true_2 by done. cbn. lia.
  - rewrite recordCategoryCoOccurrence_canonical by done.
    rewrite (bool_decide_eq_false_2 (x = y)) by done. cbn [negb andb].
    cbn [order_category_stats with_order_category_stats].
    case_bool_decide as Hk.
    + subst k. destruct (order_category_stats d !! canonical_pair x y);
        by rewrite lookup_insert_eq.
    + destruct (order_category_stats d !! canonical_pair x y);
        rewrite lookup_insert_ne by done; lia.
Qed.

Lemma record_pairs_count ps d k :
  default 0 (order_category_stats
               (fold_left (fun d p => recordCategoryCoOccurrence p.1 p.2 d) ps d) !! k)
  = default 0 (order_category_stats d !! k)
    + Z.of_nat (length (List.filter (counts_for k) ps)).
Proof.
  revert d. induction ps as [|[x y] ps IH]; intros d; cbn [fold_left List.filter].
  - cbn. lia.
  - rewrite IH. cbn [fst snd]. rewrite recordCategoryCoOccurrence_count.
    destruct (counts_for k (x, y)); cbn [length]; lia.
Qed.

Lemma count_partner a b rest :
  a <> b -> NoDup rest ->
  length (List.filter (counts_for (canonical_pair a b)) (map (fun y => (a, y)) rest))
  = if bool_decide (b ∈ rest) then 1%nat else 0%nat.
Proof.
  intros Hab. induction 1 as [|y rest Hy Hnd IH]; [done|].
  cbn [map List.filter].
  destruct (counts_for (canonical_pair a b) (a, y)) eqn:Hc.
  - apply counts_for_spec in Hc as [[= ->]|[= ? ?]]; [|congruence|done].
    cbn [length]. rewrite IH, (bool_decide_eq_false_2 (b ∈ rest)) by done.
    by rewrite bool_decide_eq_true_2 by apply list_elem_of_here.
  - rewrite IH. symmetry. rewrite (bool_decide_ext (b ∈ y :: rest) (b ∈ rest)); [done|].
    rewrite elem_of_cons. split; [|auto].
    intros [->|?]; [|done].
    assert (counts_for (canonical_pair a y) (a, y) = true) by (apply counts_for_spec; auto).
    congruence.
Qed.

Lemma count_stranger a b x rest :
  a <> b -> x <> a -> x <> b ->
  List.filter (counts_for (canonical_pair a b)) (map (fun y => (x, y)) rest) = [].
Proof.
  intros Hab Hxa Hxb. induction rest as [|y rest IH]; [done|].
  cbn [map List.filter].
  destruct (counts_for (canonical_pair a b) (x, y)) eqn:Hc; [|done].
  apply counts_for_spec in Hc as [[= ? ?]|[= ? ?]]; done.
Qed.

Lemma index_pairs_count a b xs :
  a <> b -> NoDup xs ->
  length (List.filter (counts_for (canonical_pair a b)) (index_pairs xs))
  = if bool_decide (a ∈ xs /\ b ∈ xs) then 1%nat else 0%nat.
Proof.
  intros Hab. induction 1 as [|x rest Hx Hnd IH]; cbn [index_pairs].
  - rewrite bool_decide_eq_false_2; [done|]. by intros [?%not_elem_of_nil _].
  - rewrite List.filter_app, length_app, IH.
    destruct (decide (x = a)) as [->|Hxa]; [|destruct (decide (x = b)) as [->|Hxb]].
    + rewrite count_partner by done.
      rewrite (bool_decide_eq_false_2 (a ∈ rest /\ _)) by intuition (subst; auto; congruence).
      rewrite Nat.add_0_r.
      rewrite (bool_decide_ext (a ∈ a :: rest /\ b ∈ a :: rest) (b ∈ rest)); [done|].
      rewrite !elem_of_cons. intuition (subst; auto; congruence).
    + rewrite (canonical_pair_comm a b), count_partner by done.
      rewrite (bool_decide_eq_false_2 (a ∈ rest /\ _)) by intuition (subst; auto; congruence).
      rewrite Nat.add_0_r.
      rewrite (bool_decide_ext (a ∈ b :: rest /\ b ∈ b :: rest) (a ∈ rest)); [done|].
      rewrite !elem_of_cons. intuition (subst; auto; congruence).
    + rewrite count_stranger by done. cbn [length Nat.add].
      rewrite (bool_decide_ext (a ∈ x :: rest /\ b ∈ x :: rest) (a ∈ rest /\ b ∈ rest));
        [done|].
      rewrite !elem_of_cons. intuition (subst; auto; congruence).
Qed.

Lemma createOrder_stats W req st r st' :
  createOrder W req st = (Return r, st') ->
  exists d1,
    order_category_stats d1 = order_category_stats (db st)
    /\ db st' = fold_left (fun d p => recordCategoryCoOccurrence p.1 p.2 d)
                  (index_pairs (unique_in_order [] (order_categories (items req)))) d1.
Proof.
  unfold createOrder.
  destruct (length (items req) =? 0)%nat; [done|].
  destruct (truthy (req_telegramUserId req)); [|done].
  destruct (truthy (req_storeId req)); [|done]. cbn [negb].
  mstep. destruct (getStoreById (req_storeId req) (db st)) as [store|]; [|done].
  mstep. destruct (price_lines (items req)) as [ls|msg] eqn:Hls; [|done].
  cbn [db with_tick]. unfold bind at 1.
  set (st1 := with_tick (S (tick st)) st).
  pose proof (createPaymentForOrder_effect W (uuidv4_at W (tick st)) (sum_lines ls)
                (req_paymentMethod req) st1) as Hpay.
  destruct (createPaymentForOrder W (uuidv4_at W (tick st)) (sum_lines ls)
              (req_paymentMethod req) st1) as [[pr|msg] st2]; [|done].
  destruct Hpay as (s & Hdb2 & _).
  mstep. intros Heq. apply (f_equal snd) in Heq. cbn [snd] in Heq. subst st'.
  cbn [db with_db with_tick]. eexists. split; [|reflexivity].
  rewrite Hdb2. reflexivity.
Qed.

(** X22: a successful [createOrder] adds exactly one to the co-occurrence
    count of every pair of different categories that both occur among the
    ordered items, however many items of each category there are and in
    whatever order, and leaves the count of every other pair as it was. *)
Theorem createOrder_counts_category_pairs W req st r st' a b :
  createOrder W req st = (Return r, st') ->
  a <> b ->
  co_occurrence_count a b (db st')
  = co_occurrence_count a b (db st)
    + (if bool_decide (a ∈ order_categories (items req)
                       /\ b ∈ order_categories (items req))
       then 1 else 0).
Proof.
  intros Hrun Hab. destruct (createOrder_stats W req st r st' Hrun) as (d1 & Hd1 & ->).
  unfold co_occurrence_count. rewrite record_pairs_count, Hd1.
  rewrite index_pairs_count by (done || apply NoDup_unique_in_order).
  f_equal.
  rewrite (bool_decide_ext _ (a ∈ order_categories (items req)
                              /\ b ∈ order_categories (items req))).
  - by case_bool_decide.
  - rewrite !elem_of_unique_in_order. split; [intuition (subst; auto; congruence)|].
    intros [? ?]. repeat split; try done; apply not_elem_of_nil.
Qed.

Lemma createOrder_counts_category_pairs_witness :
  exists r st',
    createOrder demo_world demo_request_fika (initial_state demo_env) = (Return r, st')
    /\ "fika_glass" <> "varm_mat"
    /\ co_occurrence_count "fika_glass" "varm_mat" (db st')
       = co_occurrence_count "fika_glass" "varm_mat" (db (initial_state demo_env))
         + (if bool_decide ("fika_glass" ∈ order_categories (items demo_request_fika)
                            /\ "varm_mat" ∈ order_categories (items demo_request_fika))
            then 1 else 0)
    /\ co_occurrence_count "fika_glass" "varm_mat" (db st') = 1.
Proof.
  destruct (createOrder demo_world demo_request_fika (initial_state demo_env))
    as [[r|msg] st'] eqn:Hrun; [|by vm_compute in Hrun].
  assert (Hne : "fika_glass" <> "varm_mat") by discriminate.
  pose proof (createOrder_counts_category_pairs demo_world demo_request_fika
                (initial_state demo_env) r st' "fika_glass" "varm_mat" Hrun Hne) as Hw.
  exists r, st'. split; [reflexivity|]. split; [exact Hne|]. split; [exact Hw|].
  vm_compute in Hrun. injection Hrun as <- <-. vm_compute. reflexivity.
Defined.

(** ** Which routes can answer 500 *)

Lemma answers_ret {A} (P : A -> Prop) a : P a -> answers P (ret a).
Proof. intros HP st. by exists a, st. Qed.

Lemma answers_bind {A B} (P : B -> Prop) (m : M A) (k : A -> M B) :
  returns m -> (forall a, answers P (k a)) -> answers P (bind m k).
Proof.
  intros Hm Hk st. destruct (Hm st) as (a & st1 & Hrun & _).
  unfold bind. rewrite Hrun. apply Hk.
Qed.

Lemma answers_try_catch_body {A} (P : A -> Prop) (m : M A) h :
  answers P m -> answers P (try_catch m h).
Proof.
  intros Hm st. destruct (Hm st) as (a & st1 & Hrun & HP).
  unfold try_catch. rewrite Hrun. by exists a, st1.
Qed.

Lemma returns_try_catch {A} (m : M A) h :
  (forall msg, returns (h msg)) -> returns (try_catch m h).
Proof.
  intros Hh st. unfold try_catch. destruct (m st) as [[a|msg] st1].
  - by exists a, st1.
  - apply Hh.
Qed.

Lemma returns_gets {A} (f : State -> A) : returns (gets f).
Proof. intros st. by eexists _, _. Qed.

Lemma returns_query {A} (f : Db -> A) : returns (query f).
Proof. intros st. by eexists _, _. Qed.

Lemma returns_modify f : returns (modify f).
Proof. intros st. by eexists _, _. Qed.

Lemma returns_exec f : returns (exec f).
Proof. intros st. by eexists _, _. Qed.

Lemma returns_emit e : returns (emit e).
Proof. intros st. by eexists _, _. Qed.

Lemma returns_next_tick : returns next_tick.
Proof. intros st. by eexists _, _. Qed.

Lemma returns_run_db {A} (f : Db -> A * Db) : returns (run_db f).
Proof. intros st. unfold run_db. destruct (f (db st)). by eexists _, _. Qed.

Ltac returns_step :=
  unfold returns;
  match goal with
  | |- answers _ (bind _ _) => apply answers_bind; [|intros ?]
  | |- answers _ (try_catch _ _) => apply returns_try_catch; intros ?
  | |- answers _ (ret _) => by apply answers_ret
  | |- answers _ (gets _) => apply returns_gets
  | |- answers _ (query _) => apply returns_query
  | |- answers _ (modify _) => apply returns_modify
  | |- answers _ (exec _) => apply returns_exec
  | |- answers _ (run_db _) => apply returns_run_db
  | |- answers _ next_tick => apply returns_next_tick
  | |- answers _ (emit _) => apply returns_emit
  | |- answers _ (if ?b then _ else _) => destruct b
  | |- answers _ (match ?x with _ => _ end) => destruct x
  end.

Ltac returns_all := repeat returns_step.

Lemma updatePaymentSession_returns W id x : returns (updatePaymentSession W id x).
Proof. unfold updatePaymentSession, new_Date_toISOString. returns_all. Qed.

Lemma setTimeout_returns id : returns (setTimeout id).
Proof. unfold setTimeout. returns_all. Qed.

Lemma confirmOrder_returns W id : returns (confirmOrder W id).
Proof. unfold confirmOrder. returns_all; apply setTimeout_returns. Qed.

Lemma markOrderReady_returns W id : returns (markOrderReady W id).
Proof. unfold markOrderReady. returns_all. Qed.

Lemma handleSwishCallback_returns W reference stat :
  returns (handleSwishCallback W reference stat).
Proof.
  unfold handleSwishCallback.
  returns_all; first [apply updatePaymentSession_returns | apply confirmOrder_returns].
Qed.

Lemma handleStripeWebhook_returns W rawBody signature :
  returns (handleStripeWebhook W rawBody signature).
Proof.
  unfold handleStripeWebhook.
  returns_all; first [apply updatePaymentSession_returns | apply confirmOrder_returns].
Qed.

Lemma toggleFavorite_returns W u i : returns (toggleFavorite W u i).
Proof. unfold toggleFavorite, new_Date_toISOString. returns_all. Qed.

Lemma upsertUserContext_returns W u s e : returns (upsertUserContext W u s e).
Proof. unfold upsertUserContext, new_Date_toISOString. returns_all. Qed.

(** X23: the payment callbacks, the ready route, the favorites toggle and
    the user-context route never answer 500, in any state and whatever
    Stripe, Swish and Telegram do: every failure of a collaborator on these
    paths is caught before it reaches the route.  The callbacks and the two
    user routes answer 200 or 400, the ready route 200 or 404. *)
Theorem only_order_submission_answers_500 W :
  (forall signature rawBody,
     answers (fun resp => http_status resp = 200 \/ http_status resp = 400)
             (post_webhook_stripe W signature rawBody))
  /\ (forall reference stat,
        answers (fun resp => http_status resp = 200 \/ http_status resp = 400)
                (post_webhook_swish W reference stat))
  /\ (forall orderId,
        answers (fun resp => http_status resp = 200 \/ http_status resp = 404)
                (post_order_ready W orderId))
  /\ (forall telegramUserId menuItemId,
        answers (fun resp => http_status resp = 200 \/ http_status resp = 400)
                (post_favorites_toggle W telegramUserId menuItemId))
  /\ (forall telegramUserId storeId notificationsEnabled,
        answers (fun resp => http_status resp = 200 \/ http_status resp = 400)
                (post_user_context W telegramUserId storeId notificationsEnabled)).
Proof.
  split; [|split; [|split; [|split]]].
  - intros signature rawBody. unfold post_webhook_stripe.
    apply answers_try_catch_body. destruct (negb (truthy signature)).
    + apply answers_ret. by right.
    + apply answers_bind; [apply handleStripeWebhook_returns|].
      intros result. destruct (success result); apply answers_ret; auto.
  - intros reference stat. unfold post_webhook_swish.
    apply answers_try_catch_body.
    destruct (negb (truthy reference) || negb (truthy stat))%bool.
    + apply answers_ret. by right.
    + apply answers_bind; [apply handleSwishCallback_returns|].
      intros result. destruct (success result); apply answers_ret; auto.
  - intros orderId. unfold post_order_ready.
    apply answers_try_catch_body, answers_bind; [apply markOrderReady_returns|].
    intros [o|]; apply answers_ret; auto.
  - intros u i. unfold post_favorites_toggle.
    apply answers_try_catch_body.
    destruct (negb (truthy u)); [apply answers_ret; by right|].
    destruct (negb (truthy i)); [apply answers_ret; by right|].
    apply answers_bind.
    + unfold toggleUserFavorite. apply answers_bind; [apply toggleFavorite_returns|].
      intros b. by apply answers_ret.
    + intros [i' b]. apply answers_ret. by left.
  - intros u s e. unfold post_user_context.
    apply answers_try_catch_body.
    destruct (negb (truthy u)); [apply answers_ret; by right|].
    apply answers_bind; [apply upsertUserContext_returns|].
    intros c. apply answers_ret. by left.
Qed.
